(** * APsystems ECU scraper: shallow embedding of [apsystems_ecu.py]

    The development follows [custom_components/apsystems_scrap/apsystems_ecu.py]:
    the three data classes [SolarModule], [InverterData] and [EcuData], and
    [EcuClient.get_ecu_data], which reads the summary page, builds the gateway
    record field by field, then walks the rows of the realtime table and
    rebuilds the inverter / module hierarchy from the shape of the rows.
    The callers of the client are embedded after it: the entities of
    [sensor.py], the user step of [config_flow.py] and the coordinator of
    [coordinator.py].

    Conventions of the embedding.
    - A Python [str] is a Rocq [string]; each [ascii] stands for one code
      point below 256 (the only non-ASCII literal of the source is the
      three-code-point marker U+00C2 U+00B0 [C]).
    - Python exceptions are values of [exn]; a computation that may raise and
      that writes to the logger or to the network is a value of [M].
    - [float] and [datetime.strptime] are library primitives: they are the
      variables [float_of_string] and [strptime_opt] of the section [Client];
      [Sample] gives instances on which the results are run. *)

From Stdlib Require Import String Ascii List ZArith Bool Arith Lia.
Import ListNotations.
Open Scope string_scope.
Open Scope list_scope.
Open Scope nat_scope.

(** ** Python string primitives *)

Module PyStr.

(** [str.isspace] on one code point below 256. *)
Definition isspace (c : ascii) : bool :=
  let n := nat_of_ascii c in
  ((9 <=? n) && (n <=? 13)) || ((28 <=? n) && (n <=? 32))
  || (n =? 133) || (n =? 160).

Fixpoint lstrip (s : string) : string :=
  match s with
  | EmptyString => EmptyString
  | String c s' => if isspace c then lstrip s' else s
  end.

Fixpoint rstrip (s : string) : string :=
  match s with
  | EmptyString => EmptyString
  | String c s' =>
      match rstrip s' with
      | EmptyString => if isspace c then EmptyString else String c EmptyString
      | r => String c r
      end
  end.

(** [s.strip()] *)
Definition strip (s : string) : string := rstrip (lstrip s).

(** [s.replace(old, new)] for a non-empty [old]: every non-overlapping
    occurrence, leftmost first.  [skip] counts the characters of a matched
    occurrence that are still to be passed over. *)
Fixpoint replace_from (old new : string) (skip : nat) (s : string) : string :=
  match s with
  | EmptyString => EmptyString
  | String c s' =>
      match skip with
      | S k => replace_from old new k s'
      | O =>
          if prefix old s
          then String.append new (replace_from old new (String.length old - 1) s')
          else String c (replace_from old new 0 s')
      end
  end.

Definition replace (old new s : string) : string := replace_from old new 0 s.

(** [s.split(sep)] for a one-character separator; the result is never
    empty. *)
Fixpoint split (sep : ascii) (s : string) : list string :=
  match s with
  | EmptyString => [EmptyString]
  | String c s' =>
      if Ascii.eqb c sep then EmptyString :: split sep s'
      else match split sep s' with
           | h :: t => String c h :: t
           | [] => [String c EmptyString]
           end
  end.

(** Does the character occur in the string? *)
Fixpoint contains (sep : ascii) (s : string) : bool :=
  match s with
  | EmptyString => false
  | String c s' => Ascii.eqb c sep || contains sep s'
  end.

(** *** [int(s)] in base 10 *)

(** The characters [int] skips around the literal: the ASCII blanks and,
    below 256, U+0085 and U+00A0. *)
Definition int_isspace (c : ascii) : bool :=
  let n := nat_of_ascii c in
  ((9 <=? n) && (n <=? 13)) || (n =? 32) || (n =? 133) || (n =? 160).

Fixpoint int_skip (s : string) : string :=
  match s with
  | EmptyString => EmptyString
  | String c s' => if int_isspace c then int_skip s' else s
  end.

Definition digit_value (c : ascii) : option Z :=
  let n := nat_of_ascii c in
  if (48 <=? n) && (n <=? 57) then Some (Z.of_nat (n - 48)) else None.

(** Digits with single underscores between them.  [prev] tells whether the
    previous character was a digit; the result is the value, the number of
    digits and the unread rest. *)
Fixpoint scan_digits (prev : bool) (acc : Z) (cnt : nat) (s : string)
  : option (Z * nat * string) :=
  match s with
  | EmptyString => if prev then Some (acc, cnt, EmptyString) else None
  | String c s' =>
      match digit_value c with
      | Some d => scan_digits true (10 * acc + d) (S cnt) s'
      | None =>
          if Ascii.eqb c "_"
          then (if prev then scan_digits false acc cnt s' else None)
          else (if prev then Some (acc, cnt, s) else None)
      end
  end.

(** [sys.int_info.default_max_str_digits] *)
Definition int_max_str_digits : nat := 4300.

Definition int_unsigned (s : string) : option Z :=
  match scan_digits false 0 0 s with
  | Some (v, cnt, rest) =>
      match int_skip rest with
      | EmptyString => if cnt <=? int_max_str_digits then Some v else None
      | _ => None
      end
  | None => None
  end.

(** [int(s)]: [None] stands for [ValueError]. *)
Definition int (s : string) : option Z :=
  match int_skip s with
  | String "+" s' => int_unsigned s'
  | String "-" s' => option_map Z.opp (int_unsigned s')
  | s' => int_unsigned s'
  end.

End PyStr.

(** ** Exceptions, logger and network as explicit effects *)

Inductive exn : Type :=
| AttributeError | IndexError | ValueError   (* raised by the parsing code *)
| ClientError | TimeoutError                 (* raised by the HTTP client *)
| CancelledError.                            (* a BaseException, not an Exception *)

(** [isinstance(e, Exception)]: what [except Exception] catches.  A bare
    [except:] catches every [exn]. *)
Definition is_Exception (e : exn) : bool :=
  match e with
  | CancelledError => false
  | _ => true
  end.

Inductive level : Type := WARNING | ERROR.

(** What a run leaves behind: log records ([str(e)] is kept as [e]) and the
    HTTP requests that were sent. *)
Inductive event : Type :=
| Log (l : level) (e : exn)
| Get (url : string).

Inductive outcome (A : Type) : Type :=
| Ok (a : A)
| Raise (e : exn).
Arguments Ok {A} a.
Arguments Raise {A} e.

(** A computation: its outcome and the events it produced, in order. *)
Definition M (A : Type) : Type := (outcome A * list event)%type.

Definition ret {A} (a : A) : M A := (Ok a, []).

Definition bind {A B} (m : M A) (f : A -> M B) : M B :=
  match m with
  | (Ok a, t) => let (r, t') := f a in (r, t ++ t')
  | (Raise e, t) => (Raise e, t)
  end.

Definition raise {A} (e : exn) : M A := (Raise e, []).

Definition emit (ev : event) : M unit := (Ok tt, [ev]).

Notation "x <- c1 ;; c2" := (bind c1 (fun x => c2))
  (at level 61, c1 at next level, right associativity).
Notation "c1 ;; c2" := (bind c1 (fun _ => c2))
  (at level 61, right associativity).

(** [_LOGGER.warning(str(e))] and [_LOGGER.error(str(e))] *)
Definition warning (e : exn) : M unit := emit (Log WARNING e).
Definition error (e : exn) : M unit := emit (Log ERROR e).

(** [try: body  except Exception as e: handler] *)
Definition try_except {A} (body : M A) (handler : exn -> M A) : M A :=
  match body with
  | (Ok a, t) => (Ok a, t)
  | (Raise e, t) =>
      if is_Exception e
      then let (r, t') := handler e in (r, t ++ t')
      else (Raise e, t)
  end.

(** A value that Python may find to be [None]: reading an attribute of
    [None] raises [AttributeError]. *)
Definition attr {A} (o : option A) : M A :=
  match o with
  | Some a => ret a
  | None => raise AttributeError
  end.

(** [l[k]] *)
Definition index {A} (l : list A) (k : nat) : M A :=
  match nth_error l k with
  | Some a => ret a
  | None => raise IndexError
  end.

(** [int(s)] as a computation. *)
Definition py_int (s : string) : M Z :=
  match PyStr.int s with
  | Some z => ret z
  | None => raise ValueError
  end.

(** ** The parsed document (BeautifulSoup) *)

Set Warnings "-register-all".

Inductive node : Type :=
| NavigableString (s : string)
| Tag (name : string) (contents : list node).

(** An element as the navigation sees it: the node and its next siblings. *)
Definition element : Type := (node * list node)%type.

(** [tag.descendants], in document order. *)
Fixpoint descendants (n : node) : list element :=
  match n with
  | NavigableString _ => []
  | Tag _ cs =>
      (fix walk (l : list node) : list element :=
         match l with
         | [] => []
         | c :: l' => (c, l') :: descendants c ++ walk l'
         end) cs
  end.

(** [tag.text] *)
Fixpoint text (n : node) : string :=
  match n with
  | NavigableString s => s
  | Tag _ cs => String.concat "" (map text cs)
  end.

(** [tag.string]: the single string below the tag, if there is one. *)
Fixpoint string_of (n : node) : option string :=
  match n with
  | NavigableString s => Some s
  | Tag _ [c] => string_of c
  | Tag _ _ => None
  end.

Definition is_tag (name : string) (n : node) : bool :=
  match n with
  | Tag nm _ => String.eqb nm name
  | NavigableString _ => false
  end.

Definition has_string (t : string) (n : node) : bool :=
  match string_of n with
  | Some s => String.eqb s t
  | None => false
  end.

(** [tag.find(name)], also written [tag.name] *)
Definition find (name : string) (n : node) : option element :=
  List.find (fun e => is_tag name (fst e)) (descendants n).

(** [tag.find(name, text=t)] *)
Definition find_text (name t : string) (n : node) : option element :=
  List.find (fun e => is_tag name (fst e) && has_string t (fst e)) (descendants n).

(** [tag.find_next_sibling(name)] *)
Fixpoint find_next_sibling_in (name : string) (next : list node) : option element :=
  match next with
  | [] => None
  | n :: next' => if is_tag name n then Some (n, next') else find_next_sibling_in name next'
  end.

Definition find_next_sibling (name : string) (e : element) : option element :=
  find_next_sibling_in name (snd e).

(** [tag.find_all(name)], also [tag.findChildren(name)] *)
Definition find_all (name : string) (n : node) : list element :=
  filter (fun e => is_tag name (fst e)) (descendants n).

(** ** The gateway's HTTP server *)

Inductive response : Type :=
| Fails (e : exn)       (* the request or the read raises *)
| Page (soup : node).   (* the body, parsed by BeautifulSoup *)

Definition server : Type := string -> response.

(** [session.get(url)], [resp.read()] and [BeautifulSoup(data)] *)
Definition http_get (srv : server) (url : string) : M node :=
  emit (Get url) ;;
  match srv url with
  | Fails e => raise e
  | Page soup => ret soup
  end.

(** ** Sample pages and sample primitives

    Small documents in the shape the gateway serves, and stand-ins for
    [float] and [strptime] on which the results below are run: a reader of
    plain decimals and a reader of zero-padded timestamps. *)

Module Sample.

Definition th (l : string) : node := Tag "th" [NavigableString l].
Definition td (v : string) : node := Tag "td" [NavigableString v].
Definition tr (cells : list node) : node := Tag "tr" cells.

Definition document (table : list node) : node :=
  Tag "[document]" [Tag "html" [Tag "body" [Tag "table" table]]].

(** A summary page: one [th]/[td] pair per row. *)
Definition summary_page (fields : list (string * string)) : node :=
  document (map (fun f => tr [th (fst f); td (snd f)]) fields).

(** A realtime page: a header row, then one row of [td] cells per entry. *)
Definition realtime_page (rows : list (list string)) : node :=
  document (tr [th "Inverter ID"; th "Current Power"] :: map (fun r => tr (map td r)) rows).

(** A decimal [m * 10^-k] as the pair [(m, k)]. *)
Definition float : Type := (Z * nat)%type.

Fixpoint decimal (point digit : bool) (m : Z) (k : nat) (s : string) : option float :=
  match s with
  | EmptyString => if digit then Some (m, k) else None
  | String c s' =>
      match PyStr.digit_value c with
      | Some d => decimal point true (10 * m + d) (if point then S k else k) s'
      | None =>
          if Ascii.eqb c "." && negb point then decimal true digit m k s' else None
      end
  end.

Definition float_of_string (s : string) : option float := decimal false false 0 0 s.

Definition float_zero : float := (0%Z, 0).

(** Year, month, day, hour, minute, second. *)
Definition datetime : Type := list Z.

Definition two_digits (a b : ascii) : option Z :=
  match PyStr.digit_value a, PyStr.digit_value b with
  | Some x, Some y => Some (10 * x + y)%Z
  | _, _ => None
  end.

Definition in_range (lo hi : Z) (o : option Z) : option Z :=
  match o with
  | Some z => if ((lo <=? z) && (z <=? hi))%Z then Some z else None
  | None => None
  end.

Definition strptime_opt (s format : string) : option datetime :=
  if negb (String.eqb format "%Y-%m-%d %H:%M:%S") then None else
  match list_ascii_of_string s with
  | [y1; y2; y3; y4; s1; m1; m2; s2; d1; d2; sp; h1; h2; c1; n1; n2; c2; e1; e2] =>
      if Ascii.eqb s1 "-" && Ascii.eqb s2 "-" && Ascii.eqb sp " "
         && Ascii.eqb c1 ":" && Ascii.eqb c2 ":"
      then
        match two_digits y1 y2, two_digits y3 y4,
              in_range 1 12 (two_digits m1 m2), in_range 1 31 (two_digits d1 d2),
              in_range 0 23 (two_digits h1 h2), in_range 0 59 (two_digits n1 n2),
              in_range 0 59 (two_digits e1 e2) with
        | Some yh, Some yl, Some mo, Some d, Some h, Some mi, Some se =>
            Some [(100 * yh + yl)%Z; mo; d; h; mi; se]
        | _, _, _, _, _, _, _ => None
        end
      else None
  | _ => None
  end.

(** The gateway of the examples. *)
Definition summary : node :=
  summary_page
    [("ECU ID", "216000012345"); ("Lifetime generation", "1234.5 kWh");
     ("Last System Power", "123 W"); ("Generation of Current Day", "4.2 kWh");
     ("Number of Inverters", "2"); ("Last Number of Inverters Online", "2");
     ("Current Software Version", "V1.2.3")].

(** The same page with an unreadable power cell. *)
Definition summary_bad_power : node :=
  summary_page
    [("ECU ID", "216000012345"); ("Lifetime generation", "1234.5 kWh");
     ("Last System Power", "bad"); ("Generation of Current Day", "4.2 kWh");
     ("Number of Inverters", "2"); ("Last Number of Inverters Online", "2");
     ("Current Software Version", "V1.2.3")].

(** The same page without the identity row. *)
Definition summary_no_id : node :=
  summary_page
    [("Lifetime generation", "1234.5 kWh"); ("Last System Power", "123 W")].

(** The identity label is there, its value cell is not. *)
Definition summary_id_without_value : node :=
  document [tr [th "ECU ID"]; tr [th "Last System Power"; td "123 W"]].

Definition row_a1 : list string :=
  ["408000111-1"; "123 W"; "36 V"; "50.0 Hz"; "230 V"; "25"; "2024-05-01 12:00:00"].
Definition row_a2 : list string := ["408000111-2"; "118 W"; "35 V"; "229 V"].
Definition row_a3 : list string := ["408000111-3"; "bad"; "34 V"; "228 V"].
Definition row_b1 : list string :=
  ["408000222-1"; "99 W"; "33 V"; "49.9 Hz"; "231 V"; "24"; "yesterday"].
(** A new-inverter row whose identity has no separator. *)
Definition row_c : list string :=
  ["408000333"; "77 W"; "30 V"; "50.0 Hz"; "230 V"; "20"; "2024-05-01 12:00:00"].
Definition row_d : list string :=
  ["408000444"; "66 W"; "29 V"; "50.0 Hz"; "230 V"; "21"; "2024-05-01 12:05:00"].

Definition realtime : node := realtime_page [row_a1; row_a2].

Definition gateway (summary_soup realtime_soup : node) : server :=
  fun url =>
    if String.eqb url "http://192.168.1.50" then Page summary_soup
    else if String.eqb url "http://192.168.1.50/index.php/realtimedata"
         then Page realtime_soup
         else Fails ClientError.

(** A gateway that stops answering after the summary page. *)
Definition gateway_cut (summary_soup : node) (e : exn) : server :=
  fun url =>
    if String.eqb url "http://192.168.1.50" then Page summary_soup
    else Fails e.

End Sample.

(** ** Regular-expression substitution ([re.sub]) *)

Module PyRe.

(** The class [[0-9a-zA-Z]]. *)
Definition alnum (c : ascii) : bool :=
  let n := nat_of_ascii c in
  ((48 <=? n) && (n <=? 57)) || ((65 <=? n) && (n <=? 90))
  || ((97 <=? n) && (n <=? 122)).

(** [re.sub(r"[^0-9a-zA-Z]+", repl, s)]: each maximal run of characters
    outside the class is replaced by [repl]; [in_run] tells whether the
    previous character belonged to such a run. *)
Fixpoint sub_runs (repl : string) (in_run : bool) (s : string) : string :=
  match s with
  | EmptyString => EmptyString
  | String c s' =>
      if alnum c then String c (sub_runs repl false s')
      else if in_run then sub_runs repl true s'
           else String.append repl (sub_runs repl true s')
  end.

(** [re.sub(r"[^0-9a-zA-Z]+", "", s)] *)
Definition strip_non_alnum (s : string) : string := sub_runs "" false s.

(** Every character is in the class. *)
Fixpoint all_alnum (s : string) : bool :=
  match s with
  | EmptyString => true
  | String c s' => alnum c && all_alnum s'
  end.

End PyRe.

(** Python's [+] on strings, as in [a + b + c] and in f-strings. *)
Infix "+++" := String.append (right associativity, at level 60).


(** A list of pairwise different string literals has no duplicate. *)
Ltac distinct_strings :=
  repeat (apply NoDup_cons;
          [ cbn [In]; intros H;
            repeat (destruct H as [H|H]; [discriminate H|]); exact H
          | ]);
  apply NoDup_nil.

(** ** The data classes and the client *)

Notation "'try' body 'except' e => handler" :=
  (try_except body (fun e => handler))
  (at level 10, body at level 200, e name, handler at level 200).

Section Client.

(** Python's [float], with [float(s)] ([None] stands for [ValueError]) and
    the constant [0.0]. *)
Variable float : Type.
Variable float_of_string : string -> option float.
Variable float_zero : float.

(** Python's [datetime], with [datetime.datetime.strptime(s, format)]
    ([None] stands for [ValueError]). *)
Variable datetime : Type.
Variable strptime_opt : string -> string -> option datetime.

(** A numeric field holds what [float(...)] returned or the [int] default
    of its [except] branch. *)
Inductive number : Type :=
| PyInt (z : Z)
| PyFloat (x : float).

(** The report time holds what [strptime] returned or the [int] default. *)
Inductive reportingtime : Type :=
| PyDatetime (d : datetime)
| PyTimeInt (z : Z).

Definition py_float (s : string) : M number :=
  match float_of_string s with
  | Some x => ret (PyFloat x)
  | None => raise ValueError
  end.

Definition strptime (s format : string) : M reportingtime :=
  match strptime_opt s format with
  | Some d => ret (PyDatetime d)
  | None => raise ValueError
  end.

Record SolarModule : Type := {
  sm_id : string;
  sm_power : Z;
  sm_dcvoltage : Z;
  sm_gridvoltage : Z
}.

Record InverterData : Type := {
  inv_id : string;
  inv_freq : number;
  inv_temperature : Z;
  inv_reportingtime : reportingtime;
  inv_solarmodules : list SolarModule
}.

Record EcuData : Type := {
  ecu_id : string;
  ecu_alias : string;
  ecu_address : string;
  ecu_power : Z;
  ecu_lifetimeGeneration : number;
  ecu_dailyEnergy : number;
  ecu_inverters : list InverterData;
  ecu_numberOfInverters : Z;
  ecu_numberOfInvertersOnline : Z;
  ecu_softwareVersion : string
}.

(** [SolarModule(id, power, dcvoltage, gridvoltage)] *)
Definition new_SolarModule (id : string) (power dcvoltage gridvoltage : Z) : SolarModule :=
  {| sm_id := id; sm_power := power;
     sm_dcvoltage := dcvoltage; sm_gridvoltage := gridvoltage |}.

(** [InverterData(id, freq, temp, reportingtime)] *)
Definition new_InverterData (id : string) (freq : number) (temp : Z)
    (rt : reportingtime) : InverterData :=
  {| inv_id := id; inv_freq := freq; inv_temperature := temp;
     inv_reportingtime := rt; inv_solarmodules := [] |}.

(** [EcuData(id, address, alias, lifetimeGeneration, power, dailyEnergy,
    numberOfInverters, numberOfInvertersOnline, softwareVersion)] *)
Definition new_EcuData (id address alias : string) (lifetimeGeneration : number)
    (power : Z) (dailyEnergy : number)
    (numberOfInverters numberOfInvertersOnline : Z)
    (softwareVersion : string) : EcuData :=
  {| ecu_id := id; ecu_alias := alias; ecu_address := address;
     ecu_power := power; ecu_lifetimeGeneration := lifetimeGeneration;
     ecu_dailyEnergy := dailyEnergy; ecu_inverters := [];
     ecu_numberOfInverters := numberOfInverters;
     ecu_numberOfInvertersOnline := numberOfInvertersOnline;
     ecu_softwareVersion := softwareVersion |}.

(** [InverterData.add_solar_module] *)
Definition add_solar_module (inv : InverterData) (sm : SolarModule) : InverterData :=
  {| inv_id := inv_id inv; inv_freq := inv_freq inv;
     inv_temperature := inv_temperature inv;
     inv_reportingtime := inv_reportingtime inv;
     inv_solarmodules := inv_solarmodules inv ++ [sm] |}.

(** [InverterData.get_solarmodule_by_id] *)
Definition get_solarmodule_by_id (inv : InverterData) (id : string) : option SolarModule :=
  List.find (fun x => String.eqb (sm_id x) id) (inv_solarmodules inv).

(** [EcuData.add_inverter] *)
Definition add_inverter (ecu : EcuData) (inverter : InverterData) : EcuData :=
  {| ecu_id := ecu_id ecu; ecu_alias := ecu_alias ecu;
     ecu_address := ecu_address ecu; ecu_power := ecu_power ecu;
     ecu_lifetimeGeneration := ecu_lifetimeGeneration ecu;
     ecu_dailyEnergy := ecu_dailyEnergy ecu;
     ecu_inverters := ecu_inverters ecu ++ [inverter];
     ecu_numberOfInverters := ecu_numberOfInverters ecu;
     ecu_numberOfInvertersOnline := ecu_numberOfInvertersOnline ecu;
     ecu_softwareVersion := ecu_softwareVersion ecu |}.

(** [EcuData.get_inverter_by_id] *)
Definition get_inverter_by_id (ecu : EcuData) (id : string) : option InverterData :=
  List.find (fun x => String.eqb (inv_id x) id) (ecu_inverters ecu).

(** The mis-decoded degree marker of the source: U+00C2 U+00B0 [C]. *)
Definition degree_celsius : string :=
  String (ascii_of_nat 194) (String (ascii_of_nat 176) "C").

Definition time_format : string := "%Y-%m-%d %H:%M:%S".

(** [soup.body.table.find("th", text=label).find_next_sibling("td").text]:
    each step may yield [None], and the next attribute access then raises. *)
Definition find_labeled_value (soup : node) (label : string) : M string :=
  body <- attr (find "body" soup) ;;
  table <- attr (find "table" (fst body)) ;;
  th <- attr (find_text "th" label (fst table)) ;;
  td <- attr (find_next_sibling "td" th) ;;
  ret (text (fst td)).

(** Lines 78-156 of [get_ecu_data]: the gateway record from the summary
    page. *)
Definition extract_summary (soup : node) (address alias : string) : M EcuData :=
  id <- find_labeled_value soup "ECU ID" ;;
  lifetimegen <-
    (try (t <- find_labeled_value soup "Lifetime generation" ;;
          py_float (PyStr.replace " kWh" "" t))
     except e => (warning e ;; ret (PyInt 0))) ;;
  power <-
    (try (t <- find_labeled_value soup "Last System Power" ;;
          py_int (PyStr.replace " W" "" t))
     except e => (warning e ;; ret 0%Z)) ;;
  energy <-
    (try (t <- find_labeled_value soup "Generation of Current Day" ;;
          py_float (PyStr.replace " kWh" "" t))
     except e => (warning e ;; ret (PyFloat float_zero))) ;;
  numberOfInverters <-
    (try (t <- find_labeled_value soup "Number of Inverters" ;; py_int t)
     except e => (warning e ;; ret 0%Z)) ;;
  numberOfInvertersOnline <-
    (try (t <- find_labeled_value soup "Last Number of Inverters Online" ;;
          py_int t)
     except e => (warning e ;; ret 0%Z)) ;;
  softwareVersion <-
    (try (find_labeled_value soup "Current Software Version")
     except e => (warning e ;; ret "")) ;;
  ret (new_EcuData id address alias lifetimegen power energy
         numberOfInverters numberOfInvertersOnline softwareVersion).

(** The loop state: the record under construction and [currInverter].  An
    inverter is never changed after it was added to the record (the variable
    is rebound or the loop is over), so values stand for the objects. *)
Definition loop_state : Type := (EcuData * option InverterData)%type.

(** Lines 216-220 and 263-267: add the open inverter to the record. *)
Definition flush (ecuData : EcuData) (currInverter : option InverterData) : M EcuData :=
  match currInverter with
  | Some inv =>
      try (ret (add_inverter ecuData inv)) except e => (error e ;; ret ecuData)
  | None => ret ecuData
  end.

(** Lines 167-261: the body of the loop, on the texts of the row's [td]
    cells. *)
Definition process_row (st : loop_state) (cells : list string) : M loop_state :=
  let (ecuData, currInverter) := st in
  if 0 <? length cells then
    c0 <- index cells 0 ;;
    let id := PyStr.strip c0 in
    if length cells =? 7 then
      power <-
        (try (c <- index cells 1 ;; py_int (PyStr.strip (PyStr.replace "W" "" c)))
         except e => (warning e ;; ret 0%Z)) ;;
      dc <-
        (try (c <- index cells 2 ;; py_int (PyStr.strip (PyStr.replace "V" "" c)))
         except e => (warning e ;; ret 0%Z)) ;;
      hz <-
        (try (c <- index cells 3 ;; py_float (PyStr.strip (PyStr.replace "Hz" "" c)))
         except e => (warning e ;; ret (PyInt 0))) ;;
      ac <-
        (try (c <- index cells 4 ;; py_int (PyStr.strip (PyStr.replace "V" "" c)))
         except e => (warning e ;; ret 0%Z)) ;;
      temp <-
        (try (c <- index cells 5 ;;
              py_int (PyStr.strip (PyStr.replace degree_celsius "" c)))
         except e => (warning e ;; ret 0%Z)) ;;
      f <-
        (try (c <- index cells 6 ;; strptime (PyStr.strip c) time_format)
         except e => (warning e ;; ret (PyTimeInt 0))) ;;
      ecuData <- flush ecuData currInverter ;;
      let id_parts := PyStr.split "-" id in
      id0 <- index id_parts 0 ;;
      let currInverter := new_InverterData id0 hz temp f in
      currInverter <-
        (try (id1 <- index id_parts 1 ;;
              ret (add_solar_module currInverter (new_SolarModule id1 power dc ac)))
         except e => (error e ;; ret currInverter)) ;;
      ret (ecuData, Some currInverter)
    else
      match currInverter with
      | Some inv =>
          power <-
            (try (c <- index cells 1 ;; py_int (PyStr.strip (PyStr.replace "W" "" c)))
             except e => (warning e ;; ret 0%Z)) ;;
          dc <-
            (try (c <- index cells 2 ;; py_int (PyStr.strip (PyStr.replace "V" "" c)))
             except e => (warning e ;; ret 0%Z)) ;;
          ac <-
            (try (c <- index cells 3 ;; py_int (PyStr.strip (PyStr.replace "V" "" c)))
             except e => (warning e ;; ret 0%Z)) ;;
          inv <-
            (try (let id_parts := PyStr.split "-" id in
                  id1 <- index id_parts 1 ;;
                  ret (add_solar_module inv (new_SolarModule id1 power dc ac)))
             except e => (error e ;; ret inv)) ;;
          ret (ecuData, Some inv)
      | None => ret st
      end
  else ret st.

(** The [for] loop over the rows. *)
Fixpoint for_rows (rows : list (list string)) (st : loop_state) : M loop_state :=
  match rows with
  | [] => ret st
  | cells :: rows' => st' <- process_row st cells ;; for_rows rows' st'
  end.

(** Lines 165-267: the loop from [currInverter = None], then the last
    flush. *)
Definition reconstruct (rows : list (list string)) (ecuData : EcuData) : M EcuData :=
  st <- for_rows rows (ecuData, None) ;;
  flush (fst st) (snd st).

(** [row.find_all("td")] for each [row] of [table.findChildren("tr")], each
    cell read through [.text]. *)
Definition table_rows (table : node) : list (list string) :=
  map (fun row => map (fun c => text (fst c)) (find_all "td" (fst row)))
      (find_all "tr" table).

Definition summary_url (address : string) : string :=
  String.append "http://" address.

Definition realtime_url (address : string) : string :=
  String.append (String.append "http://" address) "/index.php/realtimedata".

(** The body of the outer [try] of [get_ecu_data]. *)
Definition get_ecu_data_body (srv : server) (address alias : string) : M EcuData :=
  soup <- http_get srv (summary_url address) ;;
  ecuData <- extract_summary soup address alias ;;
  soup_realtimedata <- http_get srv (realtime_url address) ;;
  body <- attr (find "body" soup_realtimedata) ;;
  table <- attr (find "table" (fst body)) ;;
  reconstruct (table_rows (fst table)) ecuData.

(** [EcuClient.get_ecu_data]: the bare [except:] turns every exception into
    [None]. *)
Definition get_ecu_data (srv : server) (address alias : string)
  : option EcuData * list event :=
  match get_ecu_data_body srv address alias with
  | (Ok ecuData, t) => (Some ecuData, t)
  | (Raise _, t) => (None, t)
  end.

(** ** The specification's vocabulary

    The definitions below follow the words of the specification
    (coercion with a default, table locator, row state machine); the lemmas
    after them relate each one to the code above. *)

(** Coercion (4.1): the value, or the default and a warning when the cell is
    [missing] or does not parse. *)
Definition coerce {A} (missing : exn) (parse : string -> option A) (default : A)
    (cell : option string) : A * list event :=
  match cell with
  | None => (default, [Log WARNING missing])
  | Some c =>
      match parse c with
      | Some a => (a, [])
      | None => (default, [Log WARNING ValueError])
      end
  end.

(** The parsers of the realtime cells: unit removed, blanks stripped. *)
Definition parse_int (unit : string) (c : string) : option Z :=
  PyStr.int (PyStr.strip (PyStr.replace unit "" c)).

Definition parse_float (unit : string) (c : string) : option number :=
  option_map PyFloat (float_of_string (PyStr.strip (PyStr.replace unit "" c))).

Definition parse_time (c : string) : option reportingtime :=
  option_map PyDatetime (strptime_opt (PyStr.strip c) time_format).

Definition cell_int (unit : string) (cells : list string) (k : nat) : Z * list event :=
  coerce IndexError (parse_int unit) 0%Z (nth_error cells k).

Definition cell_float (unit : string) (cells : list string) (k : nat) : number * list event :=
  coerce IndexError (parse_float unit) (PyInt 0) (nth_error cells k).

Definition cell_time (cells : list string) (k : nat) : reportingtime * list event :=
  coerce IndexError parse_time (PyTimeInt 0) (nth_error cells k).

(** The composite identity of a row and its parts. *)
Definition row_id (cells : list string) : string := PyStr.strip (nth 0 cells "").

Definition id_parts (cells : list string) : list string :=
  PyStr.split "-" (row_id cells).

(** A row is well formed when its identity reads [<inverterId>-<moduleId>]. *)
Definition well_formed (cells : list string) : Prop :=
  PyStr.contains "-" (row_id cells) = true.

(** The module a row carries, with its grid voltage in cell [ac]; none when
    the identity has no second part. *)
Definition row_module (cells : list string) (ac : nat) : option SolarModule :=
  match nth_error (id_parts cells) 1 with
  | Some id1 =>
      Some (new_SolarModule id1 (fst (cell_int "W" cells 1))
              (fst (cell_int "V" cells 2)) (fst (cell_int "V" cells ac)))
  | None => None
  end.

Definition attach (inv : InverterData) (m : option SolarModule) : InverterData :=
  match m with
  | Some sm => add_solar_module inv sm
  | None => inv
  end.

Definition attach_log (m : option SolarModule) : list event :=
  match m with
  | Some _ => []
  | None => [Log ERROR IndexError]
  end.

(** The inverter a new-inverter row opens, before its module is attached. *)
Definition row_inverter (cells : list string) : InverterData :=
  new_InverterData (nth 0 (id_parts cells) "")
    (fst (cell_float "Hz" cells 3))
    (fst (cell_int degree_celsius cells 5))
    (fst (cell_time cells 6)).

Definition open_inverter (cells : list string) : InverterData :=
  attach (row_inverter cells) (row_module cells 4).

Definition flushed (ecuData : EcuData) (currInverter : option InverterData) : EcuData :=
  match currInverter with
  | Some inv => add_inverter ecuData inv
  | None => ecuData
  end.

(** The row state machine (4.4, steps 1 to 5). *)
Definition step (st : loop_state) (cells : list string) : loop_state :=
  if length cells =? 0 then st
  else if length cells =? 7
       then (flushed (fst st) (snd st), Some (open_inverter cells))
       else match snd st with
            | Some inv => (fst st, Some (attach inv (row_module cells 3)))
            | None => st
            end.

Definition step_log (st : loop_state) (cells : list string) : list event :=
  if length cells =? 0 then []
  else if length cells =? 7
       then snd (cell_int "W" cells 1) ++ snd (cell_int "V" cells 2)
            ++ snd (cell_float "Hz" cells 3) ++ snd (cell_int "V" cells 4)
            ++ snd (cell_int degree_celsius cells 5) ++ snd (cell_time cells 6)
            ++ attach_log (row_module cells 4)
       else match snd st with
            | Some _ => snd (cell_int "W" cells 1) ++ snd (cell_int "V" cells 2)
                        ++ snd (cell_int "V" cells 3)
                        ++ attach_log (row_module cells 3)
            | None => []
            end.

Fixpoint steps_log (st : loop_state) (rows : list (list string)) : list event :=
  match rows with
  | [] => []
  | cells :: rows' => step_log st cells ++ steps_log (step st cells) rows'
  end.

(** Table locator (4.2): the text of the value cell next to a label, if
    both are there. *)
Definition locate_table (soup : node) : option node :=
  match find "body" soup with
  | Some body => option_map fst (find "table" (fst body))
  | None => None
  end.

Definition locate (soup : node) (label : string) : option string :=
  match locate_table soup with
  | Some table =>
      match find_text "th" label table with
      | Some th => option_map (fun td => text (fst td)) (find_next_sibling "td" th)
      | None => None
      end
  | None => None
  end.

(** The non-identity fields of the summary page. *)
Inductive field : Type :=
| LifetimeGeneration | LastSystemPower | DailyGeneration
| InverterCount | OnlineInverterCount | FirmwareVersion.

Inductive value : Type :=
| VNumber (n : number)
| VInt (z : Z)
| VStr (s : string).

Definition label (f : field) : string :=
  match f with
  | LifetimeGeneration => "Lifetime generation"
  | LastSystemPower => "Last System Power"
  | DailyGeneration => "Generation of Current Day"
  | InverterCount => "Number of Inverters"
  | OnlineInverterCount => "Last Number of Inverters Online"
  | FirmwareVersion => "Current Software Version"
  end.

(** The parsers of the summary cells: unit suffix removed, no strip. *)
Definition summary_float (unit c : string) : option number :=
  option_map PyFloat (float_of_string (PyStr.replace unit "" c)).

Definition summary_int (unit c : string) : option Z :=
  PyStr.int (PyStr.replace unit "" c).

Definition parse_field (f : field) (c : string) : option value :=
  match f with
  | LifetimeGeneration => option_map VNumber (summary_float " kWh" c)
  | LastSystemPower => option_map VInt (summary_int " W" c)
  | DailyGeneration => option_map VNumber (summary_float " kWh" c)
  | InverterCount => option_map VInt (PyStr.int c)
  | OnlineInverterCount => option_map VInt (PyStr.int c)
  | FirmwareVersion => Some (VStr c)
  end.

(** The documented defaults: [0], [0.0] and the empty string. *)
Definition default_value (f : field) : value :=
  match f with
  | LifetimeGeneration => VNumber (PyInt 0)
  | LastSystemPower => VInt 0
  | DailyGeneration => VNumber (PyFloat float_zero)
  | InverterCount => VInt 0
  | OnlineInverterCount => VInt 0
  | FirmwareVersion => VStr ""
  end.

Definition get_field (f : field) (ecu : EcuData) : value :=
  match f with
  | LifetimeGeneration => VNumber (ecu_lifetimeGeneration ecu)
  | LastSystemPower => VInt (ecu_power ecu)
  | DailyGeneration => VNumber (ecu_dailyEnergy ecu)
  | InverterCount => VInt (ecu_numberOfInverters ecu)
  | OnlineInverterCount => VInt (ecu_numberOfInvertersOnline ecu)
  | FirmwareVersion => VStr (ecu_softwareVersion ecu)
  end.

(** What the field holds on the page: [None] when the label is missing or
    the cell is malformed. *)
Definition field_on_page (soup : node) (f : field) : option value :=
  match locate soup (label f) with
  | Some c => parse_field f c
  | None => None
  end.

(** The summary extractor (4.3) as a record of coerced fields. *)
Definition summary_record (soup : node) (id address alias : string) : EcuData :=
  new_EcuData id address alias
    (fst (coerce AttributeError (summary_float " kWh") (PyInt 0)
            (locate soup "Lifetime generation")))
    (fst (coerce AttributeError (summary_int " W") 0%Z
            (locate soup "Last System Power")))
    (fst (coerce AttributeError (summary_float " kWh") (PyFloat float_zero)
            (locate soup "Generation of Current Day")))
    (fst (coerce AttributeError PyStr.int 0%Z (locate soup "Number of Inverters")))
    (fst (coerce AttributeError PyStr.int 0%Z
            (locate soup "Last Number of Inverters Online")))
    (fst (coerce AttributeError (@Some string) ""
            (locate soup "Current Software Version"))).

Definition summary_log (soup : node) : list event :=
  snd (coerce AttributeError (summary_float " kWh") (PyInt 0)
         (locate soup "Lifetime generation"))
  ++ snd (coerce AttributeError (summary_int " W") 0%Z
            (locate soup "Last System Power"))
  ++ snd (coerce AttributeError (summary_float " kWh") (PyFloat float_zero)
            (locate soup "Generation of Current Day"))
  ++ snd (coerce AttributeError PyStr.int 0%Z (locate soup "Number of Inverters"))
  ++ snd (coerce AttributeError PyStr.int 0%Z
            (locate soup "Last Number of Inverters Online"))
  ++ snd (coerce AttributeError (@Some string) ""
            (locate soup "Current Software Version")).

(** The snapshot of a successful fetch (4.5). *)
Definition snapshot (soup table : node) (id address alias : string) : EcuData :=
  let st := fold_left step (table_rows table)
              (summary_record soup id address alias, None) in
  flushed (fst st) (snd st).

(** The number of new-inverter rows of a row sequence. *)
Definition new_inverter_rows (rows : list (list string)) : nat :=
  length (filter (fun r => length r =? 7) rows).

(** A continuation row: a non-zero cell count other than seven. *)
Definition continuation (cells : list string) : Prop :=
  length cells <> 0 /\ length cells <> 7.

(** The inverters of a loop state: those flushed, then the open one. *)
Definition seen_inverters (st : loop_state) : list InverterData :=
  ecu_inverters (fst st) ++ match snd st with Some inv => [inv] | None => [] end.

(** ** Measures of rows, records and traces *)

(** A row the loop looks at: at least one [td] cell. *)
Definition nonempty_row (cells : list string) : bool := negb (length cells =? 0).

(** The inverter identity a new-inverter row carries: [id_parts[0]]. *)
Definition row_inverter_id (cells : list string) : string := nth 0 (id_parts cells) "".

(** All the modules of a record, inverter after inverter. *)
Definition all_modules (ecu : EcuData) : list SolarModule :=
  flat_map inv_solarmodules (ecu_inverters ecu).

(** The same record with another inverter list. *)
Definition with_inverters (ecu : EcuData) (l : list InverterData) : EcuData :=
  {| ecu_id := ecu_id ecu; ecu_alias := ecu_alias ecu;
     ecu_address := ecu_address ecu; ecu_power := ecu_power ecu;
     ecu_lifetimeGeneration := ecu_lifetimeGeneration ecu;
     ecu_dailyEnergy := ecu_dailyEnergy ecu;
     ecu_inverters := l;
     ecu_numberOfInverters := ecu_numberOfInverters ecu;
     ecu_numberOfInvertersOnline := ecu_numberOfInvertersOnline ecu;
     ecu_softwareVersion := ecu_softwareVersion ecu |}.

Definition all_fields : list field :=
  [LifetimeGeneration; LastSystemPower; DailyGeneration;
   InverterCount; OnlineInverterCount; FirmwareVersion].

Definition field_missing (soup : node) (f : field) : bool :=
  match field_on_page soup f with
  | Some _ => false
  | None => true
  end.

(** The open inverter as a list. *)
Definition open_list (cur : option InverterData) : list InverterData :=
  match cur with
  | Some inv => [inv]
  | None => []
  end.

(** The URLs requested in a trace, in order. *)
Definition requests (t : list event) : list string :=
  flat_map (fun ev => match ev with Get url => [url] | Log _ _ => [] end) t.

(** The records the row loop may write. *)
Definition row_record (ev : event) : Prop :=
  ev = Log WARNING ValueError \/ ev = Log WARNING IndexError
  \/ ev = Log ERROR IndexError.


(** The modules of a loop state: those of its flushed and open inverters. *)
Definition seen_modules (st : loop_state) : list SolarModule :=
  flat_map inv_solarmodules (seen_inverters st).

(** The record a summary field leaves in the log: an [AttributeError] when
    the label or its value cell is missing, a [ValueError] when the cell
    does not parse, nothing otherwise. *)
Definition field_warning (soup : node) (f : field) : list event :=
  match locate soup (label f) with
  | None => [Log WARNING AttributeError]
  | Some c =>
      match parse_field f c with
      | Some _ => []
      | None => [Log WARNING ValueError]
      end
  end.


(** ** The sensor platform ([sensor.py]) *)

(** [const.DOMAIN]; [const.py] is not among the sources. *)
Variable DOMAIN : string.

(** [datetime.datetime.today()], evaluated once when [sensor.py] is
    loaded. *)
Variable import_time : datetime.

(** The unit constants the descriptions name. *)
Inductive measure_unit : Type := WATT | KILO_WATT | HERTZ | CELSIUS | VOLT.

Inductive state_class : Type := MEASUREMENT | TOTAL_INCREASING.

(** What a [value_fn] returns: the attribute it reads, with its Python
    type. *)
Inductive native : Type :=
| NativeInt (z : Z)
| NativeNumber (n : number)
| NativeStr (s : string)
| NativeTime (t : reportingtime).

(** [EcuSensorEntityDescription], over the data [D] its functions read and
    the type [N] of its [name_fn] ([unit] where [name_fn] is [None]). *)
Record EcuSensorEntityDescription (D N : Type) : Type := {
  d_name : option string;
  d_name_fn : N;
  d_key : string;
  d_translation_key : string;
  d_value_fn : D -> native;
  d_attribute_fn : D -> list (string * string);
  d_icon : string;
  d_state_class : option state_class;
  d_unit_of_measurement : option measure_unit;
  d_last_reset : option datetime
}.
Arguments d_name {D N}.
Arguments d_name_fn {D N}.
Arguments d_key {D N}.
Arguments d_translation_key {D N}.
Arguments d_value_fn {D N}.
Arguments d_attribute_fn {D N}.
Arguments d_icon {D N}.
Arguments d_state_class {D N}.
Arguments d_unit_of_measurement {D N}.
Arguments d_last_reset {D N}.

Definition ECU_SENSOR_LIST : list (EcuSensorEntityDescription EcuData unit) :=
  [ {| d_name := Some "Last System Power"; d_name_fn := tt;
       d_key := "power"; d_translation_key := "power";
       d_value_fn := fun data => NativeInt (ecu_power data);
       d_attribute_fn := fun _ => [];
       d_icon := "mdi:lightning-bolt";
       d_state_class := Some MEASUREMENT;
       d_unit_of_measurement := Some WATT; d_last_reset := None |};
    {| d_name := Some "Lifetime generation"; d_name_fn := tt;
       d_key := "energy_lifetime"; d_translation_key := "energy_lifetime";
       d_value_fn := fun data => NativeNumber (ecu_lifetimeGeneration data);
       d_attribute_fn := fun _ => [];
       d_icon := "mdi:lightning-bolt";
       d_state_class := Some TOTAL_INCREASING;
       d_unit_of_measurement := Some KILO_WATT; d_last_reset := None |};
    {| d_name := Some "Generation of Current Day"; d_name_fn := tt;
       d_key := "energy_day"; d_translation_key := "energy_day";
       d_value_fn := fun data => NativeNumber (ecu_dailyEnergy data);
       d_attribute_fn := fun _ => [];
       d_icon := "mdi:lightning-bolt";
       d_state_class := Some TOTAL_INCREASING;
       d_unit_of_measurement := Some KILO_WATT;
       d_last_reset := Some import_time |};
    {| d_name := Some "Number of Inverters"; d_name_fn := tt;
       d_key := "number_inverters"; d_translation_key := "number_inverters";
       d_value_fn := fun data => NativeInt (ecu_numberOfInverters data);
       d_attribute_fn := fun _ => [];
       d_icon := "mdi:storage-tank-outline";
       d_state_class := None;
       d_unit_of_measurement := None; d_last_reset := None |};
    {| d_name := Some "Number of online Inverters"; d_name_fn := tt;
       d_key := "number_online_inverters";
       d_translation_key := "number_online_inverters";
       d_value_fn := fun data => NativeInt (ecu_numberOfInvertersOnline data);
       d_attribute_fn := fun _ => [];
       d_icon := "mdi:storage-tank";
       d_state_class := None;
       d_unit_of_measurement := None; d_last_reset := None |};
    {| d_name := Some "Software Version"; d_name_fn := tt;
       d_key := "sofware_version"; d_translation_key := "sofware_version";
       d_value_fn := fun data => NativeStr (ecu_softwareVersion data);
       d_attribute_fn := fun _ => [];
       d_icon := "mdi:numeric";
       d_state_class := None;
       d_unit_of_measurement := None; d_last_reset := None |} ].

Definition INVERTER_SENSOR_LIST
  : list (EcuSensorEntityDescription InverterData (InverterData -> string)) :=
  [ {| d_name := None;
       d_name_fn := fun data => inv_id data +++ " Frequency";
       d_key := "freq"; d_translation_key := "freq";
       d_value_fn := fun data => NativeNumber (inv_freq data);
       d_attribute_fn := fun _ => [];
       d_icon := "mdi:sine-wave";
       d_state_class := None;
       d_unit_of_measurement := Some HERTZ; d_last_reset := None |};
    {| d_name := None;
       d_name_fn := fun data => inv_id data +++ " Temperature";
       d_key := "temperature"; d_translation_key := "temperature";
       d_value_fn := fun data => NativeInt (inv_temperature data);
       d_attribute_fn := fun _ => [];
       d_icon := "mdi:temperature-celsius";
       d_state_class := None;
       d_unit_of_measurement := Some CELSIUS; d_last_reset := None |};
    {| d_name := None;
       d_name_fn := fun data => inv_id data +++ " Reporting time";
       d_key := "reporting_time"; d_translation_key := "reporting_time";
       d_value_fn := fun data => NativeTime (inv_reportingtime data);
       d_attribute_fn := fun _ => [];
       d_icon := "mdi:calendar";
       d_state_class := None;
       d_unit_of_measurement := None; d_last_reset := None |} ].

Definition SOLAR_MODULE_SENSOR_LIST
  : list (EcuSensorEntityDescription SolarModule (SolarModule -> string -> string)) :=
  [ {| d_name := None;
       d_name_fn := fun data inv => inv +++ "-" +++ sm_id data +++ " Power";
       d_key := "power"; d_translation_key := "power";
       d_value_fn := fun data => NativeInt (sm_power data);
       d_attribute_fn := fun _ => [];
       d_icon := "mdi:lightning-bolt";
       d_state_class := Some MEASUREMENT;
       d_unit_of_measurement := Some WATT; d_last_reset := None |};
    {| d_name := None;
       d_name_fn := fun data inv => inv +++ "-" +++ sm_id data +++ " DC voltage";
       d_key := "dcvoltage"; d_translation_key := "dcvoltage";
       d_value_fn := fun data => NativeInt (sm_dcvoltage data);
       d_attribute_fn := fun _ => [];
       d_icon := "mdi:current-dc";
       d_state_class := None;
       d_unit_of_measurement := Some VOLT; d_last_reset := None |};
    {| d_name := None;
       d_name_fn := fun data inv => inv +++ "-" +++ sm_id data +++ " AC voltage";
       d_key := "acvoltage"; d_translation_key := "acvoltage";
       d_value_fn := fun data => NativeInt (sm_gridvoltage data);
       d_attribute_fn := fun _ => [];
       d_icon := "mdi:current-ac";
       d_state_class := None;
       d_unit_of_measurement := Some VOLT; d_last_reset := None |} ].

(** [DeviceInfo(identifiers={(DOMAIN, ecu._id)}, name=ecu._alias)] *)
Record DeviceInfo : Type := {
  identifiers : list (string * string);
  device_name : string
}.

(** The attributes the three constructors set. *)
Record entity_attrs : Type := {
  _attr_device_info : DeviceInfo;
  _attr_unique_id : string;
  entity_id : string;
  _attr_icon : string;
  _attr_name : option string;
  _attr_native_value : native;
  _attr_native_unit_of_measurement : option measure_unit;
  _attr_last_reset : option datetime
}.

(** The three entity classes, each with its description and the identities
    it keeps for later lookups. *)
Inductive entity : Type :=
| EcuSensor (entity_description : EcuSensorEntityDescription EcuData unit)
    (attrs : entity_attrs)
| InverterSensor
    (entity_description : EcuSensorEntityDescription InverterData (InverterData -> string))
    (_id : string) (attrs : entity_attrs)
| SolarModuleSensor
    (entity_description
     : EcuSensorEntityDescription SolarModule (SolarModule -> string -> string))
    (_inv_id _id : string) (attrs : entity_attrs).

Definition attrs_of (e : entity) : entity_attrs :=
  match e with
  | EcuSensor _ a => a
  | InverterSensor _ _ a => a
  | SolarModuleSensor _ _ _ a => a
  end.

(** [self._attr_native_value = v] *)
Definition set_native_value (a : entity_attrs) (v : native) : entity_attrs :=
  {| _attr_device_info := _attr_device_info a;
     _attr_unique_id := _attr_unique_id a;
     entity_id := entity_id a;
     _attr_icon := _attr_icon a;
     _attr_name := _attr_name a;
     _attr_native_value := v;
     _attr_native_unit_of_measurement := _attr_native_unit_of_measurement a;
     _attr_last_reset := _attr_last_reset a |}.

(** The body of [EcuSensor.__init__] once [ecu = coordinator.data] is known
    to be a record. *)
Definition init_EcuSensor (description : EcuSensorEntityDescription EcuData unit)
    (ecu : EcuData) : entity :=
  let unique_id := "ecu_" +++ ecu_alias ecu +++ "_" +++ d_key description in
  EcuSensor description
    {| _attr_device_info :=
         {| identifiers := [(DOMAIN, ecu_id ecu)]; device_name := ecu_alias ecu |};
       _attr_unique_id := unique_id;
       entity_id := "sensor." +++ unique_id;
       _attr_icon := d_icon description;
       _attr_name := None;
       _attr_native_value := d_value_fn description ecu;
       _attr_native_unit_of_measurement := d_unit_of_measurement description;
       _attr_last_reset := d_last_reset description |}.

(** [EcuSensor.__init__]; [data] is [coordinator.data], and [ecu._id] on
    [None] raises. *)
Definition new_EcuSensor (description : EcuSensorEntityDescription EcuData unit)
    (data : option EcuData) : M entity :=
  ecu <- attr data ;;
  ret (init_EcuSensor description ecu).

(** The body of [InverterSensor.__init__]. *)
Definition init_InverterSensor
    (description : EcuSensorEntityDescription InverterData (InverterData -> string))
    (inverter : InverterData) (ecu : EcuData) : entity :=
  let _id := inv_id inverter in
  let unique_id :=
    "inverter_" +++ ecu_alias ecu +++ "_" +++ _id +++ "_" +++ d_key description in
  InverterSensor description _id
    {| _attr_device_info :=
         {| identifiers := [(DOMAIN, ecu_id ecu)]; device_name := ecu_alias ecu |};
       _attr_unique_id := unique_id;
       entity_id := "sensor." +++ unique_id;
       _attr_icon := d_icon description;
       _attr_name := Some (d_name_fn description inverter);
       _attr_native_value := d_value_fn description inverter;
       _attr_native_unit_of_measurement := d_unit_of_measurement description;
       _attr_last_reset := None |}.

(** [InverterSensor.__init__] *)
Definition new_InverterSensor
    (description : EcuSensorEntityDescription InverterData (InverterData -> string))
    (inverter : InverterData) (data : option EcuData) : M entity :=
  ecu <- attr data ;;
  ret (init_InverterSensor description inverter ecu).

(** The body of [SolarModuleSensor.__init__]. *)
Definition init_SolarModuleSensor
    (description
     : EcuSensorEntityDescription SolarModule (SolarModule -> string -> string))
    (module : SolarModule) (inverter_id : string) (ecu : EcuData) : entity :=
  let _inv_id := inverter_id in
  let _id := PyRe.strip_non_alnum (sm_id module) in
  let unique_id :=
    "module_" +++ ecu_alias ecu +++ "_" +++ _inv_id +++ "_" +++ _id
    +++ "_" +++ d_key description in
  SolarModuleSensor description _inv_id _id
    {| _attr_device_info :=
         {| identifiers := [(DOMAIN, ecu_id ecu)]; device_name := ecu_alias ecu |};
       _attr_unique_id := unique_id;
       entity_id := "sensor." +++ unique_id;
       _attr_icon := d_icon description;
       _attr_name := Some (d_name_fn description module inverter_id);
       _attr_native_value := d_value_fn description module;
       _attr_native_unit_of_measurement := d_unit_of_measurement description;
       _attr_last_reset := None |}.

(** [SolarModuleSensor.__init__] *)
Definition new_SolarModuleSensor
    (description
     : EcuSensorEntityDescription SolarModule (SolarModule -> string -> string))
    (module : SolarModule) (inverter_id : string) (data : option EcuData) : M entity :=
  ecu <- attr data ;;
  ret (init_SolarModuleSensor description module inverter_id ecu).

(** [for x in l: list_sensor.append(f(x))] *)
Fixpoint for_each {A B} (f : A -> M B) (l : list A) : M (list B) :=
  match l with
  | [] => ret []
  | x :: l' => y <- f x ;; ys <- for_each f l' ;; ret (y :: ys)
  end.

(** The same with several appends per round. *)
Fixpoint for_each_extend {A B} (f : A -> M (list B)) (l : list A) : M (list B) :=
  match l with
  | [] => ret []
  | x :: l' => ys <- f x ;; zs <- for_each_extend f l' ;; ret (ys ++ zs)
  end.

(** [async_setup_entry]: the entities handed to [async_add_entities];
    [data] is [coordinator.data]. *)
Definition async_setup_entry (data : option EcuData) : M (list entity) :=
  let ecu := data in
  ecu_sensors <- for_each (fun sensor => new_EcuSensor sensor data) ECU_SENSOR_LIST ;;
  ecu <- attr ecu ;;
  others <-
    for_each_extend
      (fun inverter =>
         inverter_sensors <-
           for_each (fun sensor_inverter =>
                       new_InverterSensor sensor_inverter inverter data)
             INVERTER_SENSOR_LIST ;;
         module_sensors <-
           for_each_extend
             (fun module =>
                for_each (fun sensor_solar_module =>
                            new_SolarModuleSensor sensor_solar_module module
                              (inv_id inverter) data)
                  SOLAR_MODULE_SENSOR_LIST)
             (inv_solarmodules inverter) ;;
         ret (inverter_sensors ++ module_sensors))
      (ecu_inverters ecu) ;;
  ret (ecu_sensors ++ others).

(** [_handle_coordinator_update] of the three classes: the entity after
    [_attr_native_value] was assigned, which is when
    [async_write_ha_state()] is called; [data] is [coordinator.data], and a
    [value_fn] applied to [None] raises [AttributeError]. *)
Definition _handle_coordinator_update (e : entity) (data : option EcuData) : M entity :=
  match e with
  | EcuSensor description a =>
      ecu <- attr data ;;
      ret (EcuSensor description (set_native_value a (d_value_fn description ecu)))
  | InverterSensor description _id a =>
      ecu <- attr data ;;
      inverter <- attr (get_inverter_by_id ecu _id) ;;
      ret (InverterSensor description _id
             (set_native_value a (d_value_fn description inverter)))
  | SolarModuleSensor description _inv_id _id a =>
      ecu <- attr data ;;
      inverter <- attr (get_inverter_by_id ecu _inv_id) ;;
      module <- attr (get_solarmodule_by_id inverter _id) ;;
      ret (SolarModuleSensor description _inv_id _id
             (set_native_value a (d_value_fn description module)))
  end.


(** The entities of a snapshot, in the order [async_setup_entry] appends
    them. *)
Definition module_entities (ecu : EcuData) (inverter : InverterData)
    (module : SolarModule) : list entity :=
  map (fun d => init_SolarModuleSensor d module (inv_id inverter) ecu)
      SOLAR_MODULE_SENSOR_LIST.

Definition inverter_entities (ecu : EcuData) (inverter : InverterData) : list entity :=
  map (fun d => init_InverterSensor d inverter ecu) INVERTER_SENSOR_LIST
  ++ flat_map (module_entities ecu inverter) (inv_solarmodules inverter).

Definition entities_of (ecu : EcuData) : list entity :=
  map (fun d => init_EcuSensor d ecu) ECU_SENSOR_LIST
  ++ flat_map (inverter_entities ecu) (ecu_inverters ecu).

Definition unique_id_of (e : entity) : string := _attr_unique_id (attrs_of e).

(** The unique ids [async_setup_entry] gives out, by kind of entity. *)
Definition ecu_unique_ids (alias : string) : list string :=
  map (fun k => "ecu_" +++ alias +++ "_" +++ k)
      ["power"; "energy_lifetime"; "energy_day"; "number_inverters";
       "number_online_inverters"; "sofware_version"].

Definition inverter_unique_ids (alias id : string) : list string :=
  map (fun k => "inverter_" +++ alias +++ "_" +++ id +++ "_" +++ k)
      ["freq"; "temperature"; "reporting_time"].

Definition module_unique_ids (alias inverter_id id : string) : list string :=
  map (fun k => "module_" +++ alias +++ "_" +++ inverter_id +++ "_" +++ id +++ "_" +++ k)
      ["power"; "dcvoltage"; "acvoltage"].


(** ** The client object, the configuration flow and the coordinator *)

(** What the flow and the coordinator leave behind: the events of the
    client, [_LOGGER.info] of [EcuClient.__init__] and [_LOGGER.exception]
    of the flow. *)
Inductive flow_event : Type :=
| ClientEvent (ev : event)
| LogInfo (msg : string)
| LogException (msg : string).

(** [EcuClient] *)
Record EcuClient : Type := {
  client_address : string;
  client_alias : string
}.

(** [EcuClient(address, alias)] *)
Definition new_EcuClient (address alias : string) : EcuClient * list flow_event :=
  ({| client_address := address; client_alias := alias |},
   [LogInfo "Init ApSystems ECU Client integration"]).

(** [client.get_ecu_data()] *)
Definition client_get_ecu_data (srv : server) (client : EcuClient)
  : option EcuData * list flow_event :=
  let (response, t) := get_ecu_data srv (client_address client) (client_alias client) in
  (response, map ClientEvent t).

(** The dictionary the form hands over: [STEP_DATA_SCHEMA] requires both
    keys, each a [str]. *)
Record user_input : Type := {
  data_address : string;
  data_alias : string
}.

Definition STEP_DATA_SCHEMA : list string := ["address"; "alias"].

Inductive flow_exn : Type := CannotConnect.

(** [d[k] = v] on a dictionary kept as an association list. *)
Fixpoint dict_set (k v : string) (d : list (string * string)) : list (string * string) :=
  match d with
  | [] => [(k, v)]
  | (k', v') :: d' =>
      if String.eqb k' k then (k, v) :: d' else (k', v') :: dict_set k v d'
  end.

(** [d[k]], [None] standing for [KeyError]. *)
Fixpoint dict_get (k : string) (d : list (string * string)) : option string :=
  match d with
  | [] => None
  | (k', v') :: d' => if String.eqb k' k then Some v' else dict_get k d'
  end.

(** [validate_input]: the value of [info["ECU"]], or [CannotConnect]. *)
Definition validate_input (srv : server) (data : user_input)
  : (user_input + flow_exn) * list flow_event :=
  let (client, t0) := new_EcuClient (data_address data) (data_alias data) in
  let (response, t) := client_get_ecu_data srv client in
  match response with
  | None => (inr CannotConnect, t0 ++ t)
  | Some _ =>
      (inl {| data_address := data_address data; data_alias := data_alias data |},
       t0 ++ t)
  end.

Inductive FlowResult : Type :=
| CreateEntry (title : string) (data : user_input)
| ShowForm (step_id : string) (data_schema : list string)
    (errors : list (string * string)).

(** [ConfigFlow.async_step_user] *)
Definition async_step_user (srv : server) (data : option user_input)
  : FlowResult * list flow_event :=
  let errors : list (string * string) := [] in
  match data with
  | Some data =>
      let data := {| data_address := data_address data;
                     data_alias := PyRe.strip_non_alnum (data_alias data) |} in
      match validate_input srv data with
      | (inl info, t) => (CreateEntry (data_alias info) data, t)
      | (inr CannotConnect, t) =>
          let errors := dict_set "base" "cannot_connect" errors in
          let t := t ++ [LogException "Cannot connect"] in
          let errors := dict_set "base" "unknown" errors in
          (ShowForm "user" STEP_DATA_SCHEMA errors, t)
      end
  | None => (ShowForm "user" STEP_DATA_SCHEMA errors, [])
  end.

(** [EcuUpdateCoordinator]: its client and its update interval in
    minutes. *)
Record EcuUpdateCoordinator : Type := {
  _ecuClient : EcuClient;
  update_interval : nat
}.

(** [EcuUpdateCoordinator(hass, entry)], from [entry.data]. *)
Definition new_EcuUpdateCoordinator (entry_data : user_input)
  : EcuUpdateCoordinator * list flow_event :=
  let (client, t) := new_EcuClient (data_address entry_data) (data_alias entry_data) in
  ({| _ecuClient := client; update_interval := 5 |}, t).

(** [EcuUpdateCoordinator._async_update_data] *)
Definition _async_update_data (srv : server) (c : EcuUpdateCoordinator)
  : option EcuData * list flow_event :=
  client_get_ecu_data srv (_ecuClient c).


(** The gateway serves both pages, with an identity on the first and a
    table on the second. *)
Definition gateway_answers (srv : server) (address : string) : bool :=
  match srv (summary_url address) with
  | Page soup =>
      match locate soup "ECU ID", srv (realtime_url address) with
      | Some _, Page soup_realtimedata =>
          match locate_table soup_realtimedata with
          | Some _ => true
          | None => false
          end
      | _, _ => false
      end
  | Fails _ => false
  end.


(** ** Python strings: examples *)

Example strip_ex : PyStr.strip "  12 W  " = "12 W".
Proof. reflexivity. Qed.

Example replace_ex :
  PyStr.replace " kWh" "" "1.5 kWh" = "1.5"
  /\ PyStr.replace "aa" "b" "aaaxaa" = "baxb".
Proof. split; reflexivity. Qed.

Example split_ex :
  PyStr.split "-" "4080-1-x" = ["4080"; "1"; "x"]
  /\ PyStr.split "-" "4080" = ["4080"].
Proof. split; reflexivity. Qed.

Example int_ex :
  PyStr.int " -1_000 " = Some (-1000)%Z
  /\ PyStr.int "0123" = Some 123%Z
  /\ PyStr.int "1__0" = None /\ PyStr.int "" = None
  /\ PyStr.int "12.5" = None /\ PyStr.int "_1" = None
  /\ PyStr.int "1_" = None /\ PyStr.int "+ 1" = None.
Proof. repeat split; reflexivity. Qed.

(** ** The effects: equations *)

Lemma fst_bind {A B} (m : M A) (f : A -> M B) :
  fst (bind m f) = match fst m with Ok a => fst (f a) | Raise e => Raise e end.
Proof.
  destruct m as [[a|e] t]; cbn; [destruct (f a) |]; reflexivity.
Qed.

Lemma snd_bind {A B} (m : M A) (f : A -> M B) :
  snd (bind m f) = match fst m with Ok a => snd m ++ snd (f a) | Raise _ => snd m end.
Proof.
  destruct m as [[a|e] t]; cbn; [destruct (f a) |]; reflexivity.
Qed.

Lemma bind_Ok {A B} (a : A) (t : list event) (f : A -> M B) :
  bind (Ok a, t) f = (fst (f a), t ++ snd (f a)).
Proof. cbn. destruct (f a); reflexivity. Qed.

Lemma bind_ret {A B} (a : A) (f : A -> M B) : bind (ret a) f = f a.
Proof. unfold ret. rewrite bind_Ok. destruct (f a); reflexivity. Qed.

Lemma pair_eq {A B} (p : A * B) (a : A) (b : B) :
  fst p = a -> snd p = b -> p = (a, b).
Proof. destruct p; cbn; intros; subst; reflexivity. Qed.

(** One guarded cell of the realtime table. *)
Lemma try_cell {A} (cells : list string) (k : nat) (P : string -> M A)
    (parse : string -> option A) (d : A) :
  (forall c, P c = match parse c with Some a => ret a | None => raise ValueError end) ->
  (try (c <- index cells k ;; P c) except e => (warning e ;; ret d))
  = (Ok (fst (coerce IndexError parse d (nth_error cells k))),
     snd (coerce IndexError parse d (nth_error cells k))).
Proof.
  intros HP. unfold index, coerce.
  destruct (nth_error cells k) as [c|]; [|reflexivity].
  rewrite bind_ret, HP. destruct (parse c); reflexivity.
Qed.

Lemma py_int_parse (unit c : string) :
  py_int (PyStr.strip (PyStr.replace unit "" c))
  = match parse_int unit c with Some a => ret a | None => raise ValueError end.
Proof. reflexivity. Qed.

Lemma py_float_parse (unit c : string) :
  py_float (PyStr.strip (PyStr.replace unit "" c))
  = match parse_float unit c with Some a => ret a | None => raise ValueError end.
Proof.
  unfold py_float, parse_float.
  destruct (float_of_string _); reflexivity.
Qed.

Lemma strptime_parse (c : string) :
  strptime (PyStr.strip c) time_format
  = match parse_time c with Some a => ret a | None => raise ValueError end.
Proof.
  unfold strptime, parse_time.
  destruct (strptime_opt _ _); reflexivity.
Qed.

Lemma flush_eq (ecuData : EcuData) (cur : option InverterData) :
  flush ecuData cur = (Ok (flushed ecuData cur), []).
Proof. destruct cur; reflexivity. Qed.

Lemma try_attach (inv : InverterData) (cells : list string) (power dc ac : Z) :
  (try (id1 <- index (id_parts cells) 1 ;;
        ret (add_solar_module inv (new_SolarModule id1 power dc ac)))
   except e => (error e ;; ret inv))
  = (Ok (attach inv (option_map (fun id1 => new_SolarModule id1 power dc ac)
                       (nth_error (id_parts cells) 1))),
     attach_log (option_map (fun id1 => new_SolarModule id1 power dc ac)
                   (nth_error (id_parts cells) 1))).
Proof.
  unfold index. destruct (nth_error (id_parts cells) 1); reflexivity.
Qed.

Lemma split_nonempty (sep : ascii) (s : string) :
  PyStr.split sep s = nth 0 (PyStr.split sep s) "" :: tl (PyStr.split sep s).
Proof.
  induction s as [|c s IH]; cbn; [reflexivity|].
  destruct (Ascii.eqb c sep); [reflexivity|].
  destruct (PyStr.split sep s); reflexivity.
Qed.

Lemma index_id_parts_0 (cells : list string) :
  index (id_parts cells) 0 = ret (nth 0 (id_parts cells) "").
Proof.
  unfold id_parts, index. rewrite split_nonempty at 1. reflexivity.
Qed.

(** The loop body computes one step of the row state machine and never
    raises. *)
Lemma process_row_step (st : loop_state) (cells : list string) :
  process_row st cells = (Ok (step st cells), step_log st cells).
Proof.
  destruct st as [ecu cur]. unfold process_row, step, step_log.
  destruct cells as [|c0 cells']; [reflexivity|].
  set (cells := c0 :: cells').
  change (0 <? length cells) with true.
  change (length cells =? 0) with false. cbv iota.
  change (index cells 0) with (ret c0). rewrite bind_ret.
  change (PyStr.split "-" (PyStr.strip c0)) with (id_parts cells).
  cbv zeta.
  repeat rewrite (try_cell cells _ _ _ _ (py_int_parse _)).
  repeat rewrite (try_cell cells _ _ _ _ (py_float_parse _)).
  repeat rewrite (try_cell cells _ _ _ _ strptime_parse).
  rewrite flush_eq, index_id_parts_0.
  destruct (length cells =? 7).
  - apply pair_eq.
    + repeat (rewrite fst_bind; cbn [fst snd ret]).
      rewrite try_attach. reflexivity.
    + repeat (rewrite snd_bind; cbn [fst snd ret]).
      rewrite try_attach. cbn [fst snd app]. rewrite !app_nil_r. reflexivity.
  - destruct cur as [inv|]; [|reflexivity].
    apply pair_eq.
    + repeat (rewrite fst_bind; cbn [fst snd ret]).
      rewrite try_attach. reflexivity.
    + repeat (rewrite snd_bind; cbn [fst snd ret]).
      rewrite try_attach. cbn [fst snd app]. rewrite !app_nil_r. reflexivity.
Qed.

Lemma for_rows_steps (rows : list (list string)) (st : loop_state) :
  for_rows rows st = (Ok (fold_left step rows st), steps_log st rows).
Proof.
  revert st. induction rows as [|cells rows IH]; intros st; [reflexivity|].
  cbn [for_rows fold_left steps_log].
  rewrite process_row_step, bind_Ok, IH. reflexivity.
Qed.

Lemma reconstruct_steps (rows : list (list string)) (ecuData : EcuData) :
  reconstruct rows ecuData
  = (Ok (flushed (fst (fold_left step rows (ecuData, None)))
                 (snd (fold_left step rows (ecuData, None)))),
     steps_log (ecuData, None) rows).
Proof.
  unfold reconstruct. rewrite for_rows_steps, bind_Ok, flush_eq.
  cbn [fst snd]. rewrite app_nil_r. reflexivity.
Qed.

(** *** The summary page *)

Lemma find_labeled_value_locate (soup : node) (l : string) :
  find_labeled_value soup l
  = match locate soup l with
    | Some c => (Ok c, [])
    | None => (Raise AttributeError, [])
    end.
Proof.
  unfold find_labeled_value, locate, locate_table, attr.
  destruct (find "body" soup) as [body|]; [|reflexivity].
  rewrite bind_ret.
  destruct (find "table" (fst body)) as [table|]; [|reflexivity].
  rewrite bind_ret. cbn [option_map].
  destruct (find_text "th" l (fst table)) as [th|]; [|reflexivity].
  rewrite bind_ret.
  destruct (find_next_sibling "td" th) as [td|]; reflexivity.
Qed.

(** One guarded field of the summary page. *)
Lemma try_label {A} (soup : node) (l : string) (P : string -> M A)
    (parse : string -> option A) (d : A) :
  (forall c, P c = match parse c with Some a => ret a | None => raise ValueError end) ->
  (try (t <- find_labeled_value soup l ;; P t) except e => (warning e ;; ret d))
  = (Ok (fst (coerce AttributeError parse d (locate soup l))),
     snd (coerce AttributeError parse d (locate soup l))).
Proof.
  intros HP. rewrite find_labeled_value_locate. unfold coerce.
  destruct (locate soup l) as [c|]; [|reflexivity].
  change (Ok c, @nil event) with (ret c). rewrite bind_ret, HP.
  destruct (parse c); reflexivity.
Qed.

Lemma try_label_str (soup : node) (l : string) :
  (try (find_labeled_value soup l) except e => (warning e ;; ret ""))
  = (Ok (fst (coerce AttributeError (@Some string) "" (locate soup l))),
     snd (coerce AttributeError (@Some string) "" (locate soup l))).
Proof.
  rewrite find_labeled_value_locate. unfold coerce.
  destruct (locate soup l); reflexivity.
Qed.

Lemma py_float_summary (unit c : string) :
  py_float (PyStr.replace unit "" c)
  = match summary_float unit c with Some a => ret a | None => raise ValueError end.
Proof.
  unfold py_float, summary_float. destruct (float_of_string _); reflexivity.
Qed.

Lemma py_int_summary (unit c : string) :
  py_int (PyStr.replace unit "" c)
  = match summary_int unit c with Some a => ret a | None => raise ValueError end.
Proof. reflexivity. Qed.

Lemma py_int_plain (c : string) :
  py_int c = match PyStr.int c with Some a => ret a | None => raise ValueError end.
Proof. reflexivity. Qed.

(** The summary extractor fails only on the identity. *)
Lemma extract_summary_eq (soup : node) (address alias : string) :
  extract_summary soup address alias
  = match locate soup "ECU ID" with
    | Some id => (Ok (summary_record soup id address alias), summary_log soup)
    | None => (Raise AttributeError, [])
    end.
Proof.
  unfold extract_summary.
  rewrite (find_labeled_value_locate soup "ECU ID").
  destruct (locate soup "ECU ID") as [id|]; [|reflexivity].
  change (Ok id, @nil event) with (ret id). rewrite bind_ret.
  rewrite !(try_label soup _ _ _ _ (py_float_summary _)).
  rewrite (try_label soup _ _ _ _ (py_int_summary _)).
  rewrite !(try_label soup _ _ _ _ py_int_plain).
  rewrite try_label_str.
  apply pair_eq.
  - repeat (rewrite fst_bind; cbn [fst snd ret]). reflexivity.
  - repeat (rewrite snd_bind; cbn [fst snd ret]).
    unfold summary_log. rewrite !app_nil_r. reflexivity.
Qed.

(** *** The whole fetch *)

Ltac log_eq :=
  cbv zeta; cbn [fst snd app bind raise];
  rewrite ?app_nil_r, <- ?app_assoc; cbn [app]; reflexivity.

Lemma http_get_eq (srv : server) (url : string) :
  http_get srv url
  = match srv url with
    | Fails e => (Raise e, [Get url])
    | Page soup => (Ok soup, [Get url])
    end.
Proof. unfold http_get. destruct (srv url); reflexivity. Qed.

Lemma get_ecu_data_body_eq (srv : server) (address alias : string) :
  get_ecu_data_body srv address alias
  = match srv (summary_url address) with
    | Fails e => (Raise e, [Get (summary_url address)])
    | Page soup =>
        match locate soup "ECU ID" with
        | None => (Raise AttributeError, [Get (summary_url address)])
        | Some id =>
            let t := Get (summary_url address) :: summary_log soup
                     ++ [Get (realtime_url address)] in
            match srv (realtime_url address) with
            | Fails e => (Raise e, t)
            | Page soup_realtimedata =>
                match locate_table soup_realtimedata with
                | None => (Raise AttributeError, t)
                | Some table =>
                    (Ok (snapshot soup table id address alias),
                     t ++ steps_log (summary_record soup id address alias, None)
                            (table_rows table))
                end
            end
        end
    end.
Proof.
  unfold get_ecu_data_body. rewrite http_get_eq.
  destruct (srv (summary_url address)) as [e|soup]; [reflexivity|].
  rewrite bind_Ok, extract_summary_eq.
  destruct (locate soup "ECU ID") as [id|]; [|reflexivity].
  rewrite bind_Ok, http_get_eq.
  destruct (srv (realtime_url address)) as [e|rt]; [log_eq|].
  rewrite bind_Ok. unfold locate_table, attr.
  destruct (find "body" rt) as [body|]; [|log_eq].
  rewrite bind_ret.
  destruct (find "table" (fst body)) as [table|]; [|log_eq].
  rewrite bind_ret, reconstruct_steps. cbn [fst snd option_map].
  unfold snapshot. log_eq.
Qed.

(** *** Identities and their parts *)

Lemma split_without_separator (sep : ascii) (s : string) :
  PyStr.contains sep s = false -> PyStr.split sep s = [s].
Proof.
  induction s as [|c s IH]; cbn; [reflexivity|].
  destruct (Ascii.eqb c sep); cbn; [discriminate|].
  intros H. rewrite (IH H). reflexivity.
Qed.

Lemma split_with_separator (sep : ascii) (s : string) :
  PyStr.contains sep s = true ->
  exists id1, nth_error (PyStr.split sep s) 1 = Some id1.
Proof.
  induction s as [|c s IH]; cbn; [discriminate|].
  destruct (Ascii.eqb c sep); cbn.
  - intros _. rewrite (split_nonempty sep s). eexists. reflexivity.
  - intros H. destruct (IH H) as [id1 Hid].
    destruct (PyStr.split sep s) as [|h [|x t]]; try discriminate.
    exists x. reflexivity.
Qed.

Lemma row_module_well_formed (cells : list string) (ac : nat) :
  well_formed cells ->
  exists id1,
    nth_error (id_parts cells) 1 = Some id1
    /\ row_module cells ac
       = Some (new_SolarModule id1 (fst (cell_int "W" cells 1))
                 (fst (cell_int "V" cells 2)) (fst (cell_int "V" cells ac))).
Proof.
  intros H. destruct (split_with_separator "-" _ H) as [id1 Hid].
  exists id1. split; [exact Hid|].
  unfold row_module. fold (id_parts cells) in Hid. rewrite Hid. reflexivity.
Qed.

Lemma row_module_without_separator (cells : list string) (ac : nat) :
  PyStr.contains "-" (row_id cells) = false ->
  id_parts cells = [row_id cells] /\ row_module cells ac = None.
Proof.
  intros H. unfold row_module, id_parts.
  rewrite (split_without_separator _ _ H). split; reflexivity.
Qed.

(** *** Single steps *)

Lemma step_new_inverter (st : loop_state) (cells : list string) :
  length cells = 7 ->
  step st cells = (flushed (fst st) (snd st), Some (open_inverter cells)).
Proof. intros H. unfold step. rewrite H. reflexivity. Qed.

Lemma step_continuation (st : loop_state) (cells : list string) :
  length cells <> 0 -> length cells <> 7 ->
  step st cells = match snd st with
                  | Some inv => (fst st, Some (attach inv (row_module cells 3)))
                  | None => st
                  end.
Proof.
  intros H0 H7. unfold step.
  destruct (Nat.eqb_spec (length cells) 0); [contradiction|].
  destruct (Nat.eqb_spec (length cells) 7); [contradiction|]. reflexivity.
Qed.

Lemma step_empty (st : loop_state) (cells : list string) :
  length cells = 0 -> step st cells = st /\ step_log st cells = [].
Proof. intros H. unfold step, step_log. rewrite H. split; reflexivity. Qed.

(** *** Runs of rows *)

Lemma attach_fields (inv : InverterData) (m : option SolarModule) :
  inv_id (attach inv m) = inv_id inv
  /\ inv_freq (attach inv m) = inv_freq inv
  /\ inv_temperature (attach inv m) = inv_temperature inv
  /\ inv_reportingtime (attach inv m) = inv_reportingtime inv.
Proof. destruct m; repeat split. Qed.

Lemma fold_continuations (ecu : EcuData) (conts : list (list string)) :
  Forall continuation conts ->
  forall inv,
    fold_left step conts (ecu, Some inv)
    = (ecu, Some (fold_left (fun i r => attach i (row_module r 3)) conts inv)).
Proof.
  induction 1 as [|r conts [H0 H7] _ IH]; intros inv; [reflexivity|].
  cbn [fold_left]. rewrite step_continuation by assumption.
  cbn [fst snd]. apply IH.
Qed.

Lemma modules_of_continuations (conts : list (list string)) :
  Forall well_formed conts ->
  forall inv,
    map Some (inv_solarmodules
                (fold_left (fun i r => attach i (row_module r 3)) conts inv))
    = map Some (inv_solarmodules inv) ++ map (fun r => row_module r 3) conts.
Proof.
  induction 1 as [|r conts Hr _ IH]; intros inv; cbn [fold_left map].
  - rewrite app_nil_r. reflexivity.
  - rewrite IH. destruct (row_module_well_formed r 3 Hr) as [id1 [_ ->]].
    cbn [attach add_solar_module inv_solarmodules].
    rewrite map_app, <- app_assoc. reflexivity.
Qed.

Lemma seen_inverters_step (st : loop_state) (cells : list string) :
  length (seen_inverters (step st cells))
  = length (seen_inverters st) + (if length cells =? 7 then 1 else 0).
Proof.
  destruct st as [ecu cur]. unfold step, seen_inverters.
  destruct (length cells =? 0) eqn:E0.
  - apply Nat.eqb_eq in E0. rewrite E0. cbn. lia.
  - destruct (length cells =? 7); cbn [fst snd].
    + destruct cur; cbn [flushed add_inverter ecu_inverters];
        rewrite !length_app; cbn; lia.
    + destruct cur; cbn [fst snd]; rewrite !length_app; cbn; lia.
Qed.

Lemma seen_inverters_steps (rows : list (list string)) (st : loop_state) :
  length (seen_inverters (fold_left step rows st))
  = length (seen_inverters st) + new_inverter_rows rows.
Proof.
  revert st. induction rows as [|r rows IH]; intros st; cbn [fold_left].
  - unfold new_inverter_rows. cbn. lia.
  - rewrite IH, seen_inverters_step. unfold new_inverter_rows. cbn [filter].
    destruct (length r =? 7); cbn [length]; lia.
Qed.

Lemma flushed_inverters (ecu : EcuData) (cur : option InverterData) :
  ecu_inverters (flushed ecu cur) = seen_inverters (ecu, cur).
Proof.
  unfold seen_inverters.
  destruct cur; cbn [flushed fst snd add_inverter ecu_inverters];
    [reflexivity | rewrite app_nil_r; reflexivity].
Qed.

(** *** Outcomes of the fetch *)

Lemma get_ecu_data_of_body (srv : server) (address alias : string) :
  get_ecu_data srv address alias
  = (match fst (get_ecu_data_body srv address alias) with
     | Ok ecuData => Some ecuData
     | Raise _ => None
     end,
     snd (get_ecu_data_body srv address alias)).
Proof.
  unfold get_ecu_data.
  destruct (get_ecu_data_body srv address alias) as [[ecu|e] t]; reflexivity.
Qed.

Lemma locate_unobtainable (soup : node) (l : string) :
  (forall table, locate_table soup = Some table ->
     find_text "th" l table = None
     \/ exists th, find_text "th" l table = Some th
                   /\ find_next_sibling "td" th = None) ->
  locate soup l = None.
Proof.
  intros H. unfold locate.
  destruct (locate_table soup) as [table|]; [|reflexivity].
  destruct (H table eq_refl) as [-> | [th [-> ->]]]; reflexivity.
Qed.

Lemma summary_field_value (soup : node) (id address alias : string) (f : field) :
  get_field f (summary_record soup id address alias)
  = match field_on_page soup f with
    | Some v => v
    | None => default_value f
    end.
Proof.
  unfold field_on_page, summary_record, coerce.
  destruct f; cbn [label get_field new_EcuData parse_field default_value
                   ecu_lifetimeGeneration ecu_power ecu_dailyEnergy
                   ecu_numberOfInverters ecu_numberOfInvertersOnline
                   ecu_softwareVersion];
    match goal with |- context [locate soup ?l] => destruct (locate soup l) as [c|] end;
    try reflexivity.
  - destruct (summary_float " kWh" c); reflexivity.
  - destruct (summary_int " W" c); reflexivity.
  - destruct (summary_float " kWh" c); reflexivity.
  - destruct (PyStr.int c); reflexivity.
  - destruct (PyStr.int c); reflexivity.
Qed.

(** ** Properties of the reconstruction and of the fetch *)

(** C1 (amended): for every row sequence, a new-inverter row met while an
    inverter is open first appends that inverter to the record's list and
    only then opens the new one (the row is processed exactly as from the
    flushed state with nothing open, and the inverter it opens depends on
    the row alone), and after the last row the inverter
    that is still open, if any, is appended once, so that the final list
    has one inverter per new-inverter row.  Hence two consecutive seven-cell
    rows whose identities contain the separator yield two inverters, each
    with exactly one module, the first already in the list when the second
    is opened. *)
Theorem flush_before_open :
  (forall (cells : list string),
      length cells = 7 ->
      exists inv',
        forall (ecu : EcuData) (inv : InverterData),
          fst (process_row (ecu, Some inv) cells) = Ok (add_inverter ecu inv, Some inv')
          /\ ecu_inverters (add_inverter ecu inv) = ecu_inverters ecu ++ [inv]
          /\ process_row (ecu, Some inv) cells
             = process_row (add_inverter ecu inv, None) cells)
  /\ (forall (rows : list (list string)) (ecu : EcuData),
         exists ecu' cur,
           fst (for_rows rows (ecu, None)) = Ok (ecu', cur)
           /\ fst (reconstruct rows ecu) = Ok (flushed ecu' cur)
           /\ ecu_inverters (flushed ecu' cur)
              = ecu_inverters ecu' ++ match cur with Some inv => [inv] | None => [] end
           /\ length (ecu_inverters (flushed ecu' cur))
              = length (ecu_inverters ecu) + new_inverter_rows rows)
  /\ (forall (ecu : EcuData) (r1 r2 : list string),
         length r1 = 7 -> length r2 = 7 -> well_formed r1 -> well_formed r2 ->
         exists i1 i2,
           fst (for_rows [r1] (ecu, None)) = Ok (ecu, Some i1)
           /\ fst (for_rows [r1; r2] (ecu, None)) = Ok (add_inverter ecu i1, Some i2)
           /\ fst (reconstruct [r1; r2] ecu) = Ok (add_inverter (add_inverter ecu i1) i2)
           /\ length (inv_solarmodules i1) = 1
           /\ length (inv_solarmodules i2) = 1).
Proof.
  split; [|split].
  - intros cells H7. exists (open_inverter cells). intros ecu inv.
    rewrite !process_row_step.
    rewrite !step_new_inverter by assumption. cbn [fst snd flushed].
    split; [reflexivity|]. split; [reflexivity|].
    f_equal. unfold step_log. rewrite H7. reflexivity.
  - intros rows ecu. rewrite for_rows_steps, reconstruct_steps. cbn [fst].
    destruct (fold_left step rows (ecu, None)) as [ecu' cur] eqn:E.
    exists ecu', cur. cbn [fst snd]. repeat split.
    + apply flushed_inverters.
    + rewrite flushed_inverters, <- E, seen_inverters_steps.
      unfold seen_inverters. cbn [fst snd]. rewrite app_nil_r. reflexivity.
  - intros ecu r1 r2 H1 H2 W1 W2.
    rewrite !for_rows_steps, reconstruct_steps. cbn [fst fold_left].
    rewrite (step_new_inverter _ r1 H1). cbn [fst snd flushed].
    rewrite (step_new_inverter _ r2 H2). cbn [fst snd flushed].
    exists (open_inverter r1), (open_inverter r2).
    repeat split; unfold open_inverter.
    + destruct (row_module_well_formed r1 4 W1) as [id1 [_ ->]]. reflexivity.
    + destruct (row_module_well_formed r2 4 W2) as [id1 [_ ->]]. reflexivity.
Qed.

(** C2: in a well-formed table (every identity reads
    [<inverterId>-<moduleId>]), a seven-cell row followed by [n]
    continuation rows yields one inverter with exactly [n + 1] modules, in
    row order: the embedded module of the seven-cell row, then the module of
    each continuation row. *)
Theorem modules_in_row_order :
  forall (ecu : EcuData) (cells : list string) (conts : list (list string)),
    length cells = 7 ->
    Forall continuation conts ->
    Forall well_formed (cells :: conts) ->
    exists inv log,
      reconstruct (cells :: conts) ecu = (Ok (add_inverter ecu inv), log)
      /\ ecu_inverters (add_inverter ecu inv) = ecu_inverters ecu ++ [inv]
      /\ length (inv_solarmodules inv) = length conts + 1
      /\ map Some (inv_solarmodules inv)
         = row_module cells 4 :: map (fun r => row_module r 3) conts
      /\ map sm_id (inv_solarmodules inv)
         = map (fun r => nth 1 (id_parts r) "") (cells :: conts).
Proof.
  intros ecu cells conts H7 Hc Hw.
  inversion Hw as [|? ? W0 Wc]; subst.
  rewrite reconstruct_steps. cbn [fold_left].
  rewrite (step_new_inverter _ cells H7). cbn [fst snd flushed].
  rewrite (fold_continuations ecu conts Hc). cbn [fst snd flushed].
  set (inv := fold_left _ conts _).
  assert (Hm : map Some (inv_solarmodules inv)
               = row_module cells 4 :: map (fun r => row_module r 3) conts).
  { unfold inv. rewrite (modules_of_continuations conts Wc).
    unfold open_inverter.
    destruct (row_module_well_formed cells 4 W0) as [id1 [_ ->]]. reflexivity. }
  exists inv, (steps_log (ecu, None) (cells :: conts)).
  split; [reflexivity|]. split; [reflexivity|]. split; [|split].
  - rewrite <- (length_map Some), Hm. cbn [length]. rewrite length_map. lia.
  - exact Hm.
  - assert (Hids : forall rows ac,
               Forall well_formed rows ->
               forall ms, map Some ms = map (fun r => row_module r ac) rows ->
                          map sm_id ms = map (fun r => nth 1 (id_parts r) "") rows).
    { intros rows ac Hrows. induction Hrows as [|r rows Hr _ IH]; intros ms Heq.
      - destruct ms; [reflexivity | discriminate].
      - destruct ms as [|m ms]; [discriminate|]. cbn [map] in Heq |- *.
        injection Heq as Hhd Htl.
        destruct (row_module_well_formed r ac Hr) as [id1 [Hid Hrow]].
        rewrite Hrow in Hhd. injection Hhd as ->.
        rewrite (IH ms Htl). cbn [sm_id new_SolarModule].
        f_equal. destruct (id_parts r) as [|? [|? ?]]; try discriminate.
        cbn in Hid |- *. congruence. }
    clear Hw. revert Hm. generalize (inv_solarmodules inv). intros ms Hm.
    destruct ms as [|m ms]; [discriminate|]. cbn [map] in Hm |- *.
    injection Hm as Hhd Htl.
    destruct (row_module_well_formed cells 4 W0) as [id1 [Hid Hrow]].
    rewrite Hrow in Hhd. injection Hhd as ->.
    rewrite (Hids conts 3 Wc ms Htl). cbn [sm_id new_SolarModule].
    f_equal. destruct (id_parts cells) as [|? [|? ?]]; try discriminate.
    cbn in Hid |- *. congruence.
Qed.

(** C3: the cell count decides the role and the column layout of a row.  A
    row of exactly seven cells is a new-inverter row: the open inverter (if
    any) is flushed, and the inverter that is opened has its frequency,
    temperature and report time coerced from cells 3, 5 and 6, and its
    embedded module (present when the identity has a second part) has power,
    dc voltage and grid voltage coerced from cells 1, 2 and 4.  A row of any
    other non-zero cell count is a continuation row: it is dropped when no
    inverter is open, and otherwise appends to the open inverter the module
    with power, dc voltage and grid voltage coerced from cells 1, 2 and 3. *)
Theorem row_layout_by_cell_count :
  (forall (st : loop_state) (c0 c1 c2 c3 c4 c5 c6 : string),
      let cells := [c0; c1; c2; c3; c4; c5; c6] in
      exists inv,
        fst (process_row st cells) = Ok (flushed (fst st) (snd st), Some inv)
        /\ inv_id inv = nth 0 (id_parts cells) ""
        /\ inv_freq inv = fst (coerce IndexError (parse_float "Hz") (PyInt 0) (Some c3))
        /\ inv_temperature inv
           = fst (coerce IndexError (parse_int degree_celsius) 0%Z (Some c5))
        /\ inv_reportingtime inv
           = fst (coerce IndexError parse_time (PyTimeInt 0) (Some c6))
        /\ (forall id1, nth_error (id_parts cells) 1 = Some id1 ->
            exists sm,
              inv_solarmodules inv = [sm]
              /\ sm_id sm = id1
              /\ sm_power sm = fst (coerce IndexError (parse_int "W") 0%Z (Some c1))
              /\ sm_dcvoltage sm
                 = fst (coerce IndexError (parse_int "V") 0%Z (Some c2))
              /\ sm_gridvoltage sm
                 = fst (coerce IndexError (parse_int "V") 0%Z (Some c4)))
        /\ (nth_error (id_parts cells) 1 = None -> inv_solarmodules inv = []))
  /\ (forall (ecu : EcuData) (inv : InverterData) (cells : list string),
         length cells <> 0 -> length cells <> 7 ->
         fst (process_row (ecu, None) cells) = Ok (ecu, None)
         /\ exists inv',
             fst (process_row (ecu, Some inv) cells) = Ok (ecu, Some inv')
             /\ inv_id inv' = inv_id inv
             /\ inv_freq inv' = inv_freq inv
             /\ inv_temperature inv' = inv_temperature inv
             /\ inv_reportingtime inv' = inv_reportingtime inv
             /\ (forall id1, nth_error (id_parts cells) 1 = Some id1 ->
                 exists sm,
                   inv_solarmodules inv' = inv_solarmodules inv ++ [sm]
                   /\ sm_id sm = id1
                   /\ sm_power sm
                      = fst (coerce IndexError (parse_int "W") 0%Z (nth_error cells 1))
                   /\ sm_dcvoltage sm
                      = fst (coerce IndexError (parse_int "V") 0%Z (nth_error cells 2))
                   /\ sm_gridvoltage sm
                      = fst (coerce IndexError (parse_int "V") 0%Z (nth_error cells 3)))
             /\ (nth_error (id_parts cells) 1 = None ->
                 inv_solarmodules inv' = inv_solarmodules inv)).
Proof.
  split.
  - intros st c0 c1 c2 c3 c4 c5 c6 cells.
    rewrite process_row_step. cbn [fst].
    rewrite step_new_inverter by reflexivity.
    exists (open_inverter cells). split; [reflexivity|].
    unfold open_inverter.
    destruct (attach_fields (row_inverter cells) (row_module cells 4))
      as [-> [-> [-> ->]]].
    do 4 (split; [reflexivity|]).
    unfold row_module.
    destruct (nth_error (id_parts cells) 1) as [id1|] eqn:Hid; split.
    + intros id1' Heq. injection Heq as <-.
      eexists. split; [reflexivity|]. repeat split.
    + discriminate.
    + intros id1' Heq. discriminate Heq.
    + reflexivity.
  - intros ecu inv cells H0 H7. rewrite !process_row_step. cbn [fst].
    rewrite !step_continuation by assumption. cbn [fst snd].
    split; [reflexivity|].
    exists (attach inv (row_module cells 3)). split; [reflexivity|].
    destruct (attach_fields inv (row_module cells 3)) as [-> [-> [-> ->]]].
    do 4 (split; [reflexivity|]).
    unfold row_module.
    destruct (nth_error (id_parts cells) 1) as [id1|] eqn:Hid; split.
    + intros id1' Heq. injection Heq as <-.
      eexists. split; [reflexivity|]. repeat split.
    + discriminate.
    + intros id1' Heq. discriminate Heq.
    + reflexivity.
Qed.

(** C4: when the first non-empty row of the sequence is a continuation row
    (a non-zero cell count other than seven), nothing is open yet and the
    row is dropped: once it is read the record, with its empty inverter
    list, is as it was, no inverter is open, nothing is logged and nothing
    is raised; the whole reconstruction equals that of the rows after it. *)
Theorem leading_continuation_row_dropped :
  forall (ecu : EcuData) (empties : list (list string)) (cells : list string)
         (rest : list (list string)),
    Forall (fun r => length r = 0) empties ->
    length cells <> 0 -> length cells <> 7 ->
    for_rows (empties ++ [cells]) (ecu, None) = (Ok (ecu, None), [])
    /\ reconstruct (empties ++ cells :: rest) ecu = reconstruct rest ecu.
Proof.
  intros ecu empties cells rest Hempty H0 H7.
  assert (Hdrop : process_row (ecu, None) cells = (Ok (ecu, None), [])).
  { rewrite process_row_step, step_continuation by assumption.
    unfold step_log.
    destruct (Nat.eqb_spec (length cells) 0); [contradiction|].
    destruct (Nat.eqb_spec (length cells) 7); [contradiction|]. reflexivity. }
  induction Hempty as [|r empties Hr _ IH].
  - cbn [app for_rows]. unfold reconstruct. cbn [for_rows].
    rewrite Hdrop, !bind_Ok. cbn [ret fst snd app].
    split; [reflexivity|].
    destruct (for_rows rest (ecu, None)) as [[st|e] t]; reflexivity.
  - destruct IH as [IH1 IH2].
    assert (Hskip : process_row (ecu, None) r = (Ok (ecu, None), [])).
    { rewrite process_row_step.
      destruct (step_empty (ecu, None) r Hr) as [-> ->]. reflexivity. }
    cbn [app for_rows]. unfold reconstruct in *. cbn [for_rows].
    rewrite Hskip, !bind_Ok. cbn [app].
    rewrite IH1. split; [reflexivity|].
    rewrite <- IH2.
    destruct (for_rows (empties ++ cells :: rest) (ecu, None)) as [[st|e] t];
      reflexivity.
Qed.

(** C5: when the identity cannot be read from the summary page (its table
    has no [ECU ID] label, or the label has no value cell after it), the
    fetch returns the failure value, not a record, and stops there: the only
    request sent is the one for the summary page, whatever the gateway would
    have answered for the realtime page. *)
Theorem missing_identity_fails_fetch :
  forall (srv : server) (address alias : string) (soup : node),
    srv (summary_url address) = Page soup ->
    (forall table, locate_table soup = Some table ->
       find_text "th" "ECU ID" table = None
       \/ exists th, find_text "th" "ECU ID" table = Some th
                     /\ find_next_sibling "td" th = None) ->
    get_ecu_data srv address alias = (None, [Get (summary_url address)]).
Proof.
  intros srv address alias soup Hpage Hid.
  rewrite get_ecu_data_of_body, get_ecu_data_body_eq, Hpage.
  rewrite (locate_unobtainable soup "ECU ID" Hid). reflexivity.
Qed.

(** C6: [get_ecu_data] never raises.  Either the body of its [try] raised
    some exception, whatever its kind and wherever it arose, and the call
    returns the one failure value [None]; or both pages were served, the
    identity was read and the realtime table found, and the call returns the
    fully populated snapshot: the summary record with the inverters
    reconstructed from the rows of the realtime table. *)
Theorem get_ecu_data_never_raises :
  forall (srv : server) (address alias : string),
    (exists e t,
        get_ecu_data_body srv address alias = (Raise e, t)
        /\ get_ecu_data srv address alias = (None, t))
    \/ (exists soup id soup_realtimedata table t,
           srv (summary_url address) = Page soup
           /\ locate soup "ECU ID" = Some id
           /\ srv (realtime_url address) = Page soup_realtimedata
           /\ locate_table soup_realtimedata = Some table
           /\ get_ecu_data_body srv address alias
              = (Ok (snapshot soup table id address alias), t)
           /\ get_ecu_data srv address alias
              = (Some (snapshot soup table id address alias), t)).
Proof.
  intros srv address alias.
  rewrite get_ecu_data_of_body, get_ecu_data_body_eq.
  destruct (srv (summary_url address)) as [e|soup] eqn:Hs.
  { left. eexists _, _. split; reflexivity. }
  destruct (locate soup "ECU ID") as [id|] eqn:Hid.
  2: { left. eexists _, _. split; reflexivity. }
  cbv zeta.
  destruct (srv (realtime_url address)) as [e|rt] eqn:Hr.
  { left. eexists _, _. split; reflexivity. }
  destruct (locate_table rt) as [table|] eqn:Ht.
  2: { left. eexists _, _. split; reflexivity. }
  right. exists soup, id, rt, table. eexists.
  repeat split; try reflexivity; assumption.
Qed.

(** C7: on a summary page whose identity can be read, a field that is
    missing (no label, or no value cell) or malformed is set to its default
    ([0], [0.0] or the empty string), and every field that is present and
    well formed holds the value parsed from the page, whatever happened to
    the others; the extraction does not raise. *)
Theorem summary_fields_isolated :
  forall (soup : node) (address alias id : string) (f : field),
    locate soup "ECU ID" = Some id ->
    field_on_page soup f = None ->
    exists ecu log,
      extract_summary soup address alias = (Ok ecu, log)
      /\ get_field f ecu = default_value f
      /\ (forall g v, field_on_page soup g = Some v -> get_field g ecu = v)
      /\ ecu_id ecu = id /\ ecu_address ecu = address /\ ecu_alias ecu = alias
      /\ ecu_inverters ecu = [].
Proof.
  intros soup address alias id f Hid Hf.
  rewrite extract_summary_eq, Hid.
  exists (summary_record soup id address alias), (summary_log soup).
  split; [reflexivity|]. split; [|split].
  - rewrite summary_field_value, Hf. reflexivity.
  - intros g v Hg. rewrite summary_field_value, Hg. reflexivity.
  - repeat split.
Qed.

(** C8: integer coercion of a power cell.  On the summary page the text
    [123 W] under [Last System Power] gives the power [123], and the text
    [bad] gives [0] with a warning and no exception; in a realtime row the
    power cell [123 W] gives the embedded module the power [123], and [bad]
    gives [0] with a warning and no exception. *)
Theorem watt_coercion :
  (forall (soup : node) (address alias id : string),
      locate soup "ECU ID" = Some id ->
      (locate soup "Last System Power" = Some "123 W" ->
       exists ecu log,
         extract_summary soup address alias = (Ok ecu, log)
         /\ ecu_power ecu = 123%Z)
      /\ (locate soup "Last System Power" = Some "bad" ->
          exists ecu log,
            extract_summary soup address alias = (Ok ecu, log)
            /\ ecu_power ecu = 0%Z
            /\ In (Log WARNING ValueError) log))
  /\ (forall (st : loop_state) (c0 c2 c3 c4 c5 c6 : string),
         PyStr.contains "-" (PyStr.strip c0) = true ->
         (exists inv log,
             process_row st [c0; "123 W"; c2; c3; c4; c5; c6]
             = (Ok (flushed (fst st) (snd st), Some inv), log)
             /\ map sm_power (inv_solarmodules inv) = [123%Z])
         /\ (exists inv log,
                process_row st [c0; "bad"; c2; c3; c4; c5; c6]
                = (Ok (flushed (fst st) (snd st), Some inv), log)
                /\ map sm_power (inv_solarmodules inv) = [0%Z]
                /\ In (Log WARNING ValueError) log)).
Proof.
  split.
  - intros soup address alias id Hid. split; intros Hp;
      rewrite extract_summary_eq, Hid;
      exists (summary_record soup id address alias), (summary_log soup);
      (split; [reflexivity|]);
      unfold summary_record, summary_log; rewrite Hp.
    + reflexivity.
    + split; [reflexivity|].
      apply in_or_app. right. apply in_or_app. left. left. reflexivity.
  - intros st c0 c2 c3 c4 c5 c6 W. split.
    + eexists _, _. rewrite process_row_step. split; [reflexivity|].
      cbn [length Nat.eqb]. unfold open_inverter.
      destruct (row_module_well_formed [c0] 4 W) as [id1 [Hparts _]].
      unfold row_module. change (id_parts (c0 :: ?l)) with (id_parts [c0]).
      rewrite Hparts. reflexivity.
    + eexists _, _. rewrite process_row_step. split; [reflexivity|]. split.
      * cbn [length Nat.eqb]. unfold open_inverter.
        destruct (row_module_well_formed [c0] 4 W) as [id1 [Hparts _]].
        unfold row_module. change (id_parts (c0 :: ?l)) with (id_parts [c0]).
        rewrite Hparts. reflexivity.
      * unfold step_log. cbn [length Nat.eqb].
        apply in_or_app. left. left. reflexivity.
Qed.

(** C9: a seven-cell row whose timestamp cell is not accepted by [strptime]
    with the format [%Y-%m-%d %H:%M:%S] still opens its inverter: the row is
    processed without raising, the report time is the [int] default [0] that
    stands for an unset time, a warning carrying the [ValueError] is logged,
    and the identity, frequency, temperature and embedded module are those
    the row gives. *)
Theorem unreadable_timestamp_degrades :
  forall (st : loop_state) (c0 c1 c2 c3 c4 c5 c6 : string),
    let cells := [c0; c1; c2; c3; c4; c5; c6] in
    strptime_opt (PyStr.strip c6) time_format = None ->
    exists inv log,
      process_row st cells = (Ok (flushed (fst st) (snd st), Some inv), log)
      /\ inv_reportingtime inv = PyTimeInt 0
      /\ In (Log WARNING ValueError) log
      /\ inv_id inv = nth 0 (id_parts cells) ""
      /\ inv_freq inv = fst (cell_float "Hz" cells 3)
      /\ inv_temperature inv = fst (cell_int degree_celsius cells 5)
      /\ map Some (inv_solarmodules inv)
         = match row_module cells 4 with Some sm => [Some sm] | None => [] end.
Proof.
  intros st c0 c1 c2 c3 c4 c5 c6 cells Htime.
  assert (Hcell : cell_time cells 6 = (PyTimeInt 0, [Log WARNING ValueError])).
  { unfold cell_time, coerce, parse_time. cbn [nth_error cells].
    rewrite Htime. reflexivity. }
  exists (open_inverter cells), (step_log st cells).
  rewrite process_row_step, step_new_inverter by reflexivity.
  split; [reflexivity|].
  unfold open_inverter.
  destruct (attach_fields (row_inverter cells) (row_module cells 4))
    as [-> [-> [-> ->]]].
  unfold row_inverter at 1. cbn [inv_reportingtime new_InverterData].
  rewrite Hcell. split; [reflexivity|]. split.
  - unfold step_log. change (length cells =? 0) with false.
    change (length cells =? 7) with true. cbv iota. rewrite Hcell.
    do 5 (apply in_or_app; right). apply in_or_app. left. left. reflexivity.
  - repeat split. destruct (row_module cells 4); reflexivity.
Qed.

(** C10: a seven-cell row whose identity has no [-] still opens an inverter,
    identified by the whole (stripped) first cell, but its embedded module
    is not appended: the [IndexError] of [id_parts[1]] is logged as an error
    and swallowed.  When the rows end there, the snapshot holds this
    inverter with no module. *)
Theorem inverter_without_separator_has_no_module :
  forall (ecu : EcuData) (cur : option InverterData)
         (c0 c1 c2 c3 c4 c5 c6 : string),
    let cells := [c0; c1; c2; c3; c4; c5; c6] in
    PyStr.contains "-" (row_id cells) = false ->
    exists inv log,
      process_row (ecu, cur) cells = (Ok (flushed ecu cur, Some inv), log)
      /\ inv_id inv = row_id cells
      /\ inv_solarmodules inv = []
      /\ In (Log ERROR IndexError) log
      /\ fst (reconstruct [cells] ecu) = Ok (add_inverter ecu inv)
      /\ In inv (ecu_inverters (add_inverter ecu inv)).
Proof.
  intros ecu cur c0 c1 c2 c3 c4 c5 c6 cells Hdash.
  destruct (row_module_without_separator cells 4 Hdash) as [Hparts Hmod].
  exists (open_inverter cells), (step_log (ecu, cur) cells).
  rewrite process_row_step, step_new_inverter by reflexivity.
  split; [reflexivity|].
  unfold open_inverter. rewrite Hmod. cbn [attach].
  split; [unfold row_inverter; rewrite Hparts; reflexivity|].
  split; [reflexivity|]. split; [|split].
  - unfold step_log. change (length cells =? 0) with false.
    change (length cells =? 7) with true. cbv iota. rewrite Hmod.
    do 6 (apply in_or_app; right). left. reflexivity.
  - rewrite reconstruct_steps. cbn [fold_left fst].
    rewrite step_new_inverter by reflexivity.
    unfold open_inverter. rewrite Hmod. reflexivity.
  - cbn [add_inverter ecu_inverters]. apply in_or_app. right. left. reflexivity.
Qed.

(** ** Further properties of the data classes and of the row loop *)

Lemma find_by_id_spec {A} (key : A -> string) (id : string) (l : list A) :
  match List.find (fun x => String.eqb (key x) id) l with
  | Some x =>
      exists pre post,
        l = pre ++ x :: post /\ key x = id /\ Forall (fun y => key y <> id) pre
  | None => Forall (fun y => key y <> id) l
  end.
Proof.
  induction l as [|a l IH]; cbn [List.find]; [constructor|].
  destruct (String.eqb_spec (key a) id) as [Heq|Hne].
  - exists [], l. repeat split; [exact Heq | constructor].
  - destruct (List.find (fun x => String.eqb (key x) id) l) as [x|].
    + destruct IH as [pre [post [-> [Hx Hpre]]]].
      exists (a :: pre), post. repeat split; [exact Hx | constructor; assumption].
    + constructor; assumption.
Qed.

Lemma find_by_id_app {A} (key : A -> string) (id : string) (l : list A) (a : A) :
  List.find (fun x => String.eqb (key x) id) (l ++ [a])
  = match List.find (fun x => String.eqb (key x) id) l with
    | Some x => Some x
    | None => if String.eqb (key a) id then Some a else None
    end.
Proof.
  induction l as [|b l IH]; cbn [List.find app]; [reflexivity|].
  destruct (String.eqb (key b) id); [reflexivity | exact IH].
Qed.

(** X1: [get_inverter_by_id] returns the first inverter of the record that
    carries the identity, so a later inverter with the same identity is never
    returned; it returns [None] exactly when no inverter carries it. *)
Theorem get_inverter_by_id_first_match :
  forall (ecu : EcuData) (id : string),
    match get_inverter_by_id ecu id with
    | Some inv =>
        exists pre post,
          ecu_inverters ecu = pre ++ inv :: post
          /\ inv_id inv = id
          /\ Forall (fun i => inv_id i <> id) pre
    | None => Forall (fun i => inv_id i <> id) (ecu_inverters ecu)
    end.
Proof. intros ecu id. apply (find_by_id_spec inv_id). Qed.

(** X2: [get_solarmodule_by_id] returns the first module of the inverter
    that carries the identity, and [None] exactly when no module carries
    it. *)
Theorem get_solarmodule_by_id_first_match :
  forall (inv : InverterData) (id : string),
    match get_solarmodule_by_id inv id with
    | Some sm =>
        exists pre post,
          inv_solarmodules inv = pre ++ sm :: post
          /\ sm_id sm = id
          /\ Forall (fun m => sm_id m <> id) pre
    | None => Forall (fun m => sm_id m <> id) (inv_solarmodules inv)
    end.
Proof. intros inv id. apply (find_by_id_spec sm_id). Qed.

(** X3: adding never shadows.  After [add_inverter] (or
    [add_solar_module]) a lookup that succeeded before returns the same
    element, and a lookup that failed before returns the added element
    exactly when it carries the identity asked for. *)
Theorem lookup_after_add :
  (forall (ecu : EcuData) (inv : InverterData) (id : string),
      get_inverter_by_id (add_inverter ecu inv) id
      = match get_inverter_by_id ecu id with
        | Some i => Some i
        | None => if String.eqb (inv_id inv) id then Some inv else None
        end)
  /\ (forall (inv : InverterData) (sm : SolarModule) (id : string),
         get_solarmodule_by_id (add_solar_module inv sm) id
         = match get_solarmodule_by_id inv id with
           | Some m => Some m
           | None => if String.eqb (sm_id sm) id then Some sm else None
           end).
Proof.
  split.
  - intros ecu inv id. apply (find_by_id_app inv_id).
  - intros inv sm id. apply (find_by_id_app sm_id).
Qed.

(** *** Shape of the loop state *)

Lemma with_inverters_same (ecu : EcuData) :
  with_inverters ecu (ecu_inverters ecu) = ecu.
Proof. destruct ecu; reflexivity. Qed.

Lemma flushed_with (ecu : EcuData) (cur : option InverterData) :
  flushed ecu cur = with_inverters ecu (ecu_inverters ecu ++ open_list cur).
Proof.
  destruct cur; cbn [flushed open_list];
    [reflexivity | rewrite app_nil_r, with_inverters_same; reflexivity].
Qed.

Lemma open_inverter_id (cells : list string) :
  inv_id (open_inverter cells) = row_inverter_id cells.
Proof.
  unfold open_inverter.
  destruct (attach_fields (row_inverter cells) (row_module cells 4)) as [-> _].
  reflexivity.
Qed.

Lemma steps_shape (rows : list (list string)) :
  forall (ecu : EcuData) (cur : option InverterData),
  exists new cur',
    fold_left step rows (ecu, cur)
    = (with_inverters ecu (ecu_inverters ecu ++ new), cur')
    /\ map inv_id (new ++ open_list cur')
       = map inv_id (open_list cur)
         ++ map row_inverter_id (filter (fun r => length r =? 7) rows).
Proof.
  induction rows as [|r rows IH]; intros ecu cur.
  - exists [], cur. cbn [fold_left filter map app].
    rewrite !app_nil_r, with_inverters_same. split; reflexivity.
  - cbn [fold_left filter]. unfold step at 2. cbn [fst snd].
    destruct (length r =? 0) eqn:E0.
    { apply Nat.eqb_eq in E0. rewrite E0. cbn [Nat.eqb]. apply IH. }
    destruct (length r =? 7) eqn:E7.
    + destruct (IH (flushed ecu cur) (Some (open_inverter r))) as [new [cur' [Hf Hid]]].
      exists (open_list cur ++ new), cur'. split.
      * rewrite Hf, flushed_with. cbn [with_inverters ecu_inverters].
        rewrite <- app_assoc. reflexivity.
      * rewrite <- app_assoc, map_app, Hid. cbn [open_list map app].
        rewrite open_inverter_id. reflexivity.
    + destruct cur as [inv|].
      * destruct (IH ecu (Some (attach inv (row_module r 3)))) as [new [cur' [Hf Hid]]].
        exists new, cur'. split; [exact Hf|].
        rewrite Hid. cbn [open_list map].
        destruct (attach_fields inv (row_module r 3)) as [-> _]. reflexivity.
      * apply IH.
Qed.

(** X4: the row loop only appends inverters.  Whatever the rows, the result
    is the record it was given with new inverters after those it already
    had, every other field untouched; there is one new inverter per
    seven-cell row, in row order, identified by the first part of that row's
    identity. *)
Theorem reconstruct_only_appends :
  forall (rows : list (list string)) (ecu : EcuData),
  exists new log,
    reconstruct rows ecu
    = (Ok (with_inverters ecu (ecu_inverters ecu ++ new)), log)
    /\ map inv_id new
       = map row_inverter_id (filter (fun r => length r =? 7) rows).
Proof.
  intros rows ecu. rewrite reconstruct_steps.
  destruct (steps_shape rows ecu None) as [new [cur' [Hf Hid]]].
  exists (new ++ open_list cur'), (steps_log (ecu, None) rows).
  rewrite Hf. cbn [fst snd]. rewrite flushed_with.
  cbn [with_inverters ecu_inverters]. rewrite <- app_assoc.
  split; [reflexivity | exact Hid].
Qed.

Lemma steps_skip_empty (rows : list (list string)) :
  forall st,
    fold_left step (filter nonempty_row rows) st = fold_left step rows st
    /\ steps_log st (filter nonempty_row rows) = steps_log st rows.
Proof.
  induction rows as [|r rows IH]; intros st; [split; reflexivity|].
  cbn [filter fold_left steps_log].
  assert (Hr : nonempty_row r = negb (length r =? 0)) by reflexivity.
  destruct (length r =? 0) eqn:E0; rewrite Hr; cbn [negb fold_left steps_log].
  - apply Nat.eqb_eq in E0. destruct (step_empty st r E0) as [-> ->].
    cbn [app]. apply IH.
  - destruct (IH (step st r)) as [-> ->]. split; reflexivity.
Qed.

(** X5: rows without [td] cells (headers, separators) are invisible: with
    them removed the reconstruction returns the same record and writes the
    same log. *)
Theorem empty_rows_are_skipped :
  forall (rows : list (list string)) (ecu : EcuData),
    reconstruct (filter nonempty_row rows) ecu = reconstruct rows ecu.
Proof.
  intros rows ecu. rewrite !reconstruct_steps.
  destruct (steps_skip_empty rows (ecu, None)) as [-> ->]. reflexivity.
Qed.


(** *** Modules and rows *)

Lemma seen_modules_step (st : loop_state) (cells : list string) :
  length (seen_modules (step st cells))
  <= length (seen_modules st) + (if nonempty_row cells then 1 else 0)
  /\ (snd st <> None \/ length cells = 7 ->
      length cells = 0 \/ well_formed cells ->
      length (seen_modules (step st cells))
      = length (seen_modules st) + (if nonempty_row cells then 1 else 0)
      /\ snd (step st cells) <> None).
Proof.
  destruct st as [ecu cur]. unfold step, seen_modules, seen_inverters, nonempty_row.
  cbn [fst snd].
  destruct (length cells =? 0) eqn:E0; cbn [negb fst snd].
  { split; [lia|]. intros [Hopen|H7] _.
    - split; [lia | exact Hopen].
    - apply Nat.eqb_eq in E0. congruence. }
  destruct (length cells =? 7) eqn:E7; cbn [fst snd].
  - rewrite flushed_inverters. unfold seen_inverters. cbn [fst snd].
    rewrite !flat_map_app, !length_app. cbn [flat_map]. rewrite app_nil_r.
    unfold open_inverter. split.
    + destruct (row_module cells 4); cbn; lia.
    + intros _ [Hl|Hw]; [apply Nat.eqb_neq in E0; contradiction|].
      destruct (row_module_well_formed cells 4 Hw) as [id1 [_ ->]].
      split; [cbn; lia | discriminate].
  - destruct cur as [inv|]; cbn [fst snd].
    + rewrite !flat_map_app, !length_app. cbn [flat_map]. rewrite !app_nil_r.
      split.
      * destruct (row_module cells 3); cbn [attach add_solar_module inv_solarmodules];
          rewrite ?length_app; cbn; lia.
      * intros _ [Hl|Hw]; [apply Nat.eqb_neq in E0; contradiction|].
        destruct (row_module_well_formed cells 3 Hw) as [id1 [_ ->]].
        cbn [attach add_solar_module inv_solarmodules]. rewrite length_app.
        split; [cbn; lia | discriminate].
    + split; [lia|]. intros [Hopen|H7] _.
      * contradiction.
      * apply Nat.eqb_neq in E7. contradiction.
Qed.

Lemma seen_modules_steps_le (rows : list (list string)) :
  forall st,
    length (seen_modules (fold_left step rows st))
    <= length (seen_modules st) + length (filter nonempty_row rows).
Proof.
  induction rows as [|r rows IH]; intros st; cbn [fold_left filter]; [cbn; lia|].
  specialize (IH (step st r)).
  destruct (seen_modules_step st r) as [Hle _].
  destruct (nonempty_row r); cbn [length]; lia.
Qed.

Lemma seen_modules_steps_eq (rows : list (list string)) :
  forall st,
    snd st <> None ->
    Forall (fun r => length r = 0 \/ well_formed r) rows ->
    length (seen_modules (fold_left step rows st))
    = length (seen_modules st) + length (filter nonempty_row rows).
Proof.
  induction rows as [|r rows IH]; intros st Hopen Hall; cbn [fold_left filter];
    [cbn; lia|].
  inversion Hall as [|? ? Hr Hrows]; subst.
  destruct (seen_modules_step st r) as [_ Heq].
  destruct (Heq (or_introl Hopen) Hr) as [Hlen Hopen'].
  rewrite (IH (step st r) Hopen' Hrows), Hlen.
  destruct (nonempty_row r); cbn [length]; lia.
Qed.

Lemma all_modules_flushed (ecu : EcuData) (cur : option InverterData) :
  all_modules (flushed ecu cur) = seen_modules (ecu, cur).
Proof. unfold all_modules, seen_modules. rewrite flushed_inverters. reflexivity. Qed.

Lemma seen_modules_closed (ecu : EcuData) :
  seen_modules (ecu, None) = all_modules ecu.
Proof.
  unfold seen_modules, seen_inverters, all_modules. cbn [fst snd].
  rewrite app_nil_r. reflexivity.
Qed.

(** X6: the reconstruction never makes more modules than there are rows
    with cells: the record gains at most one module per non-empty row. *)
Theorem modules_bounded_by_rows :
  forall (rows : list (list string)) (ecu : EcuData),
  exists ecu' log,
    reconstruct rows ecu = (Ok ecu', log)
    /\ length (all_modules ecu')
       <= length (all_modules ecu) + length (filter nonempty_row rows).
Proof.
  intros rows ecu. rewrite reconstruct_steps. eexists _, _.
  split; [reflexivity|].
  destruct (fold_left step rows (ecu, None)) as [ecu' cur] eqn:E.
  cbn [fst snd]. rewrite all_modules_flushed, <- E, <- seen_modules_closed.
  apply seen_modules_steps_le.
Qed.

(** X7: no row is lost in a well-formed table.  When the rows start with a
    seven-cell row and every row with cells has an identity of the form
    [<inverterId>-<moduleId>], the record gains exactly one module per
    non-empty row. *)
Theorem every_row_gives_a_module :
  forall (ecu : EcuData) (cells : list string) (rest : list (list string)),
    length cells = 7 ->
    Forall (fun r => length r = 0 \/ well_formed r) (cells :: rest) ->
    exists ecu' log,
      reconstruct (cells :: rest) ecu = (Ok ecu', log)
      /\ length (all_modules ecu')
         = length (all_modules ecu) + length (filter nonempty_row (cells :: rest)).
Proof.
  intros ecu cells rest H7 Hall. rewrite reconstruct_steps. eexists _, _.
  split; [reflexivity|].
  inversion Hall as [|? ? Hc Hrest]; subst.
  cbn [fold_left filter].
  destruct (seen_modules_step (ecu, None) cells) as [_ Heq].
  destruct (Heq (or_intror H7) Hc) as [Hlen Hopen].
  destruct (fold_left step rest (step (ecu, None) cells)) as [ecu' cur] eqn:E.
  cbn [fst snd]. rewrite all_modules_flushed, <- E.
  rewrite (seen_modules_steps_eq rest _ Hopen Hrest), Hlen, seen_modules_closed.
  destruct (nonempty_row cells); cbn [length]; lia.
Qed.

(** *** Groups of rows *)

Lemma steps_base (rows : list (list string)) :
  forall (ecu1 ecu2 : EcuData) (cur : option InverterData),
  exists tail,
    seen_inverters (fold_left step rows (ecu1, cur)) = ecu_inverters ecu1 ++ tail
    /\ seen_inverters (fold_left step rows (ecu2, cur)) = ecu_inverters ecu2 ++ tail.
Proof.
  induction rows as [|r rows IH]; intros ecu1 ecu2 cur.
  - exists (open_list cur). split; reflexivity.
  - cbn [fold_left].
    destruct (Nat.eq_dec (length r) 0) as [E0|E0].
    { rewrite !(proj1 (step_empty _ r E0)). apply IH. }
    destruct (Nat.eq_dec (length r) 7) as [E7|E7].
    + rewrite !(step_new_inverter _ r E7). cbn [fst snd].
      destruct (IH (flushed ecu1 cur) (flushed ecu2 cur) (Some (open_inverter r)))
        as [tail [H1 H2]].
      exists (open_list cur ++ tail).
      rewrite H1, H2, !flushed_inverters. unfold seen_inverters. cbn [fst snd].
      rewrite <- !app_assoc. split; reflexivity.
    + rewrite !(step_continuation _ r E0 E7). cbn [fst snd].
      destruct cur as [inv|]; apply IH.
Qed.

(** X8: groups are independent.  On a fresh record, the inverters
    reconstructed from rows followed by a group that starts with a
    seven-cell row are those of the rows before the group followed by those
    of the group taken alone: nothing before a new-inverter row reaches the
    inverter it opens. *)
Theorem groups_are_independent :
  forall (ecu : EcuData) (before rest : list (list string)) (cells : list string),
    ecu_inverters ecu = [] ->
    length cells = 7 ->
    exists ecu1 ecu2 ecu',
      fst (reconstruct before ecu) = Ok ecu1
      /\ fst (reconstruct (cells :: rest) ecu) = Ok ecu2
      /\ fst (reconstruct (before ++ cells :: rest) ecu) = Ok ecu'
      /\ ecu_inverters ecu' = ecu_inverters ecu1 ++ ecu_inverters ecu2.
Proof.
  intros ecu before rest cells Hfresh H7.
  rewrite !reconstruct_steps. cbn [fst]. eexists _, _, _.
  split; [reflexivity|]. split; [reflexivity|]. split; [reflexivity|].
  rewrite fold_left_app. cbn [fold_left].
  destruct (fold_left step before (ecu, None)) as [ecu1 cur1].
  rewrite !(step_new_inverter _ cells H7). cbn [fst snd flushed].
  destruct (steps_base rest (flushed ecu1 cur1) ecu (Some (open_inverter cells)))
    as [tail [H1 H2]].
  destruct (fold_left step rest (flushed ecu1 cur1, Some (open_inverter cells)))
    as [ea ca].
  destruct (fold_left step rest (ecu, Some (open_inverter cells))) as [eb cb].
  cbn [fst snd]. rewrite flushed_inverters in H1.
  rewrite !flushed_inverters, H1, H2, Hfresh. reflexivity.
Qed.


(** *** Logs and requests *)

Lemma coerce_row_record {A} (parse : string -> option A) (d : A) (cell : option string) :
  Forall row_record (snd (coerce IndexError parse d cell))
  /\ length (snd (coerce IndexError parse d cell)) <= 1.
Proof.
  unfold coerce, row_record. destruct cell as [c|]; [destruct (parse c)|];
    cbn [snd length]; (split; [|lia]);
    repeat apply Forall_cons; try apply Forall_nil; auto.
Qed.

Lemma attach_row_record (m : option SolarModule) :
  Forall row_record (attach_log m) /\ length (attach_log m) <= 1.
Proof.
  unfold row_record. destruct m; cbn [attach_log length]; (split; [|lia]);
    repeat apply Forall_cons; try apply Forall_nil; auto.
Qed.

Lemma row_records_app (l1 l2 : list event) (n1 n2 : nat) :
  Forall row_record l1 /\ length l1 <= n1 ->
  Forall row_record l2 /\ length l2 <= n2 ->
  Forall row_record (l1 ++ l2) /\ length (l1 ++ l2) <= n1 + n2.
Proof.
  intros [F1 L1] [F2 L2]. split; [apply Forall_app; split; assumption|].
  rewrite length_app. lia.
Qed.

Lemma step_log_records (st : loop_state) (cells : list string) :
  Forall row_record (step_log st cells)
  /\ length (step_log st cells) <= if nonempty_row cells then 7 else 0.
Proof.
  unfold step_log, nonempty_row.
  destruct (length cells =? 0); cbn [negb]; [split; [constructor | cbn; lia]|].
  destruct (length cells =? 7).
  - unfold cell_int, cell_float, cell_time.
    change 7 with (1 + (1 + (1 + (1 + (1 + (1 + 1)))))).
    repeat (apply row_records_app; [apply coerce_row_record|]).
    apply attach_row_record.
  - destruct (snd st); [|split; [constructor | cbn; lia]].
    unfold cell_int.
    assert (H : Forall row_record
                  (snd (coerce IndexError (parse_int "W") 0%Z (nth_error cells 1))
                   ++ snd (coerce IndexError (parse_int "V") 0%Z (nth_error cells 2))
                   ++ snd (coerce IndexError (parse_int "V") 0%Z (nth_error cells 3))
                   ++ attach_log (row_module cells 3))
                /\ length
                     (snd (coerce IndexError (parse_int "W") 0%Z (nth_error cells 1))
                      ++ snd (coerce IndexError (parse_int "V") 0%Z (nth_error cells 2))
                      ++ snd (coerce IndexError (parse_int "V") 0%Z (nth_error cells 3))
                      ++ attach_log (row_module cells 3))
                   <= 1 + (1 + (1 + 1))).
    { repeat (apply row_records_app; [apply coerce_row_record|]).
      apply attach_row_record. }
    destruct H as [HF HL]. split; [exact HF | lia].
Qed.

Lemma steps_log_records (rows : list (list string)) :
  forall st,
    Forall row_record (steps_log st rows)
    /\ length (steps_log st rows) <= 7 * length (filter nonempty_row rows).
Proof.
  induction rows as [|r rows IH]; intros st; cbn [steps_log filter].
  - split; [constructor | cbn; lia].
  - destruct (step_log_records st r) as [F1 L1].
    destruct (IH (step st r)) as [F2 L2].
    split; [apply Forall_app; split; assumption|].
    rewrite length_app. destruct (nonempty_row r); cbn [length]; lia.
Qed.

Lemma requests_app (t1 t2 : list event) :
  requests (t1 ++ t2) = requests t1 ++ requests t2.
Proof. unfold requests. apply flat_map_app. Qed.

Lemma requests_of_logs (t : list event) :
  Forall (fun ev => exists l e, ev = Log l e) t -> requests t = [].
Proof.
  induction 1 as [|ev t [l [e ->]] _ IH]; [reflexivity|].
  unfold requests in *. cbn [flat_map app]. exact IH.
Qed.

Lemma requests_of_row_records (t : list event) :
  Forall row_record t -> requests t = [].
Proof.
  intros H. apply requests_of_logs. revert H. apply Forall_impl.
  intros ev [-> | [-> | ->]]; eexists _, _; reflexivity.
Qed.

(** X9: the row loop is quiet and total.  Whatever the rows, the
    reconstruction returns a record and raises nothing, sends no request,
    and writes only warnings for an unreadable or missing cell and errors
    for an identity without a second part, at most seven records per row
    with cells. *)
Theorem row_loop_effects :
  forall (rows : list (list string)) (ecu : EcuData),
  exists ecu' log,
    reconstruct rows ecu = (Ok ecu', log)
    /\ Forall row_record log
    /\ requests log = []
    /\ length log <= 7 * length (filter nonempty_row rows).
Proof.
  intros rows ecu. rewrite reconstruct_steps. eexists _, _.
  split; [reflexivity|].
  destruct (steps_log_records rows (ecu, None)) as [HF HL].
  split; [exact HF|]. split; [apply requests_of_row_records; exact HF | exact HL].
Qed.

Lemma coerce_field_warning {A} (soup : node) (f : field)
    (parse : string -> option A) (d : A) :
  (forall c, parse c = None <-> parse_field f c = None) ->
  snd (coerce AttributeError parse d (locate soup (label f))) = field_warning soup f.
Proof.
  intros H. unfold coerce, field_warning.
  destruct (locate soup (label f)) as [c|]; [|reflexivity].
  specialize (H c).
  destruct (parse c), (parse_field f c); try reflexivity.
  - destruct H as [_ H]. discriminate (H eq_refl).
  - destruct H as [H _]. discriminate (H eq_refl).
Qed.

Lemma summary_log_fields (soup : node) :
  summary_log soup = flat_map (field_warning soup) all_fields.
Proof.
  unfold summary_log, all_fields. cbn [flat_map]. rewrite app_nil_r.
  rewrite <- (coerce_field_warning soup LifetimeGeneration (summary_float " kWh") (PyInt 0)).
  2: { intros c. cbn [parse_field]. destruct (summary_float " kWh" c); cbn [option_map]; split; intros; congruence. }
  rewrite <- (coerce_field_warning soup LastSystemPower (summary_int " W") 0%Z).
  2: { intros c. cbn [parse_field]. destruct (summary_int " W" c); cbn [option_map]; split; intros; congruence. }
  rewrite <- (coerce_field_warning soup DailyGeneration (summary_float " kWh") (PyFloat float_zero)).
  2: { intros c. cbn [parse_field]. destruct (summary_float " kWh" c); cbn [option_map]; split; intros; congruence. }
  rewrite <- (coerce_field_warning soup InverterCount PyStr.int 0%Z).
  2: { intros c. cbn [parse_field]. destruct (PyStr.int c); cbn [option_map]; split; intros; congruence. }
  rewrite <- (coerce_field_warning soup OnlineInverterCount PyStr.int 0%Z).
  2: { intros c. cbn [parse_field]. destruct (PyStr.int c); cbn [option_map]; split; intros; congruence. }
  rewrite <- (coerce_field_warning soup FirmwareVersion (@Some string) "").
  2: { intros c. cbn [parse_field]. split; intros; discriminate. }
  reflexivity.
Qed.

(** X10: the summary extractor warns once per degraded field.  When the
    identity can be read, the log of the extraction lists, in the order the
    fields are read, one warning for each field that is missing (with the
    [AttributeError]) or malformed (with the [ValueError]) and nothing else;
    so a fully readable page leaves no record, and no request is sent. *)
Theorem summary_warns_per_field :
  forall (soup : node) (address alias id : string),
    locate soup "ECU ID" = Some id ->
    exists ecu,
      extract_summary soup address alias
      = (Ok ecu, flat_map (field_warning soup) all_fields)
      /\ length (flat_map (field_warning soup) all_fields)
         = length (filter (field_missing soup) all_fields)
      /\ requests (flat_map (field_warning soup) all_fields) = [].
Proof.
  intros soup address alias id Hid.
  rewrite extract_summary_eq, Hid, summary_log_fields.
  eexists. split; [reflexivity|].
  assert (Hone : forall f,
             field_warning soup f
             = if field_missing soup f
               then match locate soup (label f) with
                    | None => [Log WARNING AttributeError]
                    | Some _ => [Log WARNING ValueError]
                    end
               else []).
  { intros f. unfold field_warning, field_missing, field_on_page.
    destruct (locate soup (label f)) as [c|]; [|reflexivity].
    destruct (parse_field f c); reflexivity. }
  split.
  - induction all_fields as [|f l IH]; [reflexivity|].
    cbn [flat_map filter]. rewrite length_app, IH, Hone.
    destruct (field_missing soup f); [|reflexivity].
    destruct (locate soup (label f)); reflexivity.
  - apply requests_of_logs. apply Forall_flat_map, Forall_forall.
    intros f _. rewrite Hone.
    destruct (field_missing soup f); [|constructor].
    destruct (locate soup (label f)); repeat constructor; eexists _, _; reflexivity.
Qed.

Lemma requests_summary_log (soup : node) : requests (summary_log soup) = [].
Proof.
  rewrite summary_log_fields. apply requests_of_logs.
  apply Forall_flat_map, Forall_forall. intros f _. unfold field_warning.
  destruct (locate soup (label f)) as [c|];
    [destruct (parse_field f c)|]; repeat constructor; eexists _, _; reflexivity.
Qed.

(** X11: the requests of a fetch.  [get_ecu_data] asks for the summary page
    first and always; it asks for the realtime page, once and after it, when
    and only when the summary page was served and the identity was read from
    it; it asks for nothing else. *)
Theorem fetch_requests :
  forall (srv : server) (address alias : string),
    requests (snd (get_ecu_data srv address alias))
    = match srv (summary_url address) with
      | Page soup =>
          match locate soup "ECU ID" with
          | Some _ => [summary_url address; realtime_url address]
          | None => [summary_url address]
          end
      | Fails _ => [summary_url address]
      end.
Proof.
  intros srv address alias.
  rewrite get_ecu_data_of_body, get_ecu_data_body_eq. cbn [snd].
  destruct (srv (summary_url address)) as [e|soup]; [reflexivity|].
  destruct (locate soup "ECU ID") as [id|]; [|reflexivity].
  cbv zeta.
  assert (Ht : requests (Get (summary_url address) :: summary_log soup
                         ++ [Get (realtime_url address)])
               = [summary_url address; realtime_url address]).
  { change (Get (summary_url address) :: summary_log soup ++ [Get (realtime_url address)])
      with ([Get (summary_url address)] ++ summary_log soup ++ [Get (realtime_url address)]).
    rewrite !requests_app, requests_summary_log. reflexivity. }
  destruct (srv (realtime_url address)) as [e|rt]; [exact Ht|].
  destruct (locate_table rt) as [table|]; [|exact Ht].
  cbn [snd]. rewrite requests_app, Ht.
  destruct (steps_log_records (table_rows table)
              (summary_record soup id address alias, None)) as [HF _].
  rewrite (requests_of_row_records _ HF). reflexivity.
Qed.

Lemma get_field_with_inverters (f : field) (ecu : EcuData) (l : list InverterData) :
  get_field f (with_inverters ecu l) = get_field f ecu.
Proof. destruct f; reflexivity. Qed.

(** X12: what a snapshot holds.  When [get_ecu_data] returns a record, its
    address and alias are the client's, its identity is the one read from
    the summary page, each gateway field is the value on the summary page
    or its default, and its inverters are, in row order, those of the
    seven-cell rows of the realtime table: no row of the realtime page
    reaches a gateway field, although the loop reuses the names [id] and
    [power]. *)
Theorem snapshot_contents :
  forall (srv : server) (address alias : string) (ecu : EcuData) (t : list event),
    get_ecu_data srv address alias = (Some ecu, t) ->
    exists soup soup_realtimedata table,
      srv (summary_url address) = Page soup
      /\ srv (realtime_url address) = Page soup_realtimedata
      /\ locate_table soup_realtimedata = Some table
      /\ locate soup "ECU ID" = Some (ecu_id ecu)
      /\ ecu_address ecu = address
      /\ ecu_alias ecu = alias
      /\ (forall f, get_field f ecu
                    = match field_on_page soup f with
                      | Some v => v
                      | None => default_value f
                      end)
      /\ map inv_id (ecu_inverters ecu)
         = map row_inverter_id (filter (fun r => length r =? 7) (table_rows table)).
Proof.
  intros srv address alias ecu t Hrun.
  rewrite get_ecu_data_of_body, get_ecu_data_body_eq in Hrun.
  destruct (srv (summary_url address)) as [e|soup]; [discriminate|].
  destruct (locate soup "ECU ID") as [id|] eqn:Hid; [|discriminate].
  cbv zeta in Hrun.
  destruct (srv (realtime_url address)) as [e|rt]; [discriminate|].
  destruct (locate_table rt) as [table|] eqn:Ht; [|discriminate].
  cbn [fst snd] in Hrun. injection Hrun as <- _.
  exists soup, rt, table.
  unfold snapshot. cbv zeta.
  destruct (steps_shape (table_rows table) (summary_record soup id address alias) None)
    as [new [cur' [Hf Hids]]].
  rewrite Hf. cbn [fst snd]. rewrite flushed_with.
  cbn [with_inverters ecu_inverters ecu_id ecu_address ecu_alias summary_record
       new_EcuData app].
  split; [reflexivity|]. split; [reflexivity|]. split; [exact Ht|].
  split; [exact Hid|]. split; [reflexivity|]. split; [reflexivity|].
  split; [|exact Hids].
  intros f. rewrite <- (summary_field_value soup id address alias f).
  destruct f; reflexivity.
Qed.


(** ** Properties of the sensor platform *)

Lemma for_each_ret {A B} (f : A -> M B) (g : A -> B) (l : list A) :
  (forall x, f x = ret (g x)) -> for_each f l = ret (map g l).
Proof.
  intros H. induction l as [|x l IH]; cbn [for_each map]; [reflexivity|].
  rewrite H, bind_ret, IH, bind_ret. reflexivity.
Qed.

Lemma for_each_extend_ret {A B} (f : A -> M (list B)) (g : A -> list B) (l : list A) :
  (forall x, f x = ret (g x)) -> for_each_extend f l = ret (flat_map g l).
Proof.
  intros H. induction l as [|x l IH]; cbn [for_each_extend flat_map]; [reflexivity|].
  rewrite H, bind_ret, IH, bind_ret. reflexivity.
Qed.

Lemma async_setup_entry_some (ecu : EcuData) :
  async_setup_entry (Some ecu) = ret (entities_of ecu).
Proof.
  unfold async_setup_entry. cbv zeta.
  rewrite (for_each_ret _ (fun d => init_EcuSensor d ecu)) by reflexivity.
  rewrite bind_ret. cbn [attr]. rewrite bind_ret.
  rewrite (for_each_extend_ret _ (inverter_entities ecu)).
  - rewrite bind_ret. reflexivity.
  - intros inverter.
    rewrite (for_each_ret _ (fun d => init_InverterSensor d inverter ecu)) by reflexivity.
    rewrite bind_ret.
    rewrite (for_each_extend_ret _ (module_entities ecu inverter)).
    + rewrite bind_ret. reflexivity.
    + intros module. apply for_each_ret. reflexivity.
Qed.

Lemma length_module_entities (ecu : EcuData) (inverter : InverterData)
    (modules : list SolarModule) :
  length (flat_map (module_entities ecu inverter) modules) = 3 * length modules.
Proof.
  induction modules as [|m l IH]; [reflexivity|].
  cbn [flat_map]. rewrite length_app, IH. cbn [length module_entities map
    SOLAR_MODULE_SENSOR_LIST]. lia.
Qed.

Lemma length_inverter_entities (ecu : EcuData) (inverters : list InverterData) :
  length (flat_map (inverter_entities ecu) inverters)
  = 3 * length inverters + 3 * length (flat_map inv_solarmodules inverters).
Proof.
  induction inverters as [|inv l IH]; [reflexivity|].
  cbn [flat_map]. unfold inverter_entities at 1.
  rewrite !length_app, IH, length_module_entities.
  cbn [length map INVERTER_SENSOR_LIST]. lia.
Qed.

Lemma entity_of_snapshot (ecu : EcuData) (e : entity) :
  In e (entities_of ecu) ->
  (exists d, In d ECU_SENSOR_LIST /\ e = init_EcuSensor d ecu)
  \/ (exists d inverter,
         In d INVERTER_SENSOR_LIST /\ In inverter (ecu_inverters ecu)
         /\ e = init_InverterSensor d inverter ecu)
  \/ (exists d inverter module,
         In d SOLAR_MODULE_SENSOR_LIST /\ In inverter (ecu_inverters ecu)
         /\ In module (inv_solarmodules inverter)
         /\ e = init_SolarModuleSensor d module (inv_id inverter) ecu).
Proof.
  unfold entities_of. intros H. apply in_app_or in H. destruct H as [H|H].
  - apply in_map_iff in H. destruct H as [d [<- Hd]]. left. exists d. split; auto.
  - apply in_flat_map in H. destruct H as [inverter [Hinv H]].
    unfold inverter_entities in H. apply in_app_or in H. destruct H as [H|H].
    + apply in_map_iff in H. destruct H as [d [<- Hd]].
      right. left. exists d, inverter. repeat split; auto.
    + apply in_flat_map in H. destruct H as [module [Hm H]].
      unfold module_entities in H. apply in_map_iff in H. destruct H as [d [<- Hd]].
      right. right. exists d, inverter, module. repeat split; auto.
Qed.

(** X13: the entities of a snapshot.  Without a snapshot
    ([coordinator.data] is [None]) the set-up raises [AttributeError] and
    adds nothing.  With one it adds six gateway entities, three per
    inverter and three per module, every one attached to the single device
    [(DOMAIN, ecu._id)] named after the alias, with the entity id
    [sensor.] followed by its unique id. *)
Theorem setup_entities :
  async_setup_entry None = (Raise AttributeError, [])
  /\ forall (ecu : EcuData),
      exists l,
        async_setup_entry (Some ecu) = (Ok l, [])
        /\ length l
           = 6 + 3 * length (ecu_inverters ecu) + 3 * length (all_modules ecu)
        /\ Forall
             (fun e =>
                _attr_device_info (attrs_of e)
                = {| identifiers := [(DOMAIN, ecu_id ecu)];
                     device_name := ecu_alias ecu |}
                /\ entity_id (attrs_of e) = "sensor." +++ unique_id_of e)
             l.
Proof.
  split; [reflexivity|].
  intros ecu. exists (entities_of ecu). rewrite async_setup_entry_some.
  split; [reflexivity|]. split.
  - unfold entities_of, all_modules.
    rewrite length_app, length_inverter_entities.
    cbn [length map ECU_SENSOR_LIST]. lia.
  - apply Forall_forall. intros e He.
    destruct (entity_of_snapshot ecu e He)
      as [[d [_ ->]] | [[d [inv [_ [_ ->]]]] | [d [inv [m [_ [_ [_ ->]]]]]]]];
      split; reflexivity.
Qed.

Lemma find_by_id_unique {A} (key : A -> string) (l : list A) (x : A) :
  NoDup (map key l) -> In x l ->
  List.find (fun y => String.eqb (key y) (key x)) l = Some x.
Proof.
  induction l as [|a l IH]; intros Hnd Hin; [contradiction|].
  cbn [map] in Hnd. inversion Hnd as [|? ? Hnot Hnd']; subst.
  cbn [List.find]. destruct Hin as [->|Hin].
  - rewrite String.eqb_refl. reflexivity.
  - destruct (String.eqb_spec (key a) (key x)) as [Heq|_]; [|apply IH; assumption].
    exfalso. apply Hnot. rewrite Heq. apply in_map. exact Hin.
Qed.

Lemma set_native_value_same (a : entity_attrs) :
  set_native_value a (_attr_native_value a) = a.
Proof. destruct a; reflexivity. Qed.

Lemma sub_runs_empty (b : bool) (s : string) :
  PyRe.sub_runs "" b s = PyRe.sub_runs "" false s.
Proof.
  destruct s as [|c s]; [reflexivity|].
  cbn [PyRe.sub_runs]. destruct (PyRe.alnum c); [reflexivity|].
  destruct b; reflexivity.
Qed.

Lemma strip_non_alnum_cons (c : ascii) (s : string) :
  PyRe.strip_non_alnum (String c s)
  = if PyRe.alnum c then String c (PyRe.strip_non_alnum s)
    else PyRe.strip_non_alnum s.
Proof.
  unfold PyRe.strip_non_alnum. cbn [PyRe.sub_runs].
  destruct (PyRe.alnum c); [reflexivity|].
  cbn [String.append]. apply sub_runs_empty.
Qed.

Lemma strip_non_alnum_alnum (s : string) :
  PyRe.all_alnum (PyRe.strip_non_alnum s) = true.
Proof.
  induction s as [|c s IH]; [reflexivity|].
  rewrite strip_non_alnum_cons. destruct (PyRe.alnum c) eqn:E; [|exact IH].
  cbn [PyRe.all_alnum]. rewrite E, IH. reflexivity.
Qed.

Lemma strip_non_alnum_fixed (s : string) :
  PyRe.all_alnum s = true -> PyRe.strip_non_alnum s = s.
Proof.
  induction s as [|c s IH]; [reflexivity|].
  cbn [PyRe.all_alnum]. intros H. apply andb_prop in H. destruct H as [Hc Hs].
  rewrite strip_non_alnum_cons, Hc, (IH Hs). reflexivity.
Qed.

(** X14: refreshing on the snapshot the entities were built from changes
    nothing.  When the inverter identities of the snapshot are pairwise
    distinct and, in each inverter, the module identities are alphanumeric
    and pairwise distinct, [_handle_coordinator_update] of every entity of
    the snapshot finds its inverter or module again and leaves the entity as
    it was. *)
Theorem refresh_on_same_snapshot :
  forall (ecu : EcuData),
    NoDup (map inv_id (ecu_inverters ecu)) ->
    (forall inverter,
        In inverter (ecu_inverters ecu) ->
        NoDup (map sm_id (inv_solarmodules inverter))
        /\ Forall (fun m => PyRe.all_alnum (sm_id m) = true) (inv_solarmodules inverter)) ->
    forall e,
      In e (entities_of ecu) ->
      _handle_coordinator_update e (Some ecu) = (Ok e, []).
Proof.
  intros ecu Hinv Hmod e He.
  destruct (entity_of_snapshot ecu e He)
    as [[d [_ ->]] | [[d [inv [_ [Hin ->]]]] | [d [inv [m [_ [Hin [Hm ->]]]]]]]].
  - reflexivity.
  - unfold init_InverterSensor, _handle_coordinator_update. cbv zeta.
    cbn [attr]. rewrite bind_ret. unfold get_inverter_by_id.
    rewrite (find_by_id_unique inv_id _ inv Hinv Hin). reflexivity.
  - destruct (Hmod inv Hin) as [Hnd Halnum].
    unfold init_SolarModuleSensor, _handle_coordinator_update. cbv zeta.
    cbn [attr]. rewrite bind_ret. unfold get_inverter_by_id.
    rewrite (find_by_id_unique inv_id _ inv Hinv Hin). cbn [attr]. rewrite bind_ret.
    rewrite Forall_forall in Halnum.
    rewrite (strip_non_alnum_fixed _ (Halnum m Hm)).
    unfold get_solarmodule_by_id.
    rewrite (find_by_id_unique sm_id _ m Hnd Hm). reflexivity.
Qed.

Lemma find_by_id_none {A} (key : A -> string) (id : string) (l : list A) :
  Forall (fun y => key y <> id) l ->
  List.find (fun x => String.eqb (key x) id) l = None.
Proof.
  induction 1 as [|a l Ha _ IH]; [reflexivity|].
  cbn [List.find]. destruct (String.eqb_spec (key a) id); [contradiction | exact IH].
Qed.

(** X15: a refresh that cannot find its data raises.  Every entity's
    [_handle_coordinator_update] raises [AttributeError], and leaves the
    value unassigned, when the coordinator holds no snapshot, which is what
    [_async_update_data] returns after a failed fetch; an inverter entity
    (and a module entity) does so too when the new snapshot has no inverter
    with its identity. *)
Theorem refresh_without_data :
  (forall (e : entity), _handle_coordinator_update e None = (Raise AttributeError, []))
  /\ (forall (srv : server) (c : EcuUpdateCoordinator) (e : entity),
         fst (get_ecu_data srv (client_address (_ecuClient c))
                (client_alias (_ecuClient c))) = None ->
         _handle_coordinator_update e (fst (_async_update_data srv c))
         = (Raise AttributeError, []))
  /\ (forall (ecu : EcuData) (id : string),
         Forall (fun i => inv_id i <> id) (ecu_inverters ecu) ->
         (forall d a,
             _handle_coordinator_update (InverterSensor d id a) (Some ecu)
             = (Raise AttributeError, []))
         /\ (forall d mid a,
                _handle_coordinator_update (SolarModuleSensor d id mid a) (Some ecu)
                = (Raise AttributeError, []))).
Proof.
  split; [|split].
  - intros [d a | d id a | d iid id a]; reflexivity.
  - intros srv c e Hfail.
    unfold _async_update_data, client_get_ecu_data.
    destruct (get_ecu_data srv _ _) as [response t]. cbn [fst] in Hfail |- *.
    subst response. destruct e; reflexivity.
  - intros ecu id Hnone.
    assert (Hfind : get_inverter_by_id ecu id = None)
      by (apply (find_by_id_none inv_id); exact Hnone).
    split; intros; cbn [_handle_coordinator_update attr]; rewrite bind_ret, Hfind;
      reflexivity.
Qed.

(** X16: module entities look their module up by the sanitised identity.
    The refresh of a module entity looks, in the first inverter of the
    snapshot that carries the entity's inverter identity, for a module whose
    identity is the module's identity with the characters outside
    [[0-9a-zA-Z]] removed: if no module of that inverter carries the
    stripped identity, the refresh raises [AttributeError], and a module of
    that inverter then has such a character in its identity.  In particular,
    for a module of an inverter of a snapshot whose inverter identities are
    pairwise distinct, if no module of its own inverter carries the stripped
    identity, then the module's identity contains such a character and the
    refresh of its entity raises [AttributeError] even on the snapshot the
    entity was built from. *)
Theorem module_refresh_by_sanitised_id :
  (forall (ecu : EcuData) (inverter_id : string) (found : InverterData)
          (module : SolarModule)
          (d : EcuSensorEntityDescription SolarModule (SolarModule -> string -> string)),
      get_inverter_by_id ecu inverter_id = Some found ->
      Forall (fun m => sm_id m <> PyRe.strip_non_alnum (sm_id module))
             (inv_solarmodules found) ->
      _handle_coordinator_update
        (init_SolarModuleSensor d module inverter_id ecu) (Some ecu)
      = (Raise AttributeError, [])
      /\ (In module (inv_solarmodules found) ->
          PyRe.all_alnum (sm_id module) = false))
  /\ (forall (ecu : EcuData) (inverter : InverterData) (module : SolarModule)
             (d : EcuSensorEntityDescription SolarModule
                    (SolarModule -> string -> string)),
         NoDup (map inv_id (ecu_inverters ecu)) ->
         In inverter (ecu_inverters ecu) ->
         In module (inv_solarmodules inverter) ->
         Forall (fun m => sm_id m <> PyRe.strip_non_alnum (sm_id module))
                (inv_solarmodules inverter) ->
         PyRe.all_alnum (sm_id module) = false
         /\ _handle_coordinator_update
              (init_SolarModuleSensor d module (inv_id inverter) ecu) (Some ecu)
            = (Raise AttributeError, [])).
Proof.
  assert (Hraise : forall ecu inverter_id found (m : SolarModule)
                     (d : EcuSensorEntityDescription SolarModule
                            (SolarModule -> string -> string)),
             get_inverter_by_id ecu inverter_id = Some found ->
             Forall (fun m' => sm_id m' <> PyRe.strip_non_alnum (sm_id m))
                    (inv_solarmodules found) ->
             _handle_coordinator_update
               (init_SolarModuleSensor d m inverter_id ecu) (Some ecu)
             = (Raise AttributeError, [])).
  { intros ecu iid found m d Hfound Hnone.
    unfold init_SolarModuleSensor, _handle_coordinator_update. cbv zeta.
    cbn [attr]. rewrite bind_ret, Hfound. cbn [attr]. rewrite bind_ret.
    unfold get_solarmodule_by_id.
    rewrite (find_by_id_none sm_id _ _ Hnone). reflexivity. }
  assert (Hchar : forall (l : list SolarModule) (m : SolarModule),
             Forall (fun m' => sm_id m' <> PyRe.strip_non_alnum (sm_id m)) l ->
             In m l -> PyRe.all_alnum (sm_id m) = false).
  { intros l m Hnone Hm.
    destruct (PyRe.all_alnum (sm_id m)) eqn:E; [|reflexivity].
    exfalso. rewrite Forall_forall in Hnone.
    apply (Hnone m Hm). symmetry. apply strip_non_alnum_fixed. exact E. }
  split.
  - intros ecu iid found m d Hfound Hnone. split.
    + exact (Hraise ecu iid found m d Hfound Hnone).
    + exact (Hchar _ m Hnone).
  - intros ecu inv m d Hnd Hin Hm Hnone. split.
    + exact (Hchar _ m Hnone Hm).
    + apply (Hraise ecu (inv_id inv) inv m d); [|exact Hnone].
      unfold get_inverter_by_id.
      exact (find_by_id_unique inv_id _ inv Hnd Hin).
Qed.


(** *** Strings as lists of characters *)

Lemma append_inj_l (p a b : string) : p +++ a = p +++ b -> a = b.
Proof.
  induction p as [|c p IH]; cbn [String.append]; intros H; [exact H|].
  injection H as H. exact (IH H).
Qed.

Lemma list_ascii_of_append (a b : string) :
  list_ascii_of_string (a +++ b) = list_ascii_of_string a ++ list_ascii_of_string b.
Proof.
  induction a as [|c a IH]; cbn [String.append list_ascii_of_string app];
    [reflexivity | rewrite IH; reflexivity].
Qed.

Lemma list_ascii_inj (a b : string) :
  list_ascii_of_string a = list_ascii_of_string b -> a = b.
Proof.
  intros H. rewrite <- (string_of_list_ascii_of_string a),
    <- (string_of_list_ascii_of_string b), H. reflexivity.
Qed.

Lemma rev_list_ascii_inj (a b : string) :
  rev (list_ascii_of_string a) = rev (list_ascii_of_string b) -> a = b.
Proof.
  intros H. apply list_ascii_inj.
  rewrite <- (rev_involutive (list_ascii_of_string a)), H. apply rev_involutive.
Qed.

Lemma split_at_first {A} (c : A) (x x' y y' : list A) :
  ~ In c x -> ~ In c x' -> x ++ c :: y = x' ++ c :: y' -> x = x' /\ y = y'.
Proof.
  revert x'. induction x as [|a x IH]; intros [|a' x'] Hx Hx' H; cbn [app] in H.
  - injection H as H. split; [reflexivity | exact H].
  - injection H as H1 H2. subst a'. exfalso. apply Hx'. left. reflexivity.
  - injection H as H1 H2. subst a. exfalso. apply Hx. left. reflexivity.
  - injection H as H1 H2. subst a'.
    destruct (IH x') as [-> ->]; auto.
    + intros Hin. apply Hx. right. exact Hin.
    + intros Hin. apply Hx'. right. exact Hin.
Qed.

Lemma alnum_no_underscore (s : string) :
  PyRe.all_alnum s = true -> ~ In "_"%char (rev (list_ascii_of_string s)).
Proof.
  intros H Hin. rewrite <- in_rev in Hin. revert H Hin.
  induction s as [|c s IH]; cbn [PyRe.all_alnum list_ascii_of_string];
    intros H Hin; [contradiction|].
  apply andb_prop in H. destruct H as [Hc Hs]. destruct Hin as [->|Hin].
  - discriminate Hc.
  - exact (IH Hs Hin).
Qed.

(** From [a + "_" + k1 = b + "_" + k2] to the same equation on the reversed
    character lists, with the keys' characters in front. *)
Ltac reversed_suffix H :=
  apply (f_equal list_ascii_of_string) in H;
  rewrite !list_ascii_of_append in H;
  apply (f_equal (@rev ascii)) in H;
  rewrite !rev_app_distr in H;
  cbn [list_ascii_of_string rev app] in H.

Lemma inverter_unique_id_inj (alias id1 id2 k1 k2 : string) :
  In k1 ["freq"; "temperature"; "reporting_time"] ->
  In k2 ["freq"; "temperature"; "reporting_time"] ->
  "inverter_" +++ alias +++ "_" +++ id1 +++ "_" +++ k1
  = "inverter_" +++ alias +++ "_" +++ id2 +++ "_" +++ k2 ->
  id1 = id2 /\ k1 = k2.
Proof.
  intros H1 H2 H.
  apply (append_inj_l "inverter_"), (append_inj_l alias), (append_inj_l "_") in H.
  cbn [In] in H1, H2.
  destruct H1 as [<-|[<-|[<-|[]]]]; destruct H2 as [<-|[<-|[<-|[]]]];
    reversed_suffix H; try discriminate H;
    (split; [|reflexivity]); apply rev_list_ascii_inj;
    injection H as H; exact H.
Qed.

Lemma module_unique_id_inj (alias inv1 inv2 id1 id2 k1 k2 : string) :
  In k1 ["power"; "dcvoltage"; "acvoltage"] ->
  In k2 ["power"; "dcvoltage"; "acvoltage"] ->
  PyRe.all_alnum id1 = true -> PyRe.all_alnum id2 = true ->
  "module_" +++ alias +++ "_" +++ inv1 +++ "_" +++ id1 +++ "_" +++ k1
  = "module_" +++ alias +++ "_" +++ inv2 +++ "_" +++ id2 +++ "_" +++ k2 ->
  inv1 = inv2 /\ id1 = id2 /\ k1 = k2.
Proof.
  intros H1 H2 A1 A2 H.
  apply (append_inj_l "module_"), (append_inj_l alias), (append_inj_l "_") in H.
  cbn [In] in H1, H2.
  destruct H1 as [<-|[<-|[<-|[]]]]; destruct H2 as [<-|[<-|[<-|[]]]];
    reversed_suffix H; try discriminate H;
    injection H as H; rewrite <- !app_assoc in H; cbn [app] in H;
    destruct (split_at_first _ _ _ _ _ (alnum_no_underscore _ A1)
                (alnum_no_underscore _ A2) H) as [Hid Hinv];
    (split; [exact (rev_list_ascii_inj _ _ Hinv)|]);
    (split; [exact (rev_list_ascii_inj _ _ Hid) | reflexivity]).
Qed.


(** *** Unique ids *)

Lemma NoDup_flat_map_by_key {A B K} (key : A -> K) (f : A -> list B) (l : list A) :
  NoDup (map key l) ->
  (forall x, In x l -> NoDup (f x)) ->
  (forall x y z, In x l -> In y l -> In z (f x) -> In z (f y) -> key x = key y) ->
  NoDup (flat_map f l).
Proof.
  induction l as [|a l IH]; intros Hk Hf Hcross; [constructor|].
  cbn [map] in Hk. inversion Hk as [|? ? Hnot Hk']; subst.
  cbn [flat_map]. apply NoDup_app.
  - apply Hf. left. reflexivity.
  - apply IH; [exact Hk' | |].
    + intros x Hx. apply Hf. right. exact Hx.
    + intros x y z Hx Hy. apply Hcross; right; assumption.
  - intros z Hza Hzl. apply in_flat_map in Hzl. destruct Hzl as [y [Hy Hzy]].
    apply Hnot. rewrite (Hcross a y z); [apply in_map; exact Hy | | | exact Hza | exact Hzy].
    + left. reflexivity.
    + right. exact Hy.
Qed.

Lemma map_flat_map {A B C} (g : B -> C) (f : A -> list B) (l : list A) :
  map g (flat_map f l) = flat_map (fun x => map g (f x)) l.
Proof.
  induction l as [|a l IH]; [reflexivity|].
  cbn [flat_map]. rewrite map_app, IH. reflexivity.
Qed.

Lemma unique_ids_of_entities (ecu : EcuData) :
  map unique_id_of (entities_of ecu)
  = ecu_unique_ids (ecu_alias ecu)
    ++ flat_map
         (fun inverter =>
            inverter_unique_ids (ecu_alias ecu) (inv_id inverter)
            ++ flat_map
                 (fun module =>
                    module_unique_ids (ecu_alias ecu) (inv_id inverter)
                      (PyRe.strip_non_alnum (sm_id module)))
                 (inv_solarmodules inverter))
         (ecu_inverters ecu).
Proof.
  unfold entities_of. rewrite map_app, map_flat_map. f_equal.
  apply flat_map_ext. intros inverter.
  unfold inverter_entities. rewrite map_app, map_flat_map. f_equal.
Qed.

Lemma ecu_unique_ids_first (alias z : string) :
  In z (ecu_unique_ids alias) -> exists r, z = String "e" r.
Proof.
  unfold ecu_unique_ids. intros H. apply in_map_iff in H.
  destruct H as [k [<- _]]. eexists. reflexivity.
Qed.

Lemma inverter_unique_ids_first (alias id z : string) :
  In z (inverter_unique_ids alias id) -> exists r, z = String "i" r.
Proof.
  unfold inverter_unique_ids. intros H. apply in_map_iff in H.
  destruct H as [k [<- _]]. eexists. reflexivity.
Qed.

Lemma module_unique_ids_first (alias inv id z : string) :
  In z (module_unique_ids alias inv id) -> exists r, z = String "m" r.
Proof.
  unfold module_unique_ids. intros H. apply in_map_iff in H.
  destruct H as [k [<- _]]. eexists. reflexivity.
Qed.

Lemma NoDup_ecu_unique_ids (alias : string) : NoDup (ecu_unique_ids alias).
Proof.
  unfold ecu_unique_ids. apply NoDup_map_NoDup_ForallPairs.
  - intros k1 k2 _ _ H.
    apply (append_inj_l "ecu_"), (append_inj_l alias), (append_inj_l "_") in H.
    exact H.
  - distinct_strings.
Qed.

Lemma NoDup_inverter_unique_ids (alias id : string) :
  NoDup (inverter_unique_ids alias id).
Proof.
  unfold inverter_unique_ids. apply NoDup_map_NoDup_ForallPairs.
  - intros k1 k2 _ _ H.
    apply (append_inj_l "inverter_"), (append_inj_l alias), (append_inj_l "_"),
      (append_inj_l id), (append_inj_l "_") in H.
    exact H.
  - distinct_strings.
Qed.

Lemma NoDup_module_unique_ids (alias inv id : string) :
  NoDup (module_unique_ids alias inv id).
Proof.
  unfold module_unique_ids. apply NoDup_map_NoDup_ForallPairs.
  - intros k1 k2 _ _ H.
    apply (append_inj_l "module_"), (append_inj_l alias), (append_inj_l "_"),
      (append_inj_l inv), (append_inj_l "_"), (append_inj_l id),
      (append_inj_l "_") in H.
    exact H.
  - distinct_strings.
Qed.

Lemma module_unique_ids_meet (alias inv1 inv2 m1 m2 z : string) :
  In z (module_unique_ids alias inv1 (PyRe.strip_non_alnum m1)) ->
  In z (module_unique_ids alias inv2 (PyRe.strip_non_alnum m2)) ->
  inv1 = inv2 /\ PyRe.strip_non_alnum m1 = PyRe.strip_non_alnum m2.
Proof.
  unfold module_unique_ids. intros H1 H2.
  apply in_map_iff in H1. destruct H1 as [k1 [<- Hk1]].
  apply in_map_iff in H2. destruct H2 as [k2 [Heq Hk2]].
  destruct (module_unique_id_inj alias inv2 inv1 _ _ k2 k1 Hk2 Hk1
              (strip_non_alnum_alnum m2) (strip_non_alnum_alnum m1) Heq)
    as [-> [-> _]].
  split; reflexivity.
Qed.

Lemma inverter_unique_ids_meet (alias id1 id2 z : string) :
  In z (inverter_unique_ids alias id1) ->
  In z (inverter_unique_ids alias id2) ->
  id1 = id2.
Proof.
  unfold inverter_unique_ids. intros H1 H2.
  apply in_map_iff in H1. destruct H1 as [k1 [<- Hk1]].
  apply in_map_iff in H2. destruct H2 as [k2 [Heq Hk2]].
  destruct (inverter_unique_id_inj alias id2 id1 k2 k1 Hk2 Hk1 Heq) as [-> _].
  reflexivity.
Qed.

(** X17: unique ids are unique.  When the inverter identities of a
    snapshot are pairwise distinct and, within each inverter, the module
    identities stay pairwise distinct once the characters outside
    [[0-9a-zA-Z]] are removed, no two entities of the snapshot share a
    unique id, whatever the alias and however many underscores the
    identities contain. *)
Theorem unique_ids_are_distinct :
  forall (ecu : EcuData),
    NoDup (map inv_id (ecu_inverters ecu)) ->
    (forall inverter,
        In inverter (ecu_inverters ecu) ->
        NoDup (map (fun m => PyRe.strip_non_alnum (sm_id m)) (inv_solarmodules inverter))) ->
    NoDup (map unique_id_of (entities_of ecu)).
Proof.
  intros ecu Hinv Hmod. rewrite unique_ids_of_entities.
  set (alias := ecu_alias ecu).
  assert (Hone : forall inverter,
             In inverter (ecu_inverters ecu) ->
             NoDup (inverter_unique_ids alias (inv_id inverter)
                    ++ flat_map
                         (fun module =>
                            module_unique_ids alias (inv_id inverter)
                              (PyRe.strip_non_alnum (sm_id module)))
                         (inv_solarmodules inverter))).
  { intros inverter Hin. apply NoDup_app.
    - apply NoDup_inverter_unique_ids.
    - apply (NoDup_flat_map_by_key (fun m => PyRe.strip_non_alnum (sm_id m))).
      + exact (Hmod inverter Hin).
      + intros m _. apply NoDup_module_unique_ids.
      + intros m1 m2 z _ _ H1 H2.
        exact (proj2 (module_unique_ids_meet _ _ _ _ _ _ H1 H2)).
    - intros z Hi Hm. apply in_flat_map in Hm. destruct Hm as [m [_ Hm]].
      destruct (inverter_unique_ids_first _ _ _ Hi) as [r1 ->].
      destruct (module_unique_ids_first _ _ _ _ Hm) as [r2 H]. discriminate H. }
  apply NoDup_app.
  - apply NoDup_ecu_unique_ids.
  - apply (NoDup_flat_map_by_key inv_id); [exact Hinv | exact Hone |].
    intros i1 i2 z _ _ H1 H2.
    apply in_app_or in H1. apply in_app_or in H2.
    destruct H1 as [H1|H1]; destruct H2 as [H2|H2].
    + exact (inverter_unique_ids_meet _ _ _ _ H1 H2).
    + apply in_flat_map in H2. destruct H2 as [m [_ H2]].
      destruct (inverter_unique_ids_first _ _ _ H1) as [r1 ->].
      destruct (module_unique_ids_first _ _ _ _ H2) as [r2 H]. discriminate H.
    + apply in_flat_map in H1. destruct H1 as [m [_ H1]].
      destruct (inverter_unique_ids_first _ _ _ H2) as [r1 ->].
      destruct (module_unique_ids_first _ _ _ _ H1) as [r2 H]. discriminate H.
    + apply in_flat_map in H1. destruct H1 as [m1 [_ H1]].
      apply in_flat_map in H2. destruct H2 as [m2 [_ H2]].
      exact (proj1 (module_unique_ids_meet _ _ _ _ _ _ H1 H2)).
  - intros z He Hrest. apply in_flat_map in Hrest. destruct Hrest as [i [_ Hi]].
    destruct (ecu_unique_ids_first _ _ He) as [r ->].
    apply in_app_or in Hi. destruct Hi as [Hi|Hi].
    + destruct (inverter_unique_ids_first _ _ _ Hi) as [r2 H]. discriminate H.
    + apply in_flat_map in Hi. destruct Hi as [m [_ Hm]].
      destruct (module_unique_ids_first _ _ _ _ Hm) as [r2 H]. discriminate H.
Qed.


(** ** Properties of names, of the configuration flow and of the coordinator *)

Lemma append_assoc (a b c : string) : (a +++ b) +++ c = a +++ b +++ c.
Proof.
  induction a as [|x a IH]; cbn [String.append]; [reflexivity | rewrite IH; reflexivity].
Qed.

Lemma split_join (sep : ascii) (s : string) :
  String.concat (String sep "") (PyStr.split sep s) = s.
Proof.
  induction s as [|c s IH]; [reflexivity|].
  cbn [PyStr.split]. rewrite (split_nonempty sep s) in IH |- *.
  destruct (Ascii.eqb_spec c sep) as [->|_].
  - cbn [String.concat String.append] in IH |- *. rewrite IH. reflexivity.
  - cbn [String.concat String.append] in IH |- *.
    destruct (tl (PyStr.split sep s)); cbn [String.append]; rewrite IH; reflexivity.
Qed.

(** X18: a module entity is named after the row it came from.  For a
    seven-cell row whose identity has exactly one separator, the inverter
    it opens carries one module, and the names of that module's three
    entities are the row's identity followed by [ Power], [ DC voltage]
    and [ AC voltage]: splitting the identity at [-] and joining
    inverter and module identity with [-] give the identity back. *)
Theorem module_entity_names :
  forall (ecu : EcuData) (cells : list string) (a b : string),
    length cells = 7 ->
    id_parts cells = [a; b] ->
    exists module,
      inv_solarmodules (open_inverter cells) = [module]
      /\ inv_id (open_inverter cells) +++ "-" +++ sm_id module = row_id cells
      /\ map (fun e => _attr_name (attrs_of e))
             (module_entities ecu (open_inverter cells) module)
         = [Some (row_id cells +++ " Power");
            Some (row_id cells +++ " DC voltage");
            Some (row_id cells +++ " AC voltage")].
Proof.
  intros ecu cells a b _ Hparts.
  assert (Hid : a +++ "-" +++ b = row_id cells).
  { pose proof (split_join "-" (row_id cells)) as H.
    fold (id_parts cells) in H. rewrite Hparts in H. exact H. }
  unfold open_inverter, row_module, row_inverter. rewrite Hparts.
  cbn [nth_error nth attach add_solar_module new_InverterData inv_solarmodules
       inv_id app].
  eexists. split; [reflexivity|].
  cbn [sm_id new_SolarModule]. split; [exact Hid|].
  cbn [module_entities map SOLAR_MODULE_SENSOR_LIST init_SolarModuleSensor attrs_of
       _attr_name d_name_fn inv_id sm_id new_SolarModule].
  rewrite <- Hid, !append_assoc. reflexivity.
Qed.

Lemma strip_non_alnum_app (a b : string) :
  PyRe.strip_non_alnum (a +++ b) = PyRe.strip_non_alnum a +++ PyRe.strip_non_alnum b.
Proof.
  induction a as [|c a IH]; [reflexivity|].
  cbn [String.append]. rewrite !strip_non_alnum_cons.
  destruct (PyRe.alnum c); cbn [String.append]; rewrite IH; reflexivity.
Qed.

Lemma strip_non_alnum_length (s : string) :
  String.length (PyRe.strip_non_alnum s) <= String.length s.
Proof.
  induction s as [|c s IH]; [cbn; lia|].
  rewrite strip_non_alnum_cons. destruct (PyRe.alnum c); cbn [String.length]; lia.
Qed.

(** X19: the sanitising substitution [re.sub(r"[^0-9a-zA-Z]+", "", s)] of
    the flow and of the module entities.  Its result has only alphanumeric
    characters and is never longer than [s]; it leaves [s] unchanged exactly
    when [s] is alphanumeric, so applying it twice is applying it once; and
    it distributes over concatenation. *)
Theorem strip_non_alnum_properties :
  forall (s t : string),
    PyRe.all_alnum (PyRe.strip_non_alnum s) = true
    /\ String.length (PyRe.strip_non_alnum s) <= String.length s
    /\ (PyRe.strip_non_alnum s = s <-> PyRe.all_alnum s = true)
    /\ PyRe.strip_non_alnum (PyRe.strip_non_alnum s) = PyRe.strip_non_alnum s
    /\ PyRe.strip_non_alnum (s +++ t)
       = PyRe.strip_non_alnum s +++ PyRe.strip_non_alnum t.
Proof.
  intros s t. split; [apply strip_non_alnum_alnum|].
  split; [apply strip_non_alnum_length|]. split; [|split].
  - split; [|apply strip_non_alnum_fixed].
    intros H. rewrite <- H. apply strip_non_alnum_alnum.
  - apply strip_non_alnum_fixed, strip_non_alnum_alnum.
  - apply strip_non_alnum_app.
Qed.

Lemma fetch_succeeds (srv : server) (address alias : string) :
  match fst (get_ecu_data srv address alias) with
  | Some ecu =>
      gateway_answers srv address = true
      /\ ecu_address ecu = address /\ ecu_alias ecu = alias
  | None => gateway_answers srv address = false
  end.
Proof.
  rewrite get_ecu_data_of_body, get_ecu_data_body_eq. unfold gateway_answers.
  destruct (srv (summary_url address)) as [e|soup]; [reflexivity|].
  destruct (locate soup "ECU ID") as [id|]; [|reflexivity].
  cbv zeta. destruct (srv (realtime_url address)) as [e|rt]; [reflexivity|].
  destruct (locate_table rt) as [table|]; [|reflexivity].
  cbn [fst]. split; [reflexivity|].
  unfold snapshot. cbv zeta.
  destruct (steps_shape (table_rows table) (summary_record soup id address alias) None)
    as [new [cur' [-> _]]].
  cbn [fst snd]. rewrite flushed_with. split; reflexivity.
Qed.

(** X20: the outcome of the user step.  Without input the form is shown
    with no error.  With input, the alias is first stripped of every
    character outside [[0-9a-zA-Z]]; if the gateway serves both pages, with
    an identity and a realtime table, an entry is created whose title and
    stored alias are the stripped alias and whose address is the one
    entered; otherwise no entry is created, the exception is logged and the
    form is shown again with the error [unknown] under [base] (the value
    [cannot_connect] is overwritten before the form is shown).  The alias
    plays no part in which of the two happens. *)
Theorem user_step_outcome :
  forall (srv : server),
    async_step_user srv None = (ShowForm "user" STEP_DATA_SCHEMA [], [])
    /\ forall (address alias : string),
        let data := {| data_address := address; data_alias := alias |} in
        if gateway_answers srv address
        then fst (async_step_user srv (Some data))
             = CreateEntry (PyRe.strip_non_alnum alias)
                 {| data_address := address;
                    data_alias := PyRe.strip_non_alnum alias |}
        else fst (async_step_user srv (Some data))
             = ShowForm "user" STEP_DATA_SCHEMA [("base", "unknown")]
             /\ In (LogException "Cannot connect") (snd (async_step_user srv (Some data))).
Proof.
  intros srv. split; [reflexivity|]. intros address alias data.
  pose proof (fetch_succeeds srv address (PyRe.strip_non_alnum alias)) as H.
  unfold async_step_user, validate_input, new_EcuClient, client_get_ecu_data.
  cbn [data data_address data_alias client_address client_alias].
  destruct (get_ecu_data srv address (PyRe.strip_non_alnum alias)) as [[ecu|] t];
    cbn [fst] in H.
  - destruct H as [-> _]. reflexivity.
  - rewrite H. cbn [fst snd dict_set String.eqb]. split; [reflexivity|].
    apply in_or_app. right. left. reflexivity.
Qed.

(** X21: the coordinator of a created entry polls what was entered.  If
    the user step creates an entry, its title is the entered alias stripped
    of the characters outside [[0-9a-zA-Z]], and the gateway served both
    pages at the entered address.  The coordinator built from the entry's
    data then polls the entered address under that title, whatever gateway
    is there at the time of the poll: the poll obtains a snapshot exactly
    when that gateway serves both pages at the entered address, with an
    identity and a realtime table, and the alias of any snapshot it obtains
    is the entry's title, which is alphanumeric, and its address the
    address that was entered. *)
Theorem created_entry_polls :
  forall (srv later : server) (input : user_input) (title : string)
         (data : user_input),
    fst (async_step_user srv (Some input)) = CreateEntry title data ->
    let coordinator := fst (new_EcuUpdateCoordinator data) in
    title = PyRe.strip_non_alnum (data_alias input)
    /\ gateway_answers srv (data_address input) = true
    /\ (gateway_answers later (data_address input) = true
        <-> exists ecu, fst (_async_update_data later coordinator) = Some ecu)
    /\ (forall ecu,
           fst (_async_update_data later coordinator) = Some ecu ->
           ecu_alias ecu = title
           /\ PyRe.all_alnum (ecu_alias ecu) = true
           /\ ecu_address ecu = data_address input).
Proof.
  intros srv later [address alias] title data Hstep coordinator.
  subst coordinator.
  pose proof (fetch_succeeds srv address (PyRe.strip_non_alnum alias)) as H.
  pose proof (fetch_succeeds later address (PyRe.strip_non_alnum alias)) as Hl.
  unfold async_step_user, validate_input, new_EcuClient, client_get_ecu_data in Hstep.
  cbn [data_address data_alias client_address client_alias] in Hstep.
  destruct (get_ecu_data srv address (PyRe.strip_non_alnum alias)) as [[ecu0|] t0];
    cbn [fst] in H, Hstep; [|discriminate Hstep].
  injection Hstep as <- <-.
  unfold _async_update_data, new_EcuUpdateCoordinator, new_EcuClient,
    client_get_ecu_data.
  cbn [fst _ecuClient data_address data_alias client_address client_alias].
  destruct (get_ecu_data later address (PyRe.strip_non_alnum alias)) as [[ecu1|] t1];
    cbn [fst] in Hl |- *.
  - destruct H as [Hsrv _]. destruct Hl as [Hlater [Haddr Halias]].
    split; [reflexivity|]. split; [exact Hsrv|]. split.
    + split; [intros _; exists ecu1; reflexivity | intros _; exact Hlater].
    + intros ecu Heq. injection Heq as <-.
      split; [exact Halias|]. split; [|exact Haddr].
      rewrite Halias. apply strip_non_alnum_alnum.
  - destruct H as [Hsrv _].
    split; [reflexivity|]. split; [exact Hsrv|]. split.
    + split; [intros Habs; rewrite Hl in Habs; discriminate Habs
             | intros [ecu Habs]; discriminate Habs].
    + intros ecu Habs. discriminate Habs.
Qed.


(** X22: a continuation row goes to the open inverter, whoever it names.
    The loop never reads the inverter part of a continuation row's
    identity: two continuation rows with the same cells after the first and
    the same module part of the identity are processed alike, in every
    state, so a row that names another inverter still hands its module to
    the inverter that is open. *)
Theorem continuation_ignores_inverter_part :
  forall (st : loop_state) (cells cells' : list string),
    continuation cells -> continuation cells' ->
    tl cells = tl cells' ->
    nth_error (id_parts cells) 1 = nth_error (id_parts cells') 1 ->
    process_row st cells = process_row st cells'.
Proof.
  intros st cells cells' [H0 H7] [H0' H7'] Htl Hid.
  destruct cells as [|c0 t]; [contradiction|].
  destruct cells' as [|c0' t']; [contradiction|].
  cbn [tl] in Htl. subst t'.
  assert (Hmod : row_module (c0 :: t) 3 = row_module (c0' :: t) 3).
  { unfold row_module. rewrite Hid. reflexivity. }
  rewrite !process_row_step.
  rewrite (step_continuation st _ H0 H7), (step_continuation st _ H0' H7'), Hmod.
  f_equal. unfold step_log. cbn [length] in *.
  destruct (Nat.eqb_spec (S (length t)) 0) as [E0|_]; [reflexivity|].
  destruct (Nat.eqb_spec (S (length t)) 7) as [E7|_]; [contradiction|].
  rewrite Hmod. reflexivity.
Qed.


End Client.

(** ** The results on the sample gateway *)

Local Abbreviation process_row_s :=
  (process_row Sample.float Sample.float_of_string Sample.datetime Sample.strptime_opt).
Local Abbreviation for_rows_s :=
  (for_rows Sample.float Sample.float_of_string Sample.datetime Sample.strptime_opt).
Local Abbreviation reconstruct_s :=
  (reconstruct Sample.float Sample.float_of_string Sample.datetime Sample.strptime_opt).
Local Abbreviation extract_summary_s :=
  (extract_summary Sample.float Sample.float_of_string Sample.float_zero Sample.datetime).
Local Abbreviation get_ecu_data_s :=
  (get_ecu_data Sample.float Sample.float_of_string Sample.float_zero
     Sample.datetime Sample.strptime_opt).
Local Abbreviation record_s :=
  (new_EcuData Sample.float Sample.datetime "216000012345" "192.168.1.50" "roof"
     (PyFloat Sample.float (12345%Z, 1)) 123%Z (PyFloat Sample.float (42%Z, 1))
     2%Z 2%Z "V1.2.3").
Local Abbreviation inverters_s := (ecu_inverters Sample.float Sample.datetime).
Local Abbreviation modules_s := (inv_solarmodules Sample.float Sample.datetime).

(** The page of the examples, end to end: one inverter with two modules. *)
Example fetch_sample :
  exists ecu,
    get_ecu_data_s (Sample.gateway Sample.summary Sample.realtime) "192.168.1.50" "roof"
    = (Some ecu, [Get "http://192.168.1.50";
                  Get "http://192.168.1.50/index.php/realtimedata"])
    /\ ecu_power _ _ ecu = 123%Z
    /\ map (fun i => map sm_id (modules_s i)) (inverters_s ecu) = [["1"; "2"]].
Proof. eexists. repeat split. Qed.

(** A cancelled request is swallowed like any other failure. *)
Example fetch_cancelled :
  fst (get_ecu_data_s (Sample.gateway_cut Sample.summary CancelledError)
         "192.168.1.50" "roof") = None.
Proof. reflexivity. Qed.

(** C1, as stated, fails on two consecutive seven-cell rows whose identities
    have no separator: two inverters result, each with no module. *)
Lemma two_rows_without_separator :
  length Sample.row_c = 7 /\ length Sample.row_d = 7
  /\ (exists ecu,
         fst (reconstruct_s [Sample.row_c; Sample.row_d] record_s) = Ok ecu
         /\ map (fun i => length (modules_s i)) (inverters_s ecu) = [0; 0])
  /\ ~ (exists ecu,
           fst (reconstruct_s [Sample.row_c; Sample.row_d] record_s) = Ok ecu
           /\ Forall (fun i => length (modules_s i) = 1) (inverters_s ecu)).
Proof.
  split; [reflexivity|]. split; [reflexivity|]. split.
  - eexists. split; reflexivity.
  - intros [ecu [Hrun Hall]]. vm_compute in Hrun. injection Hrun as <-.
    inversion Hall as [|i l Hlen _]. discriminate Hlen.
Qed.

(** C1 (amended) on two sample rows with well-formed identities. *)
Lemma flush_before_open_witness :
  (length Sample.row_a1 = 7 /\ length Sample.row_b1 = 7
   /\ well_formed Sample.row_a1 /\ well_formed Sample.row_b1)
  /\ exists i1 i2,
      fst (for_rows_s [Sample.row_a1] (record_s, None)) = Ok (record_s, Some i1)
      /\ fst (for_rows_s [Sample.row_a1; Sample.row_b1] (record_s, None))
         = Ok (add_inverter _ _ record_s i1, Some i2)
      /\ fst (reconstruct_s [Sample.row_a1; Sample.row_b1] record_s)
         = Ok (add_inverter _ _ (add_inverter _ _ record_s i1) i2)
      /\ length (modules_s i1) = 1
      /\ length (modules_s i2) = 1.
Proof.
  split; [repeat split|].
  apply (proj2 (proj2 (flush_before_open Sample.float Sample.float_of_string
                         Sample.datetime Sample.strptime_opt))
           record_s Sample.row_a1 Sample.row_b1); reflexivity.
Defined.

(** C2 on a sample inverter row followed by two continuation rows. *)
Lemma modules_in_row_order_witness :
  (length Sample.row_a1 = 7
   /\ Forall continuation [Sample.row_a2; Sample.row_a3]
   /\ Forall well_formed [Sample.row_a1; Sample.row_a2; Sample.row_a3])
  /\ exists inv log,
      reconstruct_s [Sample.row_a1; Sample.row_a2; Sample.row_a3] record_s
      = (Ok (add_inverter _ _ record_s inv), log)
      /\ inverters_s (add_inverter _ _ record_s inv) = inverters_s record_s ++ [inv]
      /\ length (modules_s inv) = 2 + 1
      /\ map Some (modules_s inv)
         = row_module Sample.row_a1 4
           :: map (fun r => row_module r 3) [Sample.row_a2; Sample.row_a3]
      /\ map sm_id (modules_s inv)
         = map (fun r => nth 1 (id_parts r) "")
             [Sample.row_a1; Sample.row_a2; Sample.row_a3].
Proof.
  assert (Hc : Forall continuation [Sample.row_a2; Sample.row_a3]).
  { repeat constructor; cbn; lia. }
  assert (Hw : Forall well_formed [Sample.row_a1; Sample.row_a2; Sample.row_a3]).
  { repeat constructor. }
  split; [repeat split; assumption|].
  exact (modules_in_row_order Sample.float Sample.float_of_string
           Sample.datetime Sample.strptime_opt
           record_s Sample.row_a1 [Sample.row_a2; Sample.row_a3] eq_refl Hc Hw).
Defined.

Local Abbreviation inverter_s :=
  (new_InverterData Sample.float Sample.datetime "408000111"
     (PyFloat Sample.float (500%Z, 1)) 25%Z (PyTimeInt Sample.datetime 0)).

(** C3 on a sample four-cell continuation row. *)
Lemma row_layout_by_cell_count_witness :
  (length Sample.row_a2 <> 0 /\ length Sample.row_a2 <> 7)
  /\ fst (process_row_s (record_s, None) Sample.row_a2) = Ok (record_s, None)
  /\ exists inv',
      fst (process_row_s (record_s, Some inverter_s) Sample.row_a2)
      = Ok (record_s, Some inv')
      /\ exists sm,
          modules_s inv' = modules_s inverter_s ++ [sm]
          /\ sm_id sm = "2"
          /\ sm_power sm = 118%Z
          /\ sm_dcvoltage sm = 35%Z
          /\ sm_gridvoltage sm = 229%Z.
Proof.
  assert (H0 : length Sample.row_a2 <> 0) by (cbn; lia).
  assert (H7 : length Sample.row_a2 <> 7) by (cbn; lia).
  split; [split; assumption|].
  destruct (proj2 (row_layout_by_cell_count Sample.float Sample.float_of_string
                     Sample.datetime Sample.strptime_opt)
              record_s inverter_s Sample.row_a2 H0 H7)
    as [Hdrop [inv' [Hrun [_ [_ [_ [_ [Hmod _]]]]]]]].
  split; [exact Hdrop|].
  exists inv'. split; [exact Hrun|].
  exact (Hmod "2" eq_refl).
Defined.

(** C4 on an empty row and a continuation row ahead of an inverter row. *)
Lemma leading_continuation_row_dropped_witness :
  (Forall (fun r : list string => length r = 0) [[]]
   /\ length Sample.row_a2 <> 0 /\ length Sample.row_a2 <> 7)
  /\ for_rows_s ([[]] ++ [Sample.row_a2]) (record_s, None) = (Ok (record_s, None), [])
  /\ reconstruct_s ([[]] ++ Sample.row_a2 :: [Sample.row_a1]) record_s
     = reconstruct_s [Sample.row_a1] record_s.
Proof.
  assert (He : Forall (fun r : list string => length r = 0) [[]])
    by (repeat constructor).
  assert (H0 : length Sample.row_a2 <> 0) by (cbn; lia).
  assert (H7 : length Sample.row_a2 <> 7) by (cbn; lia).
  split; [repeat split; assumption|].
  exact (leading_continuation_row_dropped Sample.float Sample.float_of_string
           Sample.datetime Sample.strptime_opt
           record_s [[]] Sample.row_a2 [Sample.row_a1] He H0 H7).
Defined.

(** C5 on a summary page without the identity label, and on one whose
    identity label has no value cell. *)
Lemma missing_identity_fails_fetch_witness :
  (Sample.gateway Sample.summary_no_id Sample.realtime (summary_url "192.168.1.50")
   = Page Sample.summary_no_id
   /\ locate Sample.summary_no_id "ECU ID" = None
   /\ get_ecu_data_s (Sample.gateway Sample.summary_no_id Sample.realtime)
        "192.168.1.50" "roof"
      = (None, [Get "http://192.168.1.50"]))
  /\ (Sample.gateway Sample.summary_id_without_value Sample.realtime
        (summary_url "192.168.1.50")
      = Page Sample.summary_id_without_value
      /\ locate Sample.summary_id_without_value "ECU ID" = None
      /\ get_ecu_data_s (Sample.gateway Sample.summary_id_without_value Sample.realtime)
           "192.168.1.50" "roof"
         = (None, [Get "http://192.168.1.50"])).
Proof.
  split; (split; [reflexivity|]); (split; [reflexivity|]).
  - apply (missing_identity_fails_fetch Sample.float Sample.float_of_string
             Sample.float_zero Sample.datetime Sample.strptime_opt
             (Sample.gateway Sample.summary_no_id Sample.realtime)
             "192.168.1.50" "roof" Sample.summary_no_id eq_refl).
    intros table Htable. vm_compute in Htable. injection Htable as <-.
    left. reflexivity.
  - apply (missing_identity_fails_fetch Sample.float Sample.float_of_string
             Sample.float_zero Sample.datetime Sample.strptime_opt
             (Sample.gateway Sample.summary_id_without_value Sample.realtime)
             "192.168.1.50" "roof" Sample.summary_id_without_value eq_refl).
    intros table Htable. vm_compute in Htable. injection Htable as <-.
    right. eexists. split; reflexivity.
Defined.

(** C7 on the sample summary page with an unreadable power cell. *)
Lemma summary_fields_isolated_witness :
  (locate Sample.summary_bad_power "ECU ID" = Some "216000012345"
   /\ field_on_page Sample.float Sample.float_of_string
        Sample.summary_bad_power LastSystemPower = None)
  /\ exists ecu log,
      extract_summary_s Sample.summary_bad_power "192.168.1.50" "roof" = (Ok ecu, log)
      /\ get_field _ _ LastSystemPower ecu = VInt _ 0
      /\ get_field _ _ LifetimeGeneration ecu = VNumber _ (PyFloat _ (12345%Z, 1))
      /\ get_field _ _ DailyGeneration ecu = VNumber _ (PyFloat _ (42%Z, 1))
      /\ get_field _ _ InverterCount ecu = VInt _ 2
      /\ get_field _ _ OnlineInverterCount ecu = VInt _ 2
      /\ get_field _ _ FirmwareVersion ecu = VStr _ "V1.2.3"
      /\ ecu_id _ _ ecu = "216000012345".
Proof.
  split; [split; reflexivity|].
  destruct (summary_fields_isolated Sample.float Sample.float_of_string
              Sample.float_zero Sample.datetime
              Sample.summary_bad_power "192.168.1.50" "roof" "216000012345"
              LastSystemPower eq_refl eq_refl)
    as [ecu [log [Hrun [Hbad [Hgood [Hid _]]]]]].
  exists ecu, log. split; [exact Hrun|]. split; [exact Hbad|].
  repeat split; try (apply Hgood; reflexivity). exact Hid.
Defined.

(** C8 on the sample summary pages and on a sample inverter row. *)
Lemma watt_coercion_witness :
  (locate Sample.summary "ECU ID" = Some "216000012345"
   /\ locate Sample.summary "Last System Power" = Some "123 W"
   /\ locate Sample.summary_bad_power "ECU ID" = Some "216000012345"
   /\ locate Sample.summary_bad_power "Last System Power" = Some "bad"
   /\ PyStr.contains "-" (PyStr.strip "408000111-1") = true)
  /\ (exists ecu log,
         extract_summary_s Sample.summary "192.168.1.50" "roof" = (Ok ecu, log)
         /\ ecu_power _ _ ecu = 123%Z)
  /\ (exists ecu log,
         extract_summary_s Sample.summary_bad_power "192.168.1.50" "roof" = (Ok ecu, log)
         /\ ecu_power _ _ ecu = 0%Z
         /\ In (Log WARNING ValueError) log)
  /\ (exists inv log,
         process_row_s (record_s, None)
           ["408000111-1"; "123 W"; "36 V"; "50.0 Hz"; "230 V"; "25"; "2024-05-01 12:00:00"]
         = (Ok (record_s, Some inv), log)
         /\ map sm_power (modules_s inv) = [123%Z])
  /\ (exists inv log,
         process_row_s (record_s, None)
           ["408000111-1"; "bad"; "36 V"; "50.0 Hz"; "230 V"; "25"; "2024-05-01 12:00:00"]
         = (Ok (record_s, Some inv), log)
         /\ map sm_power (modules_s inv) = [0%Z]
         /\ In (Log WARNING ValueError) log).
Proof.
  split; [repeat split|].
  pose proof (watt_coercion Sample.float Sample.float_of_string Sample.float_zero
                Sample.datetime Sample.strptime_opt) as [Hsummary Hrow].
  split; [|split; [|split]].
  - exact (proj1 (Hsummary Sample.summary "192.168.1.50" "roof" "216000012345" eq_refl)
             eq_refl).
  - exact (proj2 (Hsummary Sample.summary_bad_power "192.168.1.50" "roof"
                    "216000012345" eq_refl) eq_refl).
  - exact (proj1 (Hrow (record_s, None) "408000111-1" "36 V" "50.0 Hz" "230 V" "25"
                    "2024-05-01 12:00:00" eq_refl)).
  - exact (proj2 (Hrow (record_s, None) "408000111-1" "36 V" "50.0 Hz" "230 V" "25"
                    "2024-05-01 12:00:00" eq_refl)).
Defined.

(** C9 on a sample row whose timestamp cell reads [yesterday]. *)
Lemma unreadable_timestamp_degrades_witness :
  Sample.strptime_opt (PyStr.strip "yesterday") time_format = None
  /\ exists inv log,
      process_row_s (record_s, None) Sample.row_b1 = (Ok (record_s, Some inv), log)
      /\ inv_reportingtime _ _ inv = PyTimeInt _ 0
      /\ In (Log WARNING ValueError) log
      /\ inv_id _ _ inv = "408000222"
      /\ inv_freq _ _ inv = PyFloat _ (499%Z, 1)
      /\ inv_temperature _ _ inv = 24%Z
      /\ map Some (modules_s inv) = [Some (new_SolarModule "1" 99 33 231)].
Proof.
  split; [reflexivity|].
  exact (unreadable_timestamp_degrades Sample.float Sample.float_of_string
           Sample.datetime Sample.strptime_opt (record_s, None)
           "408000222-1" "99 W" "33 V" "49.9 Hz" "231 V" "24" "yesterday" eq_refl).
Defined.

(** C10 on a sample row whose identity is [408000333]. *)
Lemma inverter_without_separator_witness :
  PyStr.contains "-" (row_id Sample.row_c) = false
  /\ exists inv log,
      process_row_s (record_s, None) Sample.row_c = (Ok (record_s, Some inv), log)
      /\ inv_id _ _ inv = "408000333"
      /\ modules_s inv = []
      /\ In (Log ERROR IndexError) log
      /\ fst (reconstruct_s [Sample.row_c] record_s) = Ok (add_inverter _ _ record_s inv)
      /\ In inv (inverters_s (add_inverter _ _ record_s inv)).
Proof.
  split; [reflexivity|].
  exact (inverter_without_separator_has_no_module Sample.float Sample.float_of_string
           Sample.datetime Sample.strptime_opt record_s None
           "408000333" "77 W" "30 V" "50.0 Hz" "230 V" "20" "2024-05-01 12:00:00"
           eq_refl).
Defined.

(** ** The further properties on the sample gateway *)

Local Abbreviation domain_s := "apsystems_scrap".
Local Abbreviation import_time_s := [2024%Z; 5%Z; 1%Z; 0%Z; 0%Z; 0%Z].
Local Abbreviation entities_s :=
  (entities_of Sample.float Sample.datetime domain_s import_time_s).
Local Abbreviation update_s :=
  (_handle_coordinator_update Sample.float Sample.datetime).
Local Abbreviation inverter_a :=
  (add_solar_module _ _
     (add_solar_module _ _ inverter_s (new_SolarModule "1" 123 36 230))
     (new_SolarModule "2" 118 35 229)).
Local Abbreviation inverter_b :=
  (add_solar_module _ _
     (new_InverterData Sample.float Sample.datetime "408000222"
        (PyFloat Sample.float (499%Z, 1)) 24%Z (PyTimeInt Sample.datetime 0))
     (new_SolarModule "1" 99 33 231)).
Local Abbreviation snapshot_s :=
  (with_inverters Sample.float Sample.datetime record_s [inverter_a; inverter_b]).
(** An inverter whose first module has a dot in its identity. *)
Local Abbreviation inverter_dotted :=
  (add_solar_module _ _
     (add_solar_module _ _ inverter_s (new_SolarModule "1.5" 123 36 230))
     (new_SolarModule "2" 118 35 229)).
Local Abbreviation snapshot_dotted :=
  (with_inverters Sample.float Sample.datetime record_s [inverter_dotted]).
(** Two inverters of one identity, the second holding the dotted module. *)
Local Abbreviation snapshot_twins :=
  (with_inverters Sample.float Sample.datetime record_s [inverter_a; inverter_dotted]).

(** X7 on a sample table of two inverters and a separator row. *)
Lemma every_row_gives_a_module_witness :
  (length Sample.row_a1 = 7
   /\ Forall (fun r => length r = 0 \/ well_formed r)
        [Sample.row_a1; []; Sample.row_a2; Sample.row_a3; Sample.row_b1])
  /\ exists ecu' log,
      reconstruct_s [Sample.row_a1; []; Sample.row_a2; Sample.row_a3; Sample.row_b1]
        record_s = (Ok ecu', log)
      /\ length (all_modules _ _ ecu')
         = length (all_modules _ _ record_s)
           + length (filter nonempty_row
                       [Sample.row_a1; []; Sample.row_a2; Sample.row_a3; Sample.row_b1]).
Proof.
  assert (Hw : Forall (fun r => length r = 0 \/ well_formed r)
                 [Sample.row_a1; []; Sample.row_a2; Sample.row_a3; Sample.row_b1]).
  { repeat (apply Forall_cons; [first [left; reflexivity | right; reflexivity]|]).
    apply Forall_nil. }
  split; [split; [reflexivity | exact Hw]|].
  exact (every_row_gives_a_module Sample.float Sample.float_of_string
           Sample.datetime Sample.strptime_opt record_s Sample.row_a1
           [[]; Sample.row_a2; Sample.row_a3; Sample.row_b1] eq_refl Hw).
Defined.

(** X8 on a sample group following another. *)
Lemma groups_are_independent_witness :
  (inverters_s record_s = [] /\ length Sample.row_b1 = 7)
  /\ exists ecu1 ecu2 ecu',
      fst (reconstruct_s [Sample.row_a1; Sample.row_a2] record_s) = Ok ecu1
      /\ fst (reconstruct_s (Sample.row_b1 :: [Sample.row_a3]) record_s) = Ok ecu2
      /\ fst (reconstruct_s ([Sample.row_a1; Sample.row_a2]
                             ++ Sample.row_b1 :: [Sample.row_a3]) record_s) = Ok ecu'
      /\ inverters_s ecu' = inverters_s ecu1 ++ inverters_s ecu2.
Proof.
  split; [split; reflexivity|].
  exact (groups_are_independent Sample.float Sample.float_of_string
           Sample.datetime Sample.strptime_opt record_s
           [Sample.row_a1; Sample.row_a2] [Sample.row_a3] Sample.row_b1
           eq_refl eq_refl).
Defined.

(** X10 on the sample summary page with an unreadable power cell. *)
Lemma summary_warns_per_field_witness :
  locate Sample.summary_bad_power "ECU ID" = Some "216000012345"
  /\ exists ecu,
      extract_summary_s Sample.summary_bad_power "192.168.1.50" "roof"
      = (Ok ecu, [Log WARNING ValueError])
      /\ length [Log WARNING ValueError] = 1
      /\ requests [Log WARNING ValueError] = [].
Proof.
  split; [reflexivity|].
  exact (summary_warns_per_field Sample.float Sample.float_of_string
           Sample.float_zero Sample.datetime Sample.summary_bad_power
           "192.168.1.50" "roof" "216000012345" eq_refl).
Defined.

(** X12 on the sample gateway. *)
Lemma snapshot_contents_witness :
  exists ecu t,
    get_ecu_data_s (Sample.gateway Sample.summary Sample.realtime)
      "192.168.1.50" "roof" = (Some ecu, t)
    /\ exists soup soup_realtimedata table,
        Sample.gateway Sample.summary Sample.realtime (summary_url "192.168.1.50")
        = Page soup
        /\ Sample.gateway Sample.summary Sample.realtime (realtime_url "192.168.1.50")
           = Page soup_realtimedata
        /\ locate_table soup_realtimedata = Some table
        /\ locate soup "ECU ID" = Some (ecu_id _ _ ecu)
        /\ ecu_address _ _ ecu = "192.168.1.50"
        /\ ecu_alias _ _ ecu = "roof"
        /\ (forall f,
               get_field _ _ f ecu
               = match field_on_page Sample.float Sample.float_of_string soup f with
                 | Some v => v
                 | None => default_value Sample.float Sample.float_zero f
                 end)
        /\ map (inv_id _ _) (inverters_s ecu)
           = map row_inverter_id
               (filter (fun r => length r =? 7) (table_rows table)).
Proof.
  eexists _, _. split; [reflexivity|].
  exact (snapshot_contents Sample.float Sample.float_of_string
           Sample.float_zero Sample.datetime Sample.strptime_opt
           (Sample.gateway Sample.summary Sample.realtime)
           "192.168.1.50" "roof" _ _ eq_refl).
Defined.

(** X14 on a sample snapshot of two inverters. *)
Lemma refresh_on_same_snapshot_witness :
  NoDup (map (inv_id _ _) (inverters_s snapshot_s))
  /\ Forall (fun e => update_s e (Some snapshot_s) = (Ok e, []))
       (entities_s snapshot_s).
Proof.
  assert (Hinv : NoDup (map (inv_id _ _) (inverters_s snapshot_s))).
  { cbn. distinct_strings. }
  split; [exact Hinv|].
  apply Forall_forall. intros e He.
  apply (refresh_on_same_snapshot Sample.float Sample.datetime domain_s
           import_time_s snapshot_s Hinv); [|exact He].
  intros inverter Hin. cbn in Hin. destruct Hin as [<-|[<-|[]]]; cbn.
  - split; [distinct_strings | repeat constructor].
  - split; [distinct_strings | repeat constructor].
Defined.

(** X15 on a gateway that stops answering, and on an identity that no
    inverter of the sample snapshot carries. *)
Lemma refresh_without_data_witness :
  (fst (get_ecu_data_s (Sample.gateway_cut Sample.summary TimeoutError)
          "192.168.1.50" "roof") = None
   /\ Forall (fun i => inv_id _ _ i <> "408000999") (inverters_s snapshot_s))
  /\ Forall (fun e => update_s e None = (Raise AttributeError, []))
       (entities_s snapshot_s)
  /\ (forall d a, update_s (InverterSensor _ _ d "408000999" a) (Some snapshot_s)
                  = (Raise AttributeError, [])).
Proof.
  assert (Hnone : Forall (fun i => inv_id _ _ i <> "408000999") (inverters_s snapshot_s)).
  { cbn. repeat (apply Forall_cons; [discriminate|]). apply Forall_nil. }
  split; [split; [reflexivity | exact Hnone]|].
  pose proof (refresh_without_data Sample.float Sample.float_of_string
                Sample.float_zero Sample.datetime Sample.strptime_opt)
    as [Hdata [_ Hstale]].
  split.
  - apply Forall_forall. intros e _. apply Hdata.
  - exact (proj1 (Hstale snapshot_s "408000999" Hnone)).
Defined.

(** X16 on a module whose identity is [1.5]: in a snapshot with one
    inverter, and in a snapshot where another inverter of the same identity
    comes first. *)
Lemma module_refresh_by_sanitised_id_witness :
  ((NoDup (map (inv_id _ _) (inverters_s snapshot_dotted))
    /\ Forall (fun m => sm_id m <> PyRe.strip_non_alnum "1.5")
         (modules_s inverter_dotted))
   /\ PyRe.all_alnum "1.5" = false
   /\ Forall
        (fun d =>
           update_s (init_SolarModuleSensor _ _ domain_s d
                       (new_SolarModule "1.5" 123 36 230) "408000111" snapshot_dotted)
             (Some snapshot_dotted)
           = (Raise AttributeError, []))
        (SOLAR_MODULE_SENSOR_LIST Sample.float Sample.datetime))
  /\ (get_inverter_by_id _ _ snapshot_twins "408000111" = Some inverter_a
      /\ Forall (fun m => sm_id m <> PyRe.strip_non_alnum "1.5")
           (modules_s inverter_a))
  /\ Forall
       (fun d =>
          update_s (init_SolarModuleSensor _ _ domain_s d
                      (new_SolarModule "1.5" 123 36 230) "408000111" snapshot_twins)
            (Some snapshot_twins)
          = (Raise AttributeError, []))
       (SOLAR_MODULE_SENSOR_LIST Sample.float Sample.datetime).
Proof.
  assert (Hinv : NoDup (map (inv_id _ _) (inverters_s snapshot_dotted))).
  { cbn. distinct_strings. }
  assert (Hnone : Forall (fun m => sm_id m <> PyRe.strip_non_alnum "1.5")
                    (modules_s inverter_dotted)).
  { cbn. repeat (apply Forall_cons; [discriminate|]). apply Forall_nil. }
  assert (Hfirst : Forall (fun m => sm_id m <> PyRe.strip_non_alnum "1.5")
                     (modules_s inverter_a)).
  { cbn. repeat (apply Forall_cons; [discriminate|]). apply Forall_nil. }
  split; [split; [split; assumption|]|split; [split; [reflexivity | exact Hfirst]|]].
  - split; [reflexivity|].
    apply Forall_forall. intros d _.
    apply (proj2 (module_refresh_by_sanitised_id Sample.float Sample.datetime domain_s)
             snapshot_dotted inverter_dotted (new_SolarModule "1.5" 123 36 230) d Hinv).
    + left. reflexivity.
    + left. reflexivity.
    + exact Hnone.
  - apply Forall_forall. intros d _.
    exact (proj1 (proj1 (module_refresh_by_sanitised_id Sample.float Sample.datetime
                           domain_s)
                    snapshot_twins "408000111" inverter_a
                    (new_SolarModule "1.5" 123 36 230) d eq_refl Hfirst)).
Defined.

(** X17 on the sample snapshot. *)
Lemma unique_ids_are_distinct_witness :
  NoDup (map (inv_id _ _) (inverters_s snapshot_s))
  /\ NoDup (map (unique_id_of _ _) (entities_s snapshot_s)).
Proof.
  assert (Hinv : NoDup (map (inv_id _ _) (inverters_s snapshot_s))).
  { cbn. distinct_strings. }
  split; [exact Hinv|].
  apply (unique_ids_are_distinct Sample.float Sample.datetime domain_s
           import_time_s snapshot_s Hinv).
  intros inverter Hin. cbn in Hin. destruct Hin as [<-|[<-|[]]]; cbn; distinct_strings.
Defined.

(** X18 on the sample row [408000111-1]. *)
Lemma module_entity_names_witness :
  (length Sample.row_a1 = 7 /\ id_parts Sample.row_a1 = ["408000111"; "1"])
  /\ exists module,
      modules_s (open_inverter Sample.float Sample.float_of_string Sample.datetime
                   Sample.strptime_opt Sample.row_a1) = [module]
      /\ map (fun e => _attr_name _ _ (attrs_of _ _ e))
             (module_entities Sample.float Sample.datetime domain_s snapshot_s
                (open_inverter Sample.float Sample.float_of_string Sample.datetime
                   Sample.strptime_opt Sample.row_a1) module)
         = [Some "408000111-1 Power"; Some "408000111-1 DC voltage";
            Some "408000111-1 AC voltage"].
Proof.
  split; [split; reflexivity|].
  destruct (module_entity_names Sample.float Sample.float_of_string Sample.datetime
              Sample.strptime_opt domain_s snapshot_s Sample.row_a1
              "408000111" "1" eq_refl eq_refl)
    as [module [Hm [_ Hnames]]].
  exists module. split; [exact Hm | exact Hnames].
Defined.

(** X21 on the sample gateway and the alias [my roof!], the gateway
    serving other pages by the time of the poll. *)
Lemma created_entry_polls_witness :
  fst (async_step_user Sample.float Sample.float_of_string Sample.float_zero
         Sample.datetime Sample.strptime_opt
         (Sample.gateway Sample.summary Sample.realtime)
         (Some {| data_address := "192.168.1.50"; data_alias := "my roof!" |}))
  = CreateEntry "myroof" {| data_address := "192.168.1.50"; data_alias := "myroof" |}
  /\ exists ecu,
      fst (_async_update_data Sample.float Sample.float_of_string Sample.float_zero
             Sample.datetime Sample.strptime_opt
             (Sample.gateway Sample.summary_bad_power
                (Sample.realtime_page [Sample.row_b1]))
             (fst (new_EcuUpdateCoordinator
                     {| data_address := "192.168.1.50"; data_alias := "myroof" |})))
      = Some ecu
      /\ ecu_alias _ _ ecu = "myroof"
      /\ PyRe.all_alnum (ecu_alias _ _ ecu) = true
      /\ ecu_address _ _ ecu = "192.168.1.50".
Proof.
  split; [reflexivity|].
  destruct (created_entry_polls Sample.float Sample.float_of_string Sample.float_zero
              Sample.datetime Sample.strptime_opt
              (Sample.gateway Sample.summary Sample.realtime)
              (Sample.gateway Sample.summary_bad_power
                 (Sample.realtime_page [Sample.row_b1]))
              {| data_address := "192.168.1.50"; data_alias := "my roof!" |}
              "myroof" {| data_address := "192.168.1.50"; data_alias := "myroof" |}
              eq_refl)
    as [_ [_ [[Hpoll _] Hsnap]]].
  destruct (Hpoll eq_refl) as [ecu Hecu].
  exists ecu. split; [exact Hecu | exact (Hsnap ecu Hecu)].
Defined.

(** X22 on a continuation row that names another inverter. *)
Lemma continuation_ignores_inverter_part_witness :
  (continuation Sample.row_a2
   /\ continuation ["408000999-2"; "118 W"; "35 V"; "229 V"]
   /\ tl Sample.row_a2 = tl ["408000999-2"; "118 W"; "35 V"; "229 V"]
   /\ nth_error (id_parts Sample.row_a2) 1
      = nth_error (id_parts ["408000999-2"; "118 W"; "35 V"; "229 V"]) 1)
  /\ process_row_s (record_s, Some inverter_s) Sample.row_a2
     = process_row_s (record_s, Some inverter_s)
         ["408000999-2"; "118 W"; "35 V"; "229 V"].
Proof.
  assert (H1 : continuation Sample.row_a2) by (split; cbn; lia).
  assert (H2 : continuation ["408000999-2"; "118 W"; "35 V"; "229 V"])
    by (split; cbn; lia).
  split; [split; [exact H1|]; split; [exact H2|]; split; reflexivity|].
  exact (continuation_ignores_inverter_part Sample.float Sample.float_of_string
           Sample.datetime Sample.strptime_opt (record_s, Some inverter_s)
           Sample.row_a2 ["408000999-2"; "118 W"; "35 V"; "229 V"]
           H1 H2 eq_refl eq_refl).
Defined.
